(** * Attendance service: the API route handlers over the document store

    A shallow embedding of the request handlers of the attendance
    application (students, weekly attendance, history, assistants) and
    the properties of the per-student weekly-attendance data model.

    The document store is a record of three collections, each a list of
    documents in insertion order.  A handler is a function from the store
    and a request to a response and the store afterwards.  The token
    library ([jwt.verify]) and the password hash ([bcrypt.hash]) are
    external: handlers take them as parameters. *)

From stdpp Require Import base list strings.
From Stdlib Require Import Ascii ZArith DecimalString.

(** ** JavaScript values and string operations used by the handlers *)

Module Js.

(** A property of a JSON request body: absent, [null], or a value. *)
Inductive field (A : Type) : Type :=
| Undefined
| Null
| Val (v : A).
Global Arguments Undefined {A}.
Global Arguments Null {A}.
Global Arguments Val {A} v.

(** A property that is [undefined] or [null]. *)
Definition absent {A : Type} (f : field A) : Prop := f = Undefined \/ f = Null.

(** Truthiness of a string: every string but the empty one. *)
Definition truthy (s : string) : bool := negb (String.eqb s "").

(** Truthiness of a string-valued body property ([!name] is its negation). *)
Definition truthy_field (f : field string) : bool :=
  match f with
  | Val s => truthy s
  | _ => false
  end.

(** Truthiness of a value that is a string or [null]. *)
Definition truthy_opt (o : option string) : bool :=
  match o with
  | Some s => truthy s
  | None => false
  end.

(** [x || null] on a string or [null]. *)
Definition or_null (o : option string) : option string :=
  if truthy_opt o then o else None.

(** [x || d] on a string or [null], [d] a string. *)
Definition or_else (o : option string) (d : string) : string :=
  match o with
  | Some s => if truthy s then s else d
  | None => d
  end.

(** [x || null] on a number or [null]: zero is falsy. *)
Definition or_null_Z (o : option Z) : option Z :=
  match o with
  | Some z => if (z =? 0)%Z then None else Some z
  | None => None
  end.

(** [hay.includes(needle)]. *)
Fixpoint includes (hay needle : string) : bool :=
  String.prefix needle hay ||
  match hay with
  | EmptyString => false
  | String _ rest => includes rest needle
  end.

(** [s.split(sep)] for a one-character separator. *)
Fixpoint split (sep : ascii) (s : string) : list string :=
  match s with
  | EmptyString => [EmptyString]
  | String c rest =>
      if Ascii.eqb c sep then EmptyString :: split sep rest
      else match split sep rest with
           | [] => [String c EmptyString]
           | h :: t => String c h :: t
           end
  end.

(** [String(n)] for an integer. *)
Definition String_ (n : Z) : string := NilZero.string_of_int (Z.to_int n).

Fixpoint repeat_char (c : ascii) (n : nat) : string :=
  match n with
  | O => EmptyString
  | S k => String c (repeat_char c k)
  end.

(** [s.padStart(n, c)] for a one-character pad. *)
Definition padStart (n : nat) (c : ascii) (s : string) : string :=
  String.append (repeat_char c (n - String.length s)) s.

Definition is_digit (c : ascii) : bool :=
  let n := Ascii.nat_of_ascii c in (48 <=? n)%nat && (n <=? 57)%nat.

(** White space removed by [trim], within ASCII. *)
Definition is_space (c : ascii) : bool :=
  let n := Ascii.nat_of_ascii c in
  ((9 <=? n)%nat && (n <=? 13)%nat) || (n =? 32)%nat.

(** [s.trim() === '']. *)
Fixpoint blank (s : string) : bool :=
  match s with
  | EmptyString => true
  | String c rest => is_space c && blank rest
  end.

(** [-] or [/], the character class of the date pattern. *)
Definition is_date_sep (c : ascii) : bool :=
  Ascii.eqb c "-"%char || Ascii.eqb c "/"%char.

End Js.

(** ** Data model *)

(** One week of a student's record. *)
Record WeekRecord : Type := mkWeek {
  week : Z;
  attended : bool;
  lastAttendance : option string;
  lastAttendanceCenter : option string;
  hwDone : bool;
  paidSession : bool;
  quizDegree : option string;
  message_state : bool
}.

Module Student.
(** A document of the [students] collection.  [weeks] is [None] for a
    document without the property; [center] is read by the handlers
    but written by none of them. *)
Record t : Type := mk {
  id : Z;
  name : string;
  age : option Z;
  grade : string;
  school : string;
  phone : string;
  parentsPhone : string;
  main_center : string;
  center : option string;
  weeks : option (list WeekRecord)
}.

Definition with_weeks (ws : option (list WeekRecord)) (s : t) : t :=
  mk (id s) (name s) (age s) (grade s) (school s) (phone s)
     (parentsPhone s) (main_center s) (center s) ws.
End Student.

Module HistoryRecord.
(** A document of the [history] collection. *)
Record t : Type := mk {
  studentId : Z;
  week : Z
}.

Global Instance eq_dec : EqDecision t.
Proof. solve_decision. Defined.
End HistoryRecord.

Module Assistant.
(** A document of the [assistants] collection. *)
Record t : Type := mk {
  id : string;
  name : string;
  phone : string;
  password : string;
  role : string
}.
End Assistant.

(** The document store. *)
Record Db : Type := mkDb {
  students : list Student.t;
  history : list HistoryRecord.t;
  assistants : list Assistant.t
}.

Definition with_students (l : list Student.t) (db : Db) : Db :=
  mkDb l (history db) (assistants db).

Definition with_history (l : list HistoryRecord.t) (db : Db) : Db :=
  mkDb (students db) l (assistants db).

Definition with_assistants (l : list Assistant.t) (db : Db) : Db :=
  mkDb (students db) (history db) l.

Definition empty_db : Db := mkDb [] [] [].

(** ** Exceptions *)

(** The result of a computation that may throw an [Error] with a message. *)
Inductive outcome (A : Type) : Type :=
| Return (a : A)
| Throw (message : string).
Arguments Return {A} a.
Arguments Throw {A} message.

(** ** Document-store operations *)

Module Mongo.

Section Collection.
Context {A : Type} (P : A -> Prop) `{!forall x, Decision (P x)}.

(** [findOne(filter)]: the first matching document. *)
Definition findOne (l : list A) : option A := snd <$> list_find P l.

(** [updateOne(filter, update)]: the first matching document is
    rewritten; the result carries [matchedCount]. *)
Definition updateOne (f : A -> A) (l : list A) : nat * list A :=
  match list_find P l with
  | Some (i, _) => (1, alter f i l)
  | None => (0, l)
  end.

(** [deleteOne(filter)]: the result carries [deletedCount]. *)
Definition deleteOne (l : list A) : nat * list A :=
  match list_find P l with
  | Some (i, _) => (1, delete i l)
  | None => (0, l)
  end.

(** [deleteMany(filter)]: every matching document goes. *)
Definition deleteMany (l : list A) : nat * list A :=
  (length (filter P l), filter (fun x => ~ P x) l).
End Collection.

(** [insertOne(doc)]. *)
Definition insertOne {A : Type} (doc : A) (l : list A) : list A := l ++ [doc].

(** [find().sort({ id: -1 }).limit(1).toArray()] on students: empty, or
    one student of greatest id. *)
Fixpoint find_sort_id_desc_limit1 (l : list Student.t) : list Student.t :=
  match l with
  | [] => []
  | s :: rest =>
      match find_sort_id_desc_limit1 rest with
      | [] => [s]
      | t :: _ => if (Student.id t <=? Student.id s)%Z then [s] else [t]
      end
  end.

(** One assignment of a [$set] on the path [weeks.<i>.<field>]. *)
Inductive week_set : Type :=
| set_attended (b : bool)
| set_lastAttendance (v : option string)
| set_lastAttendanceCenter (v : option string)
| set_hwDone (b : bool)
| set_paidSession (b : bool)
| set_quizDegree (v : option string)
| set_message_state (b : bool).

Definition apply_week_set (w : WeekRecord) (u : week_set) : WeekRecord :=
  match u with
  | set_attended b =>
      mkWeek (week w) b (lastAttendance w) (lastAttendanceCenter w)
             (hwDone w) (paidSession w) (quizDegree w) (message_state w)
  | set_lastAttendance v =>
      mkWeek (week w) (attended w) v (lastAttendanceCenter w)
             (hwDone w) (paidSession w) (quizDegree w) (message_state w)
  | set_lastAttendanceCenter v =>
      mkWeek (week w) (attended w) (lastAttendance w) v
             (hwDone w) (paidSession w) (quizDegree w) (message_state w)
  | set_hwDone b =>
      mkWeek (week w) (attended w) (lastAttendance w) (lastAttendanceCenter w)
             b (paidSession w) (quizDegree w) (message_state w)
  | set_paidSession b =>
      mkWeek (week w) (attended w) (lastAttendance w) (lastAttendanceCenter w)
             (hwDone w) b (quizDegree w) (message_state w)
  | set_quizDegree v =>
      mkWeek (week w) (attended w) (lastAttendance w) (lastAttendanceCenter w)
             (hwDone w) (paidSession w) v (message_state w)
  | set_message_state b =>
      mkWeek (week w) (attended w) (lastAttendance w) (lastAttendanceCenter w)
             (hwDone w) (paidSession w) (quizDegree w) b
  end.

Definition apply_week_sets (q : list week_set) (w : WeekRecord) : WeekRecord :=
  fold_left apply_week_set q w.

(** The message of the server error for a path that cannot be followed
    (the server's text also prints the document; only the fixed part is
    kept). *)
Definition path_not_viable : string := "Cannot create field in element".

(** The [$set] of [q] under [weeks.<i>] on one student.  A negative
    [i] is not an array index: the server takes it for a field name,
    cannot create a field in an array and fails.  An index past the end
    would make the server pad the array; the handlers check that bound
    before they write, so the case is left as the identity. *)
Definition set_week (i : Z) (q : list week_set) (s : Student.t) : Student.t :=
  Student.with_weeks (alter (apply_week_sets q) (Z.to_nat i) <$> Student.weeks s) s.

(** [updateOne({ id }, { $set: q under weeks.<i> })] on students. *)
Definition updateOne_week (sid : Z) (i : Z) (q : list week_set)
    (l : list Student.t) : outcome (nat * list Student.t) :=
  match findOne (fun s => Student.id s = sid) l with
  | None => Return (0, l)
  | Some _ =>
      if (i <? 0)%Z then Throw path_not_viable
      else Return (updateOne (fun s => Student.id s = sid) (set_week i q) l)
  end.

End Mongo.

(** ** Requests, responses and the auth gate *)

Inductive Method : Type := GET | POST | PUT | DELETE | OTHER.

Global Instance Method_eq_dec : EqDecision Method.
Proof. solve_decision. Defined.

Module Claims.
(** The payload of a verified token: [{ assistant_id, name, role }]. *)
Record t : Type := mk {
  assistant_id : string;
  name : string;
  role : string
}.
End Claims.

(** What [jwt.verify(token, JWT_SECRET)] does: the payload, or an error
    thrown with a message (bad signature, expired, malformed). *)
Inductive jwt_result : Type :=
| Decoded (c : Claims.t)
| JwtError (message : string).

Definition Verifier : Type := string -> jwt_result.

(** [auth.split(' ')[1]]: after the ['Bearer '] prefix check there is
    always a second part. *)
Definition bearer_token (auth : string) : string :=
  match Js.split " "%char auth with
  | _ :: t :: _ => t
  | _ => EmptyString
  end.

(** The auth gate of the student and history handlers. *)
Definition authMiddleware (jwt_verify : Verifier) (auth : option string) : outcome Claims.t :=
  match auth with
  | None => Throw "Unauthorized - No Bearer token"
  | Some a =>
      if negb (Js.truthy a) || negb (String.prefix "Bearer " a)
      then Throw "Unauthorized - No Bearer token"
      else match jwt_verify (bearer_token a) with
           | Decoded c => Return c
           | JwtError m => Throw (String.append "Invalid token - " m)
           end
  end.

(** The auth gate of the assistant handlers: the verifier's error is
    thrown on as it is. *)
Definition requireAdmin (jwt_verify : Verifier) (auth : option string) : outcome Claims.t :=
  match auth with
  | None => Throw "Unauthorized"
  | Some a =>
      if negb (Js.truthy a) || negb (String.prefix "Bearer " a)
      then Throw "Unauthorized"
      else match jwt_verify (bearer_token a) with
           | Decoded c =>
               if String.eqb (Claims.role c) "admin" then Return c
               else Throw "Forbidden: Admins only"
           | JwtError m => Throw m
           end
  end.

(** The catch clause of the student, reset, attend and history handlers:
    401 with the error's message for an auth error, 500 otherwise. *)
Definition is_auth_error (message : string) : bool :=
  Js.includes message "Unauthorized" || Js.includes message "Invalid token".

(** ** Responses *)

(** The flattened view of a student returned by the read handlers. *)
Module View.
Record t : Type := mk {
  id : Z;
  name : string;
  grade : string;
  phone : string;
  parents_phone : string;
  center : option string;
  main_center : string;
  attended_the_session : bool;
  lastAttendance : option string;
  lastAttendanceCenter : option string;
  attendanceWeek : string;
  hwDone : bool;
  paidSession : bool;
  quizDegree : option string;
  school : option string;
  age : option Z;
  message_state : bool;
  weeks : list WeekRecord
}.
End View.

(** A row of the history listing: a history record joined with the
    student's week. *)
Module EnrichedRecord.
Record t : Type := mk {
  studentId : Z;
  week : Z;
  main_center : string;
  center : string;
  attendanceDate : string;
  hwDone : bool;
  paidSession : bool;
  quizDegree : option string;
  message_state : bool
}.
End EnrichedRecord.

(** The history rows of one student. *)
Module Group.
Record t : Type := mk {
  id : Z;
  name : string;
  grade : string;
  school : string;
  phone : string;
  parentsPhone : string;
  historyRecords : list EnrichedRecord.t
}.

Definition push (r : EnrichedRecord.t) (g : t) : t :=
  mk (id g) (name g) (grade g) (school g) (phone g) (parentsPhone g)
     (historyRecords g ++ [r]).
End Group.

(** The projection of an assistant returned by the read-one handler. *)
Module AssistantView.
Record t : Type := mk {
  id : string;
  name : string;
  phone : string;
  role : string
}.
End AssistantView.

Inductive Body : Type :=
| ErrorBody (error : string)
| SuccessBody
| SuccessMessageBody (message : string)
| IdBody (id : Z)
| StudentBody (v : View.t)
| StudentsBody (vs : list View.t)
| HistoryBody (gs : list Group.t)
| AssistantBody (a : AssistantView.t)
| AssistantsBody (docs : list Assistant.t).

Record Response : Type := mkResponse {
  status : nat;
  body : Body
}.

Definition json (b : Body) : Response := mkResponse 200 b.

Definition error (code : nat) (message : string) : Response :=
  mkResponse code (ErrorBody message).

(** ** The weeks of a new or reset student *)

Definition zeroed_week (i : Z) : WeekRecord :=
  mkWeek i false None None false false None false.

(** The loop [for (let i = 1; i <= 20; i++) weeks.push({ week: i, ... })]:
    [n] iterations left, the next week number is [i]. *)
Fixpoint push_weeks (n : nat) (i : Z) (acc : list WeekRecord) : list WeekRecord :=
  match n with
  | O => acc
  | S k => push_weeks k (i + 1)%Z (acc ++ [zeroed_week i])
  end.

Definition fresh_weeks : list WeekRecord := push_weeks 20 1%Z [].

(** ** POST /api/students/[id]/reset *)

Module Reset.
Record Request : Type := mkRequest {
  method : Method;
  authorization : option string;
  id : Z
}.

Section Handler.
Variable jwt_verify : Verifier.

Definition handler_try (db : Db) (req : Request) : outcome (Response * Db) :=
  let studentId := id req in
  match authMiddleware jwt_verify (authorization req) with
  | Throw m => Throw m
  | Return user =>
      match Mongo.findOne (fun s => Student.id s = studentId) (students db) with
      | None => Return (error 404 "Student not found", db)
      | Some student =>
          let resetWeeks := fresh_weeks in
          let result :=
            Mongo.updateOne (fun s => Student.id s = studentId)
              (Student.with_weeks (Some resetWeeks)) (students db) in
          let db' := with_students (snd result) db in
          if (fst result =? 0)%nat
          then Return (error 404 "Student not found", db')
          else Return (json (SuccessMessageBody "Student data reset successfully"), db')
      end
  end.

Definition handler (db : Db) (req : Request) : Response * Db :=
  if decide (method req = POST) then
    match handler_try db req with
    | Return r => r
    | Throw m =>
        if is_auth_error m then (error 401 m, db)
        else (error 500 "Internal server error", db)
    end
  else (error 405 "Method not allowed", db).
End Handler.
End Reset.

(** ** POST /api/students/[id]/attend *)

Module Attend.
(** The request body.  [attended] is the truthiness of the property;
    the strings are [None] when absent or [null]; [attendanceWeek] is an
    integer, or [None] when absent or [null]. *)
Record Payload : Type := mkPayload {
  attended : bool;
  lastAttendance : option string;
  lastAttendanceCenter : option string;
  attendanceWeek : option Z
}.

Record Request : Type := mkRequest {
  method : Method;
  authorization : option string;
  id : Z;
  payload : Payload
}.

(** [attendanceWeek || 1]: absent, [null] and [0] all give 1. *)
Definition weekNumber (p : Payload) : Z :=
  match attendanceWeek p with
  | Some n => if (n =? 0)%Z then 1%Z else n
  | None => 1%Z
  end.

Definition weekIndex (p : Payload) : Z := (weekNumber p - 1)%Z.

(** [!student.weeks || student.weeks.length <= weekIndex]. *)
Definition out_of_bounds (student : Student.t) (i : Z) : bool :=
  match Student.weeks student with
  | None => true
  | Some ws => (Z.of_nat (length ws) <=? i)%Z
  end.

Definition attend_query (p : Payload) : list Mongo.week_set :=
  [ Mongo.set_attended true;
    Mongo.set_lastAttendance (Js.or_null (lastAttendance p));
    Mongo.set_lastAttendanceCenter (Js.or_null (lastAttendanceCenter p)) ].

Definition unattend_query : list Mongo.week_set :=
  [ Mongo.set_attended false;
    Mongo.set_lastAttendance None;
    Mongo.set_lastAttendanceCenter None;
    Mongo.set_hwDone false;
    Mongo.set_paidSession false;
    Mongo.set_quizDegree None;
    Mongo.set_message_state false ].

Section Handler.
Variable jwt_verify : Verifier.

Definition handler_try (db : Db) (req : Request) : outcome (Response * Db) :=
  let student_id := id req in
  let p := payload req in
  match authMiddleware jwt_verify (authorization req) with
  | Throw m => Throw m
  | Return user =>
      match Mongo.findOne (fun s => Student.id s = student_id) (students db) with
      | None => Return (error 404 "Student not found", db)
      | Some student =>
          if out_of_bounds student (weekIndex p)
          then Return (error 400 "Invalid week number", db)
          else if attended p then
            match Mongo.updateOne_week student_id (weekIndex p) (attend_query p)
                    (students db) with
            | Throw m => Throw m
            | Return result =>
                let db1 := with_students (snd result) db in
                if (fst result =? 0)%nat
                then Return (error 404 "Student not found", db1)
                else
                  let historyRecord :=
                    HistoryRecord.mk (Student.id student) (weekNumber p) in
                  Return (json SuccessBody,
                          with_history (Mongo.insertOne historyRecord (history db1)) db1)
            end
          else
            match Mongo.updateOne_week student_id (weekIndex p) unattend_query
                    (students db) with
            | Throw m => Throw m
            | Return result =>
                let db1 := with_students (snd result) db in
                if (fst result =? 0)%nat
                then Return (error 404 "Student not found", db1)
                else
                  let deleted :=
                    Mongo.deleteMany
                      (fun h => HistoryRecord.studentId h = student_id
                                /\ HistoryRecord.week h = weekNumber p)
                      (history db1) in
                  Return (json SuccessBody, with_history (snd deleted) db1)
            end
      end
  end.

Definition handler (db : Db) (req : Request) : Response * Db :=
  if decide (method req = POST) then
    match handler_try db req with
    | Return r => r
    | Throw m =>
        if is_auth_error m then (error 401 m, db)
        else (error 500 "Internal server error", db)
    end
  else (error 405 "Method not allowed", db).
End Handler.
End Attend.

(** ** The current-week view of the read handlers *)

(** [student.weeks ? student.weeks.find(w => w.attended) || student.weeks[0]
    : { week: 1, attended: false, ... }].  [None] stands for [undefined],
    the value on an empty array. *)
Definition currentWeek (student : Student.t) : option WeekRecord :=
  match Student.weeks student with
  | Some ws =>
      match List.find attended ws with
      | Some w => Some w
      | None => ws !! 0%nat
      end
  | None => Some (zeroed_week 1)
  end.

(** [`week ${String(w).padStart(2, '0')}`]. *)
Definition week_label (w : Z) : string :=
  String.append "week " (Js.padStart 2 "0"%char (Js.String_ w)).

(** One attempt of the pattern [(\d{2})[-/](\d{2})[-/](\d{4})] at the
    head of the text. *)
Definition date_at (l : list ascii) : option (string * string * string) :=
  match l with
  | d1 :: d2 :: s1 :: m1 :: m2 :: s2 :: y1 :: y2 :: y3 :: y4 :: _ =>
      if forallb Js.is_digit [d1; d2; m1; m2; y1; y2; y3; y4]
         && Js.is_date_sep s1 && Js.is_date_sep s2
      then Some (String.string_of_list_ascii [d1; d2],
                 String.string_of_list_ascii [m1; m2],
                 String.string_of_list_ascii [y1; y2; y3; y4])
      else None
  | _ => None
  end.

(** [text.match(/(\d{2})[-/](\d{2})[-/](\d{4})/)]: the leftmost match. *)
Fixpoint date_match (l : list ascii) : option (string * string * string) :=
  match date_at l with
  | Some r => Some r
  | None =>
      match l with
      | [] => None
      | _ :: rest => date_match rest
      end
  end.

(** The [lastAttendance] of the read-one response. *)
Definition format_lastAttendance (cw : WeekRecord) : option string :=
  match lastAttendance cw, lastAttendanceCenter cw with
  | Some la, Some c =>
      if Js.truthy la && Js.truthy c then
        let dateStr :=
          match date_match (String.list_ascii_of_string la) with
          | Some (d, m, y) =>
              String.append d (String.append "/" (String.append m (String.append "/" y)))
          | None => la
          end in
        Some (String.append dateStr (String.append " in " c))
      else lastAttendance cw
  | _, _ => lastAttendance cw
  end.

Definition school_or_null (student : Student.t) : option string :=
  if Js.truthy (Student.school student) then Some (Student.school student) else None.

Definition weeks_or_empty (student : Student.t) : list WeekRecord :=
  match Student.weeks student with
  | Some ws => ws
  | None => []
  end.

(** The object built from a student and its current week; the two read
    handlers differ in [lastAttendance] only. *)
Definition flatten (student : Student.t) (cw : WeekRecord) (la : option string) : View.t :=
  View.mk (Student.id student) (Student.name student) (Student.grade student)
    (Student.phone student) (Student.parentsPhone student) (Student.center student)
    (Student.main_center student)
    (attended cw) la (lastAttendanceCenter cw) (week_label (week cw))
    (hwDone cw) (paidSession cw) (quizDegree cw)
    (school_or_null student) (Js.or_null_Z (Student.age student))
    (message_state cw) (weeks_or_empty student).

(** The [TypeError] of a property read on [undefined]. *)
Definition type_error (property : string) : string :=
  String.append "Cannot read properties of undefined (reading '"
    (String.append property "')").

(** ** GET and POST /api/students *)

Module Students.
Record Payload : Type := mkPayload {
  name : Js.field string;
  grade : Js.field string;
  phone : Js.field string;
  parents_phone : Js.field string;
  main_center : Js.field string;
  age : Js.field Z;
  school : Js.field string
}.

Record Request : Type := mkRequest {
  method : Method;
  authorization : option string;
  payload : Payload
}.

(** The string of a property that passed the truthiness check. *)
Definition str (f : Js.field string) : string :=
  match f with
  | Js.Val s => s
  | _ => EmptyString
  end.

Definition num_or_null (f : Js.field Z) : option Z :=
  match f with
  | Js.Val z => Some z
  | _ => None
  end.

(** [!name || !grade || !phone || !parents_phone || !main_center
     || age === undefined || !school]. *)
Definition missing_field (p : Payload) : bool :=
  negb (Js.truthy_field (name p)) || negb (Js.truthy_field (grade p))
  || negb (Js.truthy_field (phone p)) || negb (Js.truthy_field (parents_phone p))
  || negb (Js.truthy_field (main_center p))
  || match age p with Js.Undefined => true | _ => false end
  || negb (Js.truthy_field (school p)).

(** [lastStudent.length > 0 ? lastStudent[0].id + 1 : 1]. *)
Definition newId (l : list Student.t) : Z :=
  match Mongo.find_sort_id_desc_limit1 l with
  | lastStudent :: _ => (Student.id lastStudent + 1)%Z
  | [] => 1%Z
  end.

(** The document [{ id: newId, name, age, grade, school, phone,
    parentsPhone: parents_phone, main_center, weeks }]. *)
Definition new_student (newId : Z) (weeks : list WeekRecord) (p : Payload) : Student.t :=
  Student.mk newId (str (name p)) (num_or_null (age p)) (str (grade p))
    (str (school p)) (str (phone p)) (str (parents_phone p))
    (str (main_center p)) None (Some weeks).

(** The callback of [students.map]. *)
Definition mapStudent (student : Student.t) : outcome View.t :=
  match currentWeek student with
  | Some cw => Return (flatten student cw (lastAttendance cw))
  | None => Throw (type_error "attended")
  end.

Fixpoint mapStudents (l : list Student.t) : outcome (list View.t) :=
  match l with
  | [] => Return []
  | s :: rest =>
      match mapStudent s with
      | Throw m => Throw m
      | Return v =>
          match mapStudents rest with
          | Throw m => Throw m
          | Return vs => Return (v :: vs)
          end
      end
  end.

Section Handler.
Variable jwt_verify : Verifier.

Definition handler_try (db : Db) (req : Request) : outcome (Response * Db) :=
  match authMiddleware jwt_verify (authorization req) with
  | Throw m => Throw m
  | Return user =>
      match method req with
      | GET =>
          match mapStudents (students db) with
          | Throw m => Throw m
          | Return mappedStudents => Return (json (StudentsBody mappedStudents), db)
          end
      | POST =>
          let p := payload req in
          if missing_field p
          then Return (error 400 "All fields are required", db)
          else
            let newId := newId (students db) in
            let weeks := fresh_weeks in
            let student := new_student newId weeks p in
            Return (json (IdBody newId),
                    with_students (Mongo.insertOne student (students db)) db)
      | _ => Return (error 405 "Method not allowed", db)
      end
  end.

Definition handler (db : Db) (req : Request) : Response * Db :=
  match handler_try db req with
  | Return r => r
  | Throw m =>
      if is_auth_error m then (error 401 m, db)
      else (error 500 "Internal server error", db)
  end.
End Handler.
End Students.

(** ** GET, PUT and DELETE /api/students/[id] *)

Module StudentById.
Record Payload : Type := mkPayload {
  name : Js.field string;
  grade : Js.field string;
  phone : Js.field string;
  parents_phone : Js.field string;
  main_center : Js.field string;
  age : Js.field Z;
  school : Js.field string
}.

Record Request : Type := mkRequest {
  method : Method;
  authorization : option string;
  id : Z;
  payload : Payload
}.

(** The [update] object: a key is present where the option is [Some]. *)
Record Update : Type := mkUpdate {
  u_name : option string;
  u_grade : option string;
  u_phone : option string;
  u_parentsPhone : option string;
  u_main_center : option string;
  u_age : option Z;
  u_school : option string
}.

(** [x !== undefined && x !== null]: the value to assign, if any. *)
Definition defined {A : Type} (f : Js.field A) : option A :=
  match f with
  | Js.Val v => Some v
  | _ => None
  end.

Definition build_update (p : Payload) : Update :=
  mkUpdate (defined (name p)) (defined (grade p)) (defined (phone p))
    (defined (parents_phone p)) (defined (main_center p)) (defined (age p))
    (defined (school p)).

Definition key {A : Type} (o : option A) : nat :=
  match o with
  | Some _ => 1
  | None => 0
  end.

(** [Object.keys(update).length]. *)
Definition keys_length (u : Update) : nat :=
  key (u_name u) + key (u_grade u) + key (u_phone u) + key (u_parentsPhone u)
  + key (u_main_center u) + key (u_age u) + key (u_school u).

(** [{ $set: update }] on a student. *)
Definition apply_update (u : Update) (s : Student.t) : Student.t :=
  Student.mk (Student.id s)
    (default (Student.name s) (u_name u))
    (match u_age u with Some a => Some a | None => Student.age s end)
    (default (Student.grade s) (u_grade u))
    (default (Student.school s) (u_school u))
    (default (Student.phone s) (u_phone u))
    (default (Student.parentsPhone s) (u_parentsPhone u))
    (default (Student.main_center s) (u_main_center u))
    (Student.center s) (Student.weeks s).

Section Handler.
Variable jwt_verify : Verifier.

Definition handler_try (db : Db) (req : Request) : outcome (Response * Db) :=
  let student_id := id req in
  match authMiddleware jwt_verify (authorization req) with
  | Throw m => Throw m
  | Return user =>
      match method req with
      | GET =>
          match Mongo.findOne (fun s => Student.id s = student_id) (students db) with
          | None => Return (error 404 "Student not found", db)
          | Some student =>
              match currentWeek student with
              | None => Throw (type_error "lastAttendance")
              | Some cw =>
                  Return (json (StudentBody
                            (flatten student cw (format_lastAttendance cw))), db)
              end
          end
      | PUT =>
          let update := build_update (payload req) in
          if (keys_length update =? 0)%nat
          then Return (error 400 "No valid fields to update", db)
          else
            let result :=
              Mongo.updateOne (fun s => Student.id s = student_id)
                (apply_update update) (students db) in
            let db' := with_students (snd result) db in
            if (fst result =? 0)%nat
            then Return (error 404 "Student not found", db')
            else Return (json SuccessBody, db')
      | DELETE =>
          let result :=
            Mongo.deleteOne (fun s => Student.id s = student_id) (students db) in
          let db' := with_students (snd result) db in
          if (fst result =? 0)%nat
          then Return (error 404 "Student not found", db')
          else Return (json SuccessBody, db')
      | _ => Return (error 405 "Method not allowed", db)
      end
  end.

Definition handler (db : Db) (req : Request) : Response * Db :=
  match handler_try db req with
  | Return r => r
  | Throw m =>
      if is_auth_error m then (error 401 m, db)
      else (error 500 "Internal server error", db)
  end.
End Handler.
End StudentById.

(** ** GET /api/history *)

(** A JavaScript [Map] with numeric keys: the entries in insertion order. *)
Module JsMap.
Definition t (V : Type) : Type := list (Z * V).

Fixpoint get {V : Type} (k : Z) (m : t V) : option V :=
  match m with
  | [] => None
  | (k', v) :: rest => if decide (k' = k) then Some v else get k rest
  end.

Definition has {V : Type} (k : Z) (m : t V) : bool :=
  match get k m with
  | Some _ => true
  | None => false
  end.

(** [m.set(k, v)]: a present key keeps its place and takes the value. *)
Fixpoint set {V : Type} (k : Z) (v : V) (m : t V) : t V :=
  match m with
  | [] => [(k, v)]
  | (k', v') :: rest =>
      if decide (k' = k) then (k, v) :: rest else (k', v') :: set k v rest
  end.

(** A mutation of the object stored under [k]. *)
Fixpoint mutate {V : Type} (k : Z) (f : V -> V) (m : t V) : t V :=
  match m with
  | [] => []
  | (k', v) :: rest =>
      if decide (k' = k) then (k', f v) :: rest else (k', v) :: mutate k f rest
  end.

Definition values {V : Type} (m : t V) : list V := map snd m.
End JsMap.

Module History.
Record Request : Type := mkRequest {
  method : Method;
  authorization : option string
}.

(** [students.forEach(student => studentMap.set(student.id, student))]. *)
Definition studentMap (l : list Student.t) : JsMap.t Student.t :=
  fold_left (fun m student => JsMap.set (Student.id student) student m) l [].

(** [student.weeks && student.weeks[weekIndex] ? student.weeks[weekIndex] : null]:
    a negative or too large index reads [undefined]. *)
Definition weekData (student : Student.t) (weekIndex : Z) : option WeekRecord :=
  match Student.weeks student with
  | Some ws => if (weekIndex <? 0)%Z then None else ws !! Z.to_nat weekIndex
  | None => None
  end.

Definition enrich (record : HistoryRecord.t) (student : Student.t)
    (wd : WeekRecord) : EnrichedRecord.t :=
  EnrichedRecord.mk (HistoryRecord.studentId record) (HistoryRecord.week record)
    (if Js.truthy (Student.main_center student)
     then Student.main_center student else "n/a")
    (Js.or_else (lastAttendanceCenter wd) "n/a")
    (Js.or_else (lastAttendance wd) "n/a")
    (hwDone wd) (paidSession wd) (Js.or_null (quizDegree wd)) (message_state wd).

(** The row of a history record, or [None] when the callback returns
    early: no such student, no such week, or the week not attended. *)
Definition join (sm : JsMap.t Student.t) (record : HistoryRecord.t)
    : option (Student.t * EnrichedRecord.t) :=
  match JsMap.get (HistoryRecord.studentId record) sm with
  | None => None
  | Some student =>
      let weekIndex := (HistoryRecord.week record - 1)%Z in
      match weekData student weekIndex with
      | None => None
      | Some wd =>
          if attended wd then Some (student, enrich record student wd) else None
      end
  end.

(** The callback of [historyRecords.forEach]. *)
Definition process (sm : JsMap.t Student.t) (shm : JsMap.t Group.t)
    (record : HistoryRecord.t) : JsMap.t Group.t :=
  match join sm record with
  | None => shm
  | Some (student, enrichedRecord) =>
      let sid := HistoryRecord.studentId record in
      let shm1 :=
        if JsMap.has sid shm then shm
        else JsMap.set sid
               (Group.mk (Student.id student) (Student.name student)
                  (Student.grade student) (Student.school student)
                  (Student.phone student) (Student.parentsPhone student) [])
               shm in
      JsMap.mutate sid (Group.push enrichedRecord) shm1
  end.

(** [.sort((a, b) => a.id - b.id)], a stable sort. *)
Fixpoint insert_sorted (g : Group.t) (l : list Group.t) : list Group.t :=
  match l with
  | [] => [g]
  | h :: rest =>
      if (Group.id g <=? Group.id h)%Z then g :: h :: rest
      else h :: insert_sorted g rest
  end.

Definition sort_by_id (l : list Group.t) : list Group.t :=
  foldr insert_sorted [] l.

Definition studentHistoryMap (db : Db) : JsMap.t Group.t :=
  fold_left (process (studentMap (students db))) (history db) [].

Section Handler.
Variable jwt_verify : Verifier.

Definition handler_try (db : Db) (req : Request) : outcome (Response * Db) :=
  match authMiddleware jwt_verify (authorization req) with
  | Throw m => Throw m
  | Return user =>
      let result := sort_by_id (JsMap.values (studentHistoryMap db)) in
      Return (json (HistoryBody result), db)
  end.

Definition handler (db : Db) (req : Request) : Response * Db :=
  if decide (method req = GET) then
    match handler_try db req with
    | Return r => r
    | Throw m =>
        if is_auth_error m then (error 401 m, db)
        else (error 500 "Failed to fetch history data", db)
    end
  else (error 405 "Method not allowed", db).
End Handler.
End History.

(** ** GET and POST /api/assistants *)

(** The catch clause of the assistant handlers: the message is compared
    as a whole. *)
Definition assistants_catch (db : Db) (message : string) : Response * Db :=
  if String.eqb message "Unauthorized" then (error 401 "Unauthorized", db)
  else if String.eqb message "Forbidden: Admins only"
  then (error 403 "Forbidden: Admins only", db)
  else (error 500 "Internal server error", db).

Module Assistants.
Record Payload : Type := mkPayload {
  id : Js.field string;
  name : Js.field string;
  phone : Js.field string;
  password : Js.field string;
  role : Js.field string
}.

Record Request : Type := mkRequest {
  method : Method;
  authorization : option string;
  payload : Payload
}.

Definition str (f : Js.field string) : string :=
  match f with
  | Js.Val s => s
  | _ => EmptyString
  end.

Section Handler.
Variable jwt_verify : Verifier.
(** [bcrypt.hash(password, 10)]. *)
Variable bcrypt_hash : string -> string.

Definition handler_try (db : Db) (req : Request) : outcome (Response * Db) :=
  match requireAdmin jwt_verify (authorization req) with
  | Throw m => Throw m
  | Return admin =>
      match method req with
      | GET => Return (json (AssistantsBody (assistants db)), db)
      | POST =>
          let p := payload req in
          if negb (Js.truthy_field (id p)) || negb (Js.truthy_field (name p))
             || negb (Js.truthy_field (phone p)) || negb (Js.truthy_field (password p))
             || negb (Js.truthy_field (role p))
          then Return (error 400 "All fields are required", db)
          else
            match Mongo.findOne (fun a => Assistant.id a = str (id p)) (assistants db) with
            | Some _ => Return (error 409 "Assistant ID already exists", db)
            | None =>
                let hashedPassword := bcrypt_hash (str (password p)) in
                let doc :=
                  Assistant.mk (str (id p)) (str (name p)) (str (phone p))
                    hashedPassword (str (role p)) in
                Return (json SuccessBody,
                        with_assistants (Mongo.insertOne doc (assistants db)) db)
            end
      | _ => Return (error 405 "Method not allowed", db)
      end
  end.

Definition handler (db : Db) (req : Request) : Response * Db :=
  match handler_try db req with
  | Return r => r
  | Throw m => assistants_catch db m
  end.
End Handler.
End Assistants.

(** ** GET, PUT and DELETE /api/assistants/[id] *)

Module AssistantById.
Record Payload : Type := mkPayload {
  newId : Js.field string;
  name : Js.field string;
  phone : Js.field string;
  password : Js.field string;
  role : Js.field string
}.

Record Request : Type := mkRequest {
  method : Method;
  authorization : option string;
  id : string;
  payload : Payload
}.

Record Update : Type := mkUpdate {
  u_name : option string;
  u_phone : option string;
  u_role : option string;
  u_password : option string;
  u_id : option string
}.

(** [x !== undefined && x !== null && x.trim() !== '']. *)
Definition filled (f : Js.field string) : option string :=
  match f with
  | Js.Val s => if Js.blank s then None else Some s
  | _ => None
  end.

Definition key (o : option string) : nat :=
  match o with
  | Some _ => 1
  | None => 0
  end.

Definition keys_length (u : Update) : nat :=
  key (u_name u) + key (u_phone u) + key (u_role u) + key (u_password u)
  + key (u_id u).

Definition apply_update (u : Update) (a : Assistant.t) : Assistant.t :=
  Assistant.mk
    (default (Assistant.id a) (u_id u))
    (default (Assistant.name a) (u_name u))
    (default (Assistant.phone a) (u_phone u))
    (default (Assistant.password a) (u_password u))
    (default (Assistant.role a) (u_role u)).

(** [newId && newId !== id && newId.trim() !== '']: the new id to check
    and assign, if any. *)
Definition id_change (f : Js.field string) (id : string) : option string :=
  match filled f with
  | Some n => if String.eqb n id then None else Some n
  | None => None
  end.

Section Handler.
Variable jwt_verify : Verifier.
(** [bcrypt.hash(password, 10)]. *)
Variable bcrypt_hash : string -> string.

Definition put (db : Db) (req : Request) : Response * Db :=
  let p := payload req in
  let update id' :=
    mkUpdate (filled (name p)) (filled (phone p)) (filled (role p))
      (bcrypt_hash <$> filled (password p)) id' in
  let finish update :=
    if (keys_length update =? 0)%nat
    then (error 400 "No valid fields to update", db)
    else
      let result :=
        Mongo.updateOne (fun a => Assistant.id a = id req)
          (apply_update update) (assistants db) in
      let db' := with_assistants (snd result) db in
      if (fst result =? 0)%nat
      then (error 404 "Assistant not found", db')
      else (json SuccessBody, db') in
  match id_change (newId p) (id req) with
  | Some n =>
      match Mongo.findOne (fun a => Assistant.id a = n) (assistants db) with
      | Some _ => (error 409 "Assistant ID already exists", db)
      | None => finish (update (Some n))
      end
  | None => finish (update None)
  end.

Definition handler_try (db : Db) (req : Request) : outcome (Response * Db) :=
  match requireAdmin jwt_verify (authorization req) with
  | Throw m => Throw m
  | Return admin =>
      match method req with
      | GET =>
          match Mongo.findOne (fun a => Assistant.id a = id req) (assistants db) with
          | None => Return (error 404 "Assistant not found", db)
          | Some assistant =>
              Return (json (AssistantBody
                        (AssistantView.mk (Assistant.id assistant)
                           (Assistant.name assistant) (Assistant.phone assistant)
                           (Assistant.role assistant))), db)
          end
      | PUT => Return (put db req)
      | DELETE =>
          let result :=
            Mongo.deleteOne (fun a => Assistant.id a = id req) (assistants db) in
          let db' := with_assistants (snd result) db in
          if (fst result =? 0)%nat
          then Return (error 404 "Assistant not found", db')
          else Return (json SuccessBody, db')
      | _ => Return (error 405 "Method not allowed", db)
      end
  end.

Definition handler (db : Db) (req : Request) : Response * Db :=
  match handler_try db req with
  | Return r => r
  | Throw m => assistants_catch db m
  end.
End Handler.
End AssistantById.

(** ** Homework, payment and quiz-grade updates *)

Module WeekField.
(** The bodies sent by the scan page: [{ hwDone, week }],
    [{ paidSession, week }] and [{ quizDegree, week }]. *)
Inductive Payload : Type :=
| Homework (hwDone : bool) (week : Z)
| Payment (paidSession : bool) (week : Z)
| Quiz (quizDegree : string) (week : Z).

Record Request : Type := mkRequest {
  authorization : option string;
  id : Z;
  payload : Payload
}.

Definition target_week (p : Payload) : Z :=
  match p with
  | Homework _ w | Payment _ w | Quiz _ w => w
  end.

Definition assignment (p : Payload) : Mongo.week_set :=
  match p with
  | Homework b _ => Mongo.set_hwDone b
  | Payment b _ => Mongo.set_paidSession b
  | Quiz q _ => Mongo.set_quizDegree (Some q)
  end.

(** Modelled from the spec: the route handlers of the homework, payment
    and quiz-grade updates are missing from the sources; only their
    callers in the scan page are there.  An update sets the
    corresponding field on the WeekRecord at the given week index
    (week number minus one) and does not check that the week is
    attended.  The auth gate comes first, as for every operation; a
    week index outside the sequence leaves the student as it is, the
    sequence being never resized.  The responses are not described:
    the model gives the store afterwards. *)
Definition update (jwt_verify : Verifier) (db : Db) (req : Request) : Db :=
  match authMiddleware jwt_verify (authorization req) with
  | Throw _ => db
  | Return user =>
      let weekIndex := (target_week (payload req) - 1)%Z in
      if (weekIndex <? 0)%Z then db
      else
        with_students
          (snd (Mongo.updateOne (fun s => Student.id s = id req)
                  (Mongo.set_week weekIndex [assignment (payload req)])
                  (students db)))
          db
  end.

(** The week aimed at by the request is marked attended in the store. *)
Definition targets_attended (db : Db) (req : Request) : bool :=
  match Mongo.findOne (fun s => Student.id s = id req) (students db) with
  | Some student =>
      match History.weekData student (target_week (payload req) - 1)%Z with
      | Some w => attended w
      | None => false
      end
  | None => false
  end.
End WeekField.

(** ** Sequences of operations of the student record service *)

Inductive Op : Type :=
| OpStudents (req : Students.Request)
| OpStudentById (req : StudentById.Request)
| OpReset (req : Reset.Request)
| OpAttend (req : Attend.Request)
| OpHistory (req : History.Request)
| OpWeekField (req : WeekField.Request).

Section Run.
Variable jwt_verify : Verifier.

Definition apply_op (db : Db) (op : Op) : Db :=
  match op with
  | OpStudents req => snd (Students.handler jwt_verify db req)
  | OpStudentById req => snd (StudentById.handler jwt_verify db req)
  | OpReset req => snd (Reset.handler jwt_verify db req)
  | OpAttend req => snd (Attend.handler jwt_verify db req)
  | OpHistory req => snd (History.handler jwt_verify db req)
  | OpWeekField req => WeekField.update jwt_verify db req
  end.

Definition run (db : Db) (ops : list Op) : Db := fold_left apply_op ops db.

(** Every homework, payment or quiz-grade update of the sequence aims
    at a week that is attended when the update is applied. *)
Fixpoint guarded (db : Db) (ops : list Op) : Prop :=
  match ops with
  | [] => True
  | op :: rest =>
      match op with
      | OpWeekField req => WeekField.targets_attended db req = true
      | _ => True
      end /\ guarded (apply_op db op) rest
  end.
End Run.

(** ** The invariants of the data model *)

(** A week that is not attended has no homework, payment or quiz grade. *)
Definition week_ok (w : WeekRecord) : Prop :=
  attended w = false ->
  hwDone w = false /\ paidSession w = false /\ quizDegree w = None.

Definition student_ok (s : Student.t) : Prop :=
  forall ws, Student.weeks s = Some ws -> Forall week_ok ws.

Definition db_ok (db : Db) : Prop := Forall student_ok (students db).

(** The week sequence of the data model: 20 records, week [i + 1] at
    index [i]. *)
Definition weeks_shape (ws : list WeekRecord) : Prop :=
  length ws = 20%nat /\
  forall (i : nat) (w : WeekRecord), ws !! i = Some w -> week w = (Z.of_nat i + 1)%Z.

Definition student_shape (s : Student.t) : Prop :=
  exists ws, Student.weeks s = Some ws /\ weeks_shape ws.

(** ** Sample data *)

Definition admin_claims : Claims.t := Claims.mk "admin1" "Admin" "admin".
Definition assistant_claims : Claims.t := Claims.mk "assist1" "Assistant" "assistant".

(** A verifier that accepts two tokens, finds a third expired and
    rejects the signature of every other one, with the messages of the
    token library. *)
Definition sample_verify : Verifier := fun token =>
  if String.eqb token "admin-token" then Decoded admin_claims
  else if String.eqb token "assistant-token" then Decoded assistant_claims
  else if String.eqb token "expired-token" then JwtError "jwt expired"
  else JwtError "invalid signature".

(** A hash that is visibly not the identity. *)
Definition sample_hash : string -> string := fun password =>
  String.append "$2a$10$" password.

Definition assistant_auth : option string := Some "Bearer assistant-token".
Definition admin_auth : option string := Some "Bearer admin-token".
Definition forged_auth : option string := Some "Bearer forged-token".
Definition expired_auth : option string := Some "Bearer expired-token".

Definition ali : Students.Payload :=
  Students.mkPayload (Js.Val "Ali") (Js.Val "1st Secondary") (Js.Val "01234567891")
    (Js.Val "01234567892") (Js.Val "Giza") (Js.Val 16%Z) (Js.Val "X").

Definition create_ali : Students.Request :=
  Students.mkRequest POST assistant_auth ali.

(** The store after Ali is created in an empty store. *)
Definition db_ali : Db := snd (Students.handler sample_verify empty_db create_ali).

Definition attend_request (a : bool) (la lc : option string) (w : option Z)
    : Attend.Request :=
  Attend.mkRequest POST assistant_auth 1%Z (Attend.mkPayload a la lc w).

(** A property of week sequences that holds of every student. *)
Definition students_inv (R : option (list WeekRecord) -> Prop) (db : Db) : Prop :=
  Forall (fun s => R (Student.weeks s)) (students db).

Definition weeks_ok (o : option (list WeekRecord)) : Prop :=
  forall ws, o = Some ws -> Forall week_ok ws.

Definition weeks_shaped (o : option (list WeekRecord)) : Prop :=
  exists ws, o = Some ws /\ weeks_shape ws.

(** The sequence of the witness: Ali is created, attends week 3, has the
    homework of week 3 recorded, is marked absent again, and is reset. *)
Definition guarded_ops : list Op :=
  [ OpStudents create_ali;
    OpAttend (attend_request true (Some "01/01/2025 in Giza") (Some "Giza") (Some 3%Z));
    OpWeekField (WeekField.mkRequest assistant_auth 1%Z (WeekField.Homework true 3%Z));
    OpAttend (attend_request false None None (Some 3%Z));
    OpReset (Reset.mkRequest POST assistant_auth 1%Z) ].

(** The sequence of the counterexample: Ali is created and the homework
    of week 1 is recorded although Ali never attended week 1. *)
Definition unguarded_ops : list Op :=
  [ OpStudents create_ali;
    OpWeekField (WeekField.mkRequest assistant_auth 1%Z (WeekField.Homework true 1%Z)) ].

(** ** Accepted attendance requests *)

(** The request passes the checks made before the store is written:
    POST, a verified token, an existing student, a week index inside
    the student's week sequence. *)
Definition attend_accepted (jwt_verify : Verifier) (db : Db) (req : Attend.Request) (student : Student.t)
    (ws : list WeekRecord) : Prop :=
  Attend.method req = POST /\
  (exists user, authMiddleware jwt_verify (Attend.authorization req) = Return user) /\
  Mongo.findOne (fun s => Student.id s = Attend.id req) (students db) = Some student /\
  Student.weeks student = Some ws /\
  (0 <= Attend.weekIndex (Attend.payload req) < Z.of_nat (length ws))%Z.

(** The students after the write of an accepted request. *)
Definition attend_students (db : Db) (req : Attend.Request) : list Student.t :=
  snd (Mongo.updateOne (fun s => Student.id s = Attend.id req)
         (Mongo.set_week (Attend.weekIndex (Attend.payload req))
            (if Attend.attended (Attend.payload req)
             then Attend.attend_query (Attend.payload req)
             else Attend.unattend_query))
         (students db)).

(** ** Sample requests and stores *)

Definition attend_week3 : Attend.Request :=
  attend_request true (Some "01/01/2025 in Giza") (Some "Giza") (Some 3%Z).

Definition unattend_week3 : Attend.Request :=
  attend_request false None None (Some 3%Z).

(** Ali marked attended for week 3 once, and a second time. *)
Definition db_attended_once : Db := snd (Attend.handler sample_verify db_ali attend_week3).
Definition db_attended_twice : Db :=
  snd (Attend.handler sample_verify db_attended_once attend_week3).

(** The history record of a request: [{ studentId, week: weekNumber }]. *)
Definition history_record (req : Attend.Request) : HistoryRecord.t :=
  HistoryRecord.mk (Attend.id req) (Attend.weekNumber (Attend.payload req)).

(** ** The current week, as the data model describes it *)


Definition digit (d : Z) : ascii := Ascii.ascii_of_nat (48 + Z.to_nat d).

(** The label of a week number below 100: [week ] and two digits. *)
Definition two_digit_label (w : Z) : string :=
  String.append "week " (String (digit (w / 10)) (String (digit (w mod 10)) EmptyString)).

(** The response object of a read: the profile of the student beside the
    fields of the week [cw], with [la] for [lastAttendance]. *)
Definition week_view (student : Student.t) (ws : list WeekRecord) (cw : WeekRecord)
    (la : option string) : View.t :=
  View.mk (Student.id student) (Student.name student) (Student.grade student)
    (Student.phone student) (Student.parentsPhone student) (Student.center student)
    (Student.main_center student)
    (attended cw) la (lastAttendanceCenter cw) (two_digit_label (week cw))
    (hwDone cw) (paidSession cw) (quizDegree cw)
    (school_or_null student) (Js.or_null_Z (Student.age student))
    (message_state cw) ws.

Definition no_payload : StudentById.Payload :=
  StudentById.mkPayload Js.Undefined Js.Undefined Js.Undefined Js.Undefined
    Js.Undefined Js.Undefined Js.Undefined.

Definition read_student (auth : option string) (sid : Z) : StudentById.Request :=
  StudentById.mkRequest GET auth sid no_payload.

Definition read_students (auth : option string) : Students.Request :=
  Students.mkRequest GET auth
    (Students.mkPayload Js.Undefined Js.Undefined Js.Undefined Js.Undefined
       Js.Undefined Js.Undefined Js.Undefined).

(** An update of Ali that supplies an empty name and nothing else. *)
Definition blank_name_update : StudentById.Request :=
  StudentById.mkRequest PUT assistant_auth 1%Z
    (StudentById.mkPayload (Js.Val "") Js.Undefined Js.Undefined Js.Undefined
       Js.Undefined Js.Undefined Js.Undefined).

(** An update of Ali whose properties are all [undefined] or [null]. *)
Definition null_update : StudentById.Request :=
  StudentById.mkRequest PUT assistant_auth 1%Z
    (StudentById.mkPayload Js.Null Js.Undefined Js.Null Js.Undefined
       Js.Undefined Js.Null Js.Undefined).


(** ** The rows of a history listing *)

(** The number of rows over all groups of a listing. *)
Definition total_rows (gs : list Group.t) : nat :=
  foldr (fun g n => (length (Group.historyRecords g) + n)%nat) 0%nat gs.

(** The row comes from a week that the store holds as attended: a
    student of the store with the row's id has, at the index of the row's
    week, a record with [attended = true]. *)
Definition row_attended (db : Db) (r : EnrichedRecord.t) : Prop :=
  exists student ws wd,
    student ∈ students db /\
    Student.id student = EnrichedRecord.studentId r /\
    Student.weeks student = Some ws /\
    (1 <= EnrichedRecord.week r)%Z /\
    ws !! Z.to_nat (EnrichedRecord.week r - 1) = Some wd /\
    attended wd = true.

(** The history record is kept by the join of the listing. *)
Definition kept (db : Db) (h : HistoryRecord.t) : Prop :=
  is_Some (History.join (History.studentMap (students db)) h).

Global Instance kept_dec (db : Db) (h : HistoryRecord.t) : Decision (kept db h).
Proof. unfold kept. apply _. Defined.

Definition read_history (auth : option string) : History.Request :=
  History.mkRequest GET auth.

(** A store with Ali attending week 3 and three history records: the one
    of week 3, one of week 5 (not attended) and one of a student that
    does not exist. *)
Definition db_stale_history : Db :=
  with_history
    [HistoryRecord.mk 1 3; HistoryRecord.mk 1 5; HistoryRecord.mk 9 1]
    db_attended_once.

(** ** Sample assistants *)

Definition create_sara : Assistants.Request :=
  Assistants.mkRequest POST admin_auth
    (Assistants.mkPayload (Js.Val "sara") (Js.Val "Sara") (Js.Val "01000000000")
       (Js.Val "secret") (Js.Val "assistant")).

(** The store after the assistant is created in an empty store. *)
Definition db_sara : Db :=
  snd (Assistants.handler sample_verify sample_hash empty_db create_sara).

Definition no_assistant : Assistants.Payload :=
  Assistants.mkPayload Js.Undefined Js.Undefined Js.Undefined Js.Undefined Js.Undefined.

Definition read_assistants (auth : option string) : Assistants.Request :=
  Assistants.mkRequest GET auth no_assistant.

Definition read_assistant (auth : option string) (id : string) : AssistantById.Request :=
  AssistantById.mkRequest GET auth id
    (AssistantById.mkPayload Js.Undefined Js.Undefined Js.Undefined Js.Undefined
       Js.Undefined).

(** What a group of the listing holds: the id of its key, and rows of
    that student only, each from an attended week. *)
Definition group_sound (db : Db) (entry : Z * Group.t) : Prop :=
  Group.id (snd entry) = fst entry /\
  Forall (fun r => EnrichedRecord.studentId r = fst entry /\ row_attended db r)
    (Group.historyRecords (snd entry)).

(** ** Further sample requests and statement vocabulary *)

(** The ids of the students, in the order of the collection. *)
Definition student_ids (db : Db) : list Z := Student.id <$> students db.

(** The ids of the assistants, in the order of the collection. *)
Definition assistant_ids (db : Db) : list string := Assistant.id <$> assistants db.

(** What a partial update does to one stored field: a supplied value
    replaces it, an absent or [null] property keeps it. *)
Definition field_applied {A : Type} (f : Js.field A) (old new : A) : Prop :=
  match f with
  | Js.Val v => new = v
  | _ => new = old
  end.

Definition reset_ali : Reset.Request := Reset.mkRequest POST assistant_auth 1%Z.

Definition delete_student (auth : option string) (sid : Z) : StudentById.Request :=
  StudentById.mkRequest DELETE auth sid no_payload.

(** An update of Ali that changes the school and the age. *)
Definition school_update : StudentById.Request :=
  StudentById.mkRequest PUT assistant_auth 1%Z
    (StudentById.mkPayload Js.Undefined Js.Undefined Js.Undefined Js.Undefined
       Js.Undefined (Js.Val 17%Z) (Js.Val "Y")).

(** The request that revokes the attendance marked by [req]: the body
    [{ attended: false, lastAttendance: null, lastAttendanceCenter: null,
    attendanceWeek }] for the same student and week, as the scan page
    sends it. *)
Definition unattend_request (req : Attend.Request) : Attend.Request :=
  Attend.mkRequest (Attend.method req) (Attend.authorization req) (Attend.id req)
    (Attend.mkPayload false None None (Attend.attendanceWeek (Attend.payload req))).

(** A student document with an empty weeks array and one without the
    weeks property, as a store filled by other means may hold them. *)
Definition student_empty_weeks : Student.t :=
  Student.mk 7 "Mona" (Some 15%Z) "2nd Secondary" "Z" "01111111111" "01111111112"
    "Giza" None (Some []).

Definition student_no_weeks : Student.t :=
  Student.mk 8 "Omar" None "3rd Secondary" "" "01111111113" "01111111114"
    "Cairo" None None.

Definition db_legacy : Db := mkDb [student_no_weeks; student_empty_weeks] [] [].

(** ** The listing of the history, record by record *)

(** The rows that the records [l] give the student [sid], in the order
    of the records: one row for each record of that student that the join
    keeps. *)
Definition student_rows (sm : JsMap.t Student.t) (sid : Z) (l : list HistoryRecord.t)
    : list EnrichedRecord.t :=
  omap (fun h => if decide (HistoryRecord.studentId h = sid)
                 then snd <$> History.join sm h else None) l.

(** The groups of the history read, as the handler orders them. *)
Definition history_listing (db : Db) : list Group.t :=
  History.sort_by_id (JsMap.values (History.studentHistoryMap db)).

(** What the map of groups holds after the records [l]: distinct keys,
    under each key a group of that id with the rows of that student, a
    group for every student with a row, and no group without rows. *)
Definition groups_inv (sm : JsMap.t Student.t) (m : JsMap.t Group.t)
    (l : list HistoryRecord.t) : Prop :=
  NoDup (fst <$> m) /\
  (forall k g, (k, g) ∈ m ->
     Group.id g = k /\ Group.historyRecords g = student_rows sm k l
     /\ Group.historyRecords g <> []) /\
  (forall k, k ∉ fst <$> m -> student_rows sm k l = []).



(** An update that only gives the assistant of the path a new id. *)
Definition rename_assistant (auth : option string) (id n : string) : AssistantById.Request :=
  AssistantById.mkRequest PUT auth id
    (AssistantById.mkPayload (Js.Val n) Js.Undefined Js.Undefined Js.Undefined
       Js.Undefined).

(** Strings of ASCII characters only; on these [Js.blank] decides
    [s.trim() === ''] exactly, as [trim] also removes white space outside
    ASCII. *)
Fixpoint is_ascii (s : string) : bool :=
  match s with
  | EmptyString => true
  | String c rest => (Ascii.nat_of_ascii c <? 128)%nat && is_ascii rest
  end.

(** ** POST /api/auth/login *)

Module Login.
Record Payload : Type := mkPayload {
  assistant_id : Js.field string;
  password : Js.field string
}.

Record Request : Type := mkRequest {
  method : Method;
  payload : Payload
}.

(** The two shapes of the answer: [{ error }] and [{ token }]. *)
Inductive Body : Type :=
| Failure (error : string)
| Token (token : string).

Record Response : Type := mkResponse {
  status : Z;
  body : Body
}.

(** The payload signed for an assistant. *)
Definition claims (assistant : Assistant.t) : Claims.t :=
  Claims.mk (Assistant.id assistant) (Assistant.name assistant) (Assistant.role assistant).

Section Handler.
(** [bcrypt.compare(password, hash)]. *)
Variable bcrypt_compare : string -> string -> bool.
(** [jwt.sign(payload, JWT_SECRET, { expiresIn: '2h' })]. *)
Variable jwt_sign : Claims.t -> string.

Definition handler (db : Db) (req : Request) : Response :=
  match method req with
  | POST =>
      let p := payload req in
      if negb (Js.truthy_field (assistant_id p)) || negb (Js.truthy_field (password p))
      then mkResponse 400 (Failure "assistant_id and password required")
      else
        match Mongo.findOne (fun a => Assistant.id a = Assistants.str (assistant_id p))
                (assistants db) with
        | None => mkResponse 401 (Failure "user_not_found")
        | Some assistant =>
            let valid :=
              bcrypt_compare (Assistants.str (password p)) (Assistant.password assistant) in
            if negb valid then mkResponse 401 (Failure "wrong_password")
            else mkResponse 200 (Token (jwt_sign (claims assistant)))
        end
  | _ => mkResponse 405 (Failure "Method not allowed")
  end.
End Handler.
End Login.

(** Whether the character occurs in the string. *)
Fixpoint has_char (c : ascii) (s : string) : bool :=
  match s with
  | EmptyString => false
  | String c' rest => Ascii.eqb c' c || has_char c rest
  end.

(** The header the pages send with a token. *)
Definition bearer (token : string) : option string :=
  Some (String.append "Bearer " token).

Definition login_request (id password : string) : Login.Request :=
  Login.mkRequest POST (Login.mkPayload (Js.Val id) (Js.Val password)).

(** A comparison that matches [sample_hash], and a signer whose tokens
    [sample_verify] knows for the two sample accounts. *)
Definition sample_compare : string -> string -> bool := fun password hash =>
  String.eqb hash (sample_hash password).

Definition sample_sign : Claims.t -> string := fun c =>
  String.append (Claims.role c) "-token".

(** A store with one assistant and one administrator. *)
Definition db_staff : Db :=
  with_assistants
    [Assistant.mk "assist1" "Assistant" "01000000001" (sample_hash "pass1") "assistant";
     Assistant.mk "admin1" "Admin" "01000000002" (sample_hash "pass2") "admin"]
    empty_db.

(** ** The pages *)

(** [a[i]] for an integer [i]: [undefined] below zero and from the
    length on. *)
Definition at_index {A : Type} (l : list A) (i : Z) : option A :=
  if (i <? 0)%Z then None else l !! Z.to_nat i.

(** The longest run of digits at the head of the text. *)
Fixpoint take_digits (l : list ascii) : list ascii :=
  match l with
  | c :: rest => if Js.is_digit c then c :: take_digits rest else []
  | [] => []
  end.

(** One attempt of the pattern [week (\d+)] at the head of the text: the
    digits captured. *)
Definition week_at (l : list ascii) : option (list ascii) :=
  match l with
  | "w"%char :: "e"%char :: "e"%char :: "k"%char :: " "%char :: rest =>
      match take_digits rest with
      | [] => None
      | ds => Some ds
      end
  | _ => None
  end.

(** [text.match(/week (\d+)/)]: the capture of the leftmost match. *)
Fixpoint week_match (l : list ascii) : option (list ascii) :=
  match week_at l with
  | Some ds => Some ds
  | None =>
      match l with
      | [] => None
      | _ :: rest => week_match rest
      end
  end.

(** [parseInt] of a run of digits.  The value is kept as an integer;
    [parseInt] rounds it to a double from 2^53 on, far beyond every week
    number. *)
Definition parseInt (ds : list ascii) : Z :=
  fold_left (fun acc c => (10 * acc + (Z.of_nat (Ascii.nat_of_ascii c) - 48))%Z) ds 0%Z.

(** The helpers of the scan page.  The student is the answer of the read
    of one student, whose [weeks] is always an array. *)
Module ScanPage.
Definition getWeekNumber (weekString : string) : option Z :=
  if negb (Js.truthy weekString) then None
  else parseInt <$> week_match (String.list_ascii_of_string weekString).

Definition getCurrentWeekData (student : View.t) (weekString : string) : option WeekRecord :=
  if negb (Js.truthy weekString) then None
  else
    match getWeekNumber weekString with
    | None => None
    | Some weekNumber =>
        if (weekNumber =? 0)%Z then None
        else at_index (View.weeks student) (weekNumber - 1)
    end.

Definition updateStudentWithWeekData (student : View.t) (weekString : string) : View.t :=
  match getCurrentWeekData student weekString with
  | None => student
  | Some weekData =>
      View.mk (View.id student) (View.name student) (View.grade student)
        (View.phone student) (View.parents_phone student) (View.center student)
        (View.main_center student)
        (attended weekData) (lastAttendance weekData) (lastAttendanceCenter weekData)
        (View.attendanceWeek student)
        (hwDone weekData) (paidSession weekData) (quizDegree weekData)
        (View.school student) (View.age student) (View.message_state student)
        (View.weeks student)
  end.

(** What the page reads from [new Date()]. *)
Record Now : Type := mkNow {
  getDate : Z;
  getMonth : Z;
  getFullYear : Z
}.

(** [`${day}/${month}/${year} in ${attendanceCenter}`]. *)
Definition lastAttendance_text (now : Now) (attendanceCenter : string) : string :=
  let day := Js.padStart 2 "0"%char (Js.String_ (getDate now)) in
  let month := Js.padStart 2 "0"%char (Js.String_ (getMonth now + 1)) in
  let year := Js.String_ (getFullYear now) in
  String.append day
    (String.append "/"
       (String.append month
          (String.append "/" (String.append year (String.append " in " attendanceCenter))))).

(** The body that [toggleAttendance] sends for the new state. *)
Definition attendanceData (newAttended : bool) (now : Now) (attendanceCenter : string)
    (weekNumber : option Z) : Attend.Payload :=
  if newAttended
  then Attend.mkPayload true (Some (lastAttendance_text now attendanceCenter))
         (Some attendanceCenter) weekNumber
  else Attend.mkPayload false None None weekNumber.

(** [toggleAttendance]: the id and body handed to the mutation, or
    nothing without a student, a week or a center.  [optimisticAttended]
    is [None] for [null]. *)
Definition toggleAttendance (student : option View.t) (optimisticAttended : option bool)
    (selectedWeek attendanceCenter : string) (now : Now) : option (Z * Attend.Payload) :=
  match student with
  | None => None
  | Some st =>
      if negb (Js.truthy selectedWeek) || negb (Js.truthy attendanceCenter) then None
      else
        let currentAttended :=
          match optimisticAttended with
          | Some b => b
          | None => View.attended_the_session st
          end in
        let newAttended := negb currentAttended in
        let weekNumber := getWeekNumber selectedWeek in
        Some (View.id st, attendanceData newAttended now attendanceCenter weekNumber)
  end.
End ScanPage.

(** Whether the text is two digits, and whether it is four. *)
Definition two_digits (s : string) : bool :=
  match String.list_ascii_of_string s with
  | [a; b] => Js.is_digit a && Js.is_digit b
  | _ => false
  end.

Definition four_digits (s : string) : bool :=
  match String.list_ascii_of_string s with
  | [a; b; c; d] => Js.is_digit a && Js.is_digit b && Js.is_digit c && Js.is_digit d
  | _ => false
  end.

(** A date as the page can read it: a day from 1 to 31, a month index
    from 0 to 11 and a year of four digits. *)
Definition plain_date (now : ScanPage.Now) : Prop :=
  (1 <= ScanPage.getDate now <= 31)%Z /\
  (0 <= ScanPage.getMonth now <= 11)%Z /\
  (1000 <= ScanPage.getFullYear now <= 9999)%Z.

(** The helper of the student page behind its table of weeks. *)
Module StudentInfo.
Record WeekAttendance : Type := mkWeekAttendance {
  wa_attended : bool;
  wa_hwDone : bool;
  wa_paidSession : bool;
  wa_quizDegree : option string;
  wa_message_state : bool;
  wa_lastAttendance : option string
}.

Definition no_attendance : WeekAttendance :=
  mkWeekAttendance false false false None false None.

(** [student] is [None] while no student is loaded. *)
Definition getWeekAttendance (student : option View.t) (weekNumber : Z) : WeekAttendance :=
  match student with
  | None => no_attendance
  | Some st =>
      match List.find (fun w => (week w =? weekNumber)%Z) (View.weeks st) with
      | None => no_attendance
      | Some weekData =>
          mkWeekAttendance (attended weekData) (hwDone weekData) (paidSession weekData)
            (Js.or_null (quizDegree weekData)) (message_state weekData)
            (Js.or_null (lastAttendance weekData))
      end
  end.
End StudentInfo.

(** The counters of the session page ([SessionInfo]) over the students of the read
    of all students; [weekNumber] is the result of [getWeekNumber] on the
    selected week. *)
Module Dashboard.
Definition getWeekNumber (weekString : string) : option Z :=
  if negb (Js.truthy weekString) then None
  else parseInt <$> week_match (String.list_ascii_of_string weekString).

(** Truthiness of a number or [null]. *)
Definition selected (weekNumber : option Z) : bool :=
  match weekNumber with
  | Some n => negb (n =? 0)%Z
  | None => false
  end.

(** [student.weeks[weekNumber - 1]] behind the guard [!weekNumber]. *)
Definition weekData (student : View.t) (weekNumber : option Z) : option WeekRecord :=
  match weekNumber with
  | Some n => if (n =? 0)%Z then None else at_index (View.weeks student) (n - 1)
  | None => None
  end.

Definition didStudentAttendInWeek (student : View.t) (weekNumber : option Z) : bool :=
  match weekData student weekNumber with
  | Some w => attended w
  | None => false
  end.

Definition attendedCount (dataToCount : list View.t) (weekNumber : option Z) : nat :=
  if selected weekNumber
  then length (List.filter (fun s => didStudentAttendInWeek s weekNumber) dataToCount)
  else length (List.filter (fun s => existsb attended (View.weeks s)) dataToCount).

Definition notAttendedCount (dataToCount : list View.t) (weekNumber : option Z) : nat :=
  if selected weekNumber
  then length (List.filter (fun s => negb (didStudentAttendInWeek s weekNumber)) dataToCount)
  else length (List.filter (fun s => negb (existsb attended (View.weeks s))) dataToCount).

Definition hwDoneCount (dataToCount : list View.t) (weekNumber : option Z) : nat :=
  if selected weekNumber
  then length (List.filter
                 (fun s => match weekData s weekNumber with
                           | Some w => hwDone w
                           | None => false
                           end) dataToCount)
  else length (List.filter (fun s => existsb hwDone (View.weeks s)) dataToCount).

Definition hwNotDoneCount (dataToCount : list View.t) (weekNumber : option Z) : nat :=
  if selected weekNumber
  then length (List.filter
                 (fun s => match weekData s weekNumber with
                           | Some w => negb (hwDone w)
                           | None => false
                           end) dataToCount)
  else length (List.filter (fun s => negb (existsb hwDone (View.weeks s))) dataToCount).

Definition paidCount (dataToCount : list View.t) (weekNumber : option Z) : nat :=
  if selected weekNumber
  then length (List.filter
                 (fun s => match weekData s weekNumber with
                           | Some w => paidSession w
                           | None => false
                           end) dataToCount)
  else length (List.filter (fun s => existsb paidSession (View.weeks s)) dataToCount).

Definition notPaidCount (dataToCount : list View.t) (weekNumber : option Z) : nat :=
  if selected weekNumber
  then length (List.filter
                 (fun s => match weekData s weekNumber with
                           | Some w => negb (paidSession w)
                           | None => false
                           end) dataToCount)
  else length (List.filter (fun s => negb (existsb paidSession (View.weeks s))) dataToCount).
End Dashboard.

(** Two views of the read of all students, both with the weeks of a new
    student. *)
Definition sample_views : list View.t :=
  [week_view (Student.mk 1 "Ali" None "1st Secondary" "School" "0100" "0101" "Giza" None
                (Some fresh_weeks)) fresh_weeks (zeroed_week 1) None;
   week_view (Student.mk 2 "Mona" None "2nd Secondary" "School" "0102" "0103" "Giza" None
                (Some fresh_weeks)) fresh_weeks (zeroed_week 1) None].

(** * Properties *)

(** ** The document-store operations *)

Section MongoFacts.
Context {A : Type} (P : A -> Prop) `{Pdec : !forall x, Decision (P x)}.

Lemma findOne_Some (l : list A) (x : A) :
  Mongo.findOne P l = Some x -> x ∈ l /\ P x.
Proof.
  unfold Mongo.findOne. intros H.
  apply fmap_Some in H as [[i y] [Hfind ->]].
  apply list_find_Some in Hfind as (Hi & HP & _).
  split; [eapply list_elem_of_lookup_2; exact Hi | exact HP].
Qed.

Lemma findOne_None (l : list A) :
  Mongo.findOne P l = None -> Forall (fun x => ~ P x) l.
Proof.
  unfold Mongo.findOne. intros H.
  apply fmap_None in H. apply list_find_None in H. exact H.
Qed.

(** [updateOne] matches exactly when [findOne] finds a document. *)
Lemma updateOne_matched (f : A -> A) (l : list A) :
  fst (Mongo.updateOne P f l) = match Mongo.findOne P l with Some _ => 1 | None => 0 end.
Proof.
  unfold Mongo.updateOne, Mongo.findOne.
  destruct (list_find P l) as [[i x]|]; reflexivity.
Qed.

Lemma updateOne_None (f : A -> A) (l : list A) :
  Mongo.findOne P l = None -> Mongo.updateOne P f l = (0, l).
Proof.
  unfold Mongo.updateOne, Mongo.findOne.
  destruct (list_find P l) as [[i x]|]; [discriminate | reflexivity].
Qed.

(** A property of every document survives [updateOne] when the update
    keeps it on the document that [findOne] returns. *)
Lemma updateOne_Forall (Q : A -> Prop) (f : A -> A) (l : list A) :
  Forall Q l ->
  (forall x, Mongo.findOne P l = Some x -> Q x -> Q (f x)) ->
  Forall Q (snd (Mongo.updateOne P f l)).
Proof.
  intros Hl Hf. unfold Mongo.updateOne, Mongo.findOne in *.
  destruct (list_find P l) as [[i x]|] eqn:Hfind; simpl; [|exact Hl].
  apply Forall_alter; [exact Hl|].
  intros y Hy HQ. apply list_find_Some in Hfind as (Hi & _ & _).
  rewrite Hi in Hy. injection Hy as <-. apply Hf; [reflexivity | exact HQ].
Qed.

Lemma deleteOne_Forall (Q : A -> Prop) (l : list A) :
  Forall Q l -> Forall Q (snd (Mongo.deleteOne P l)).
Proof.
  intros Hl. unfold Mongo.deleteOne.
  destruct (list_find P l) as [[i x]|]; simpl; [by apply Forall_delete | exact Hl].
Qed.

(** After an update that keeps the filter's verdict on every document,
    [findOne] returns the updated document. *)
Lemma findOne_updateOne (f : A -> A) (l : list A) :
  (forall x, P (f x) <-> P x) ->
  Mongo.findOne P (snd (Mongo.updateOne P f l)) = f <$> Mongo.findOne P l.
Proof.
  intros Hf. unfold Mongo.updateOne, Mongo.findOne.
  destruct (list_find P l) as [[i x]|] eqn:Hfind; simpl.
  - apply list_find_Some in Hfind as (Hi & HP & Hlt).
    assert (list_find P (alter f i l) = Some (i, f x)) as ->; [|reflexivity].
    apply list_find_Some. split_and!.
    + by rewrite list_lookup_alter_eq, Hi.
    + by apply Hf.
    + intros j y Hj Hji. rewrite list_lookup_alter_ne in Hj by lia. eauto.
  - rewrite Hfind. reflexivity.
Qed.
End MongoFacts.

Lemma insertOne_Forall {A : Type} (Q : A -> Prop) (x : A) (l : list A) :
  Forall Q l -> Q x -> Forall Q (Mongo.insertOne x l).
Proof.
  intros Hl Hx. unfold Mongo.insertOne. apply Forall_app. split; [exact Hl|].
  by constructor.
Qed.

(** ** The auth gate and the catch clauses *)

Lemma includes_prefix (hay needle : string) :
  String.prefix needle hay = true -> Js.includes hay needle = true.
Proof. intros H. destruct hay; simpl in *; rewrite H; reflexivity. Qed.

(** Every error thrown by [authMiddleware] is answered with 401. *)
Lemma authMiddleware_throws_auth_error (jwt_verify : Verifier) (auth : option string)
    (m : string) :
  authMiddleware jwt_verify auth = Throw m -> is_auth_error m = true.
Proof.
  unfold authMiddleware, is_auth_error. intros H.
  destruct auth as [a|]; [|by injection H as <-].
  destruct (negb (Js.truthy a) || negb (String.prefix "Bearer " a)); [by injection H as <-|].
  destruct (jwt_verify (bearer_token a)) as [c|msg]; [discriminate|].
  injection H as <-. apply orb_true_iff. right.
  apply includes_prefix. reflexivity.
Qed.

(** ** The zeroed week sequence *)

Lemma push_weeks_length (n : nat) (i : Z) (acc : list WeekRecord) :
  length (push_weeks n i acc) = (length acc + n)%nat.
Proof.
  revert i acc. induction n as [|n IH]; intros i acc; simpl; [lia|].
  rewrite IH, length_app. simpl. lia.
Qed.

Lemma push_weeks_lookup (n : nat) (i : Z) (acc : list WeekRecord) (k : nat) :
  push_weeks n i acc !! k =
  if decide (k < length acc)%nat then acc !! k
  else if decide (k < length acc + n)%nat
       then Some (zeroed_week (i + Z.of_nat (k - length acc)))
       else None.
Proof.
  revert i acc. induction n as [|n IH]; intros i acc; simpl.
  - repeat case_decide; try lia; [reflexivity|].
    apply lookup_ge_None. lia.
  - rewrite IH, length_app. simpl.
    repeat case_decide; try lia.
    + by rewrite lookup_app_l.
    + assert (k = length acc) as -> by lia.
      rewrite lookup_app_r, Nat.sub_diag by lia. simpl.
      do 2 f_equal. lia.
    + do 2 f_equal. lia.
    + reflexivity.
Qed.

(** The weeks of a new or reset student: 20 records, the one at index
    [k] zeroed with week number [k + 1]. *)
Lemma fresh_weeks_lookup (k : nat) (w : WeekRecord) :
  fresh_weeks !! k = Some w ->
  (k < 20)%nat /\ w = mkWeek (Z.of_nat k + 1) false None None false false None false.
Proof.
  unfold fresh_weeks. rewrite push_weeks_lookup. simpl.
  repeat case_decide; try lia; intros Hw; [|discriminate].
  injection Hw as <-. split; [lia|]. unfold zeroed_week. f_equal. lia.
Qed.

Lemma fresh_weeks_length : length fresh_weeks = 20%nat.
Proof. reflexivity. Qed.

Lemma fresh_weeks_ok : Forall week_ok fresh_weeks.
Proof.
  apply Forall_lookup. intros k w Hk.
  apply fresh_weeks_lookup in Hk as [_ ->]. intros _. auto.
Qed.

Lemma fresh_weeks_shape : weeks_shape fresh_weeks.
Proof.
  split; [reflexivity|]. intros i w Hi.
  apply fresh_weeks_lookup in Hi as [_ ->]. reflexivity.
Qed.

(** ** Properties of the week sequences kept by the handlers *)

(** The handlers of the sources touch the weeks of a student in three
    ways only: a fresh sequence, the attend assignments at one index, the
    un-attend assignments at one index.  A property of week sequences
    closed under the three holds of every student after every handler. *)
Section WeeksInvariant.
Variable jwt_verify : Verifier.
Variable R : option (list WeekRecord) -> Prop.
Hypothesis R_fresh : R (Some fresh_weeks).
Hypothesis R_attend : forall ws i p,
  R (Some ws) -> R (Some (alter (Mongo.apply_week_sets (Attend.attend_query p)) i ws)).
Hypothesis R_unattend : forall ws i,
  R (Some ws) -> R (Some (alter (Mongo.apply_week_sets Attend.unattend_query) i ws)).

Lemma set_week_attend_inv (i : Z) (p : Attend.Payload) (s : Student.t) :
  R (Student.weeks s) -> R (Student.weeks (Mongo.set_week i (Attend.attend_query p) s)).
Proof. destruct s as [? ? ? ? ? ? ? ? ? [ws|]]; simpl; auto. Qed.

Lemma set_week_unattend_inv (i : Z) (s : Student.t) :
  R (Student.weeks s) -> R (Student.weeks (Mongo.set_week i Attend.unattend_query s)).
Proof. destruct s as [? ? ? ? ? ? ? ? ? [ws|]]; simpl; auto. Qed.

Lemma updateOne_week_inv (sid i : Z) (q : list Mongo.week_set) (l l' : list Student.t)
    (n : nat) :
  (forall s, R (Student.weeks s) -> R (Student.weeks (Mongo.set_week i q s))) ->
  Forall (fun s => R (Student.weeks s)) l ->
  Mongo.updateOne_week sid i q l = Return (n, l') ->
  Forall (fun s => R (Student.weeks s)) l'.
Proof.
  intros Hq Hl. unfold Mongo.updateOne_week.
  destruct (Mongo.findOne _ l); [|by intros [= _ <-]].
  destruct (i <? 0)%Z; [discriminate|]. intros [= Hu].
  replace l' with (snd (Mongo.updateOne (fun s => Student.id s = sid) (Mongo.set_week i q) l))
    by (rewrite Hu; reflexivity).
  apply updateOne_Forall; auto.
Qed.

Lemma reset_inv (db : Db) (req : Reset.Request) :
  students_inv R db -> students_inv R (snd (Reset.handler jwt_verify db req)).
Proof.
  intros Hdb. unfold Reset.handler, Reset.handler_try.
  case_decide; [|exact Hdb].
  destruct (authMiddleware jwt_verify _); [|destruct (is_auth_error _); exact Hdb].
  destruct (Mongo.findOne _ _); [|exact Hdb].
  assert (students_inv R (with_students (snd (Mongo.updateOne
            (fun s => Student.id s = Reset.id req)
            (Student.with_weeks (Some fresh_weeks)) (students db))) db)).
  { unfold students_inv. simpl. apply updateOne_Forall; [exact Hdb|]. auto. }
  destruct (fst _ =? 0)%nat; assumption.
Qed.

Lemma attend_inv (db : Db) (req : Attend.Request) :
  students_inv R db -> students_inv R (snd (Attend.handler jwt_verify db req)).
Proof.
  intros Hdb. unfold Attend.handler, Attend.handler_try.
  case_decide; [|exact Hdb].
  destruct (authMiddleware jwt_verify _); [|destruct (is_auth_error _); exact Hdb].
  destruct (Mongo.findOne _ _); [|exact Hdb].
  destruct (Attend.out_of_bounds _ _); [exact Hdb|].
  destruct (Attend.attended _).
  - destruct (Mongo.updateOne_week _ _ _ _) as [[n l']|m] eqn:Hu;
      [|destruct (is_auth_error _); exact Hdb].
    apply updateOne_week_inv in Hu; [|apply set_week_attend_inv|exact Hdb].
    simpl. destruct (n =? 0)%nat; exact Hu.
  - destruct (Mongo.updateOne_week _ _ _ _) as [[n l']|m] eqn:Hu;
      [|destruct (is_auth_error _); exact Hdb].
    apply updateOne_week_inv in Hu; [|apply set_week_unattend_inv|exact Hdb].
    simpl. destruct (n =? 0)%nat; exact Hu.
Qed.

Lemma students_inv_handler (db : Db) (req : Students.Request) :
  students_inv R db -> students_inv R (snd (Students.handler jwt_verify db req)).
Proof.
  intros Hdb. unfold Students.handler, Students.handler_try.
  destruct (authMiddleware jwt_verify _); [|destruct (is_auth_error _); exact Hdb].
  destruct (Students.method req); try exact Hdb.
  - destruct (Students.mapStudents _); [exact Hdb|].
    destruct (is_auth_error _); exact Hdb.
  - destruct (Students.missing_field _); [exact Hdb|].
    unfold students_inv. simpl. apply insertOne_Forall; [exact Hdb | exact R_fresh].
Qed.

Lemma student_by_id_inv (db : Db) (req : StudentById.Request) :
  students_inv R db -> students_inv R (snd (StudentById.handler jwt_verify db req)).
Proof.
  intros Hdb. unfold StudentById.handler, StudentById.handler_try.
  destruct (authMiddleware jwt_verify _); [|destruct (is_auth_error _); exact Hdb].
  destruct (StudentById.method req); try exact Hdb.
  - destruct (Mongo.findOne _ _); [|exact Hdb].
    destruct (currentWeek _); [exact Hdb|].
    destruct (is_auth_error _); exact Hdb.
  - destruct (StudentById.keys_length _ =? 0)%nat; [exact Hdb|].
    assert (students_inv R (with_students (snd (Mongo.updateOne
              (fun s => Student.id s = StudentById.id req)
              (StudentById.apply_update (StudentById.build_update (StudentById.payload req)))
              (students db))) db)).
    { unfold students_inv. simpl. apply updateOne_Forall; [exact Hdb|]. auto. }
    destruct (fst _ =? 0)%nat; assumption.
  - assert (students_inv R (with_students (snd (Mongo.deleteOne
              (fun s => Student.id s = StudentById.id req) (students db))) db)).
    { unfold students_inv. simpl. apply deleteOne_Forall. exact Hdb. }
    destruct (fst _ =? 0)%nat; assumption.
Qed.

Lemma history_inv (db : Db) (req : History.Request) :
  students_inv R db -> students_inv R (snd (History.handler jwt_verify db req)).
Proof.
  intros Hdb. unfold History.handler, History.handler_try.
  case_decide; [|exact Hdb].
  destruct (authMiddleware jwt_verify _); [exact Hdb|].
  destruct (is_auth_error _); exact Hdb.
Qed.
End WeeksInvariant.

(** ** Attended-only fields: the invariant of the week records *)

Lemma apply_week_sets_week (q : list Mongo.week_set) (w : WeekRecord) :
  week (Mongo.apply_week_sets q w) = week w.
Proof.
  unfold Mongo.apply_week_sets. revert w.
  induction q as [|u q IH]; intros w; simpl; [reflexivity|].
  rewrite IH. by destruct u.
Qed.

Lemma attend_query_attended (p : Attend.Payload) (w : WeekRecord) :
  attended (Mongo.apply_week_sets (Attend.attend_query p) w) = true.
Proof. reflexivity. Qed.

Lemma unattend_query_zeroes (w : WeekRecord) :
  Mongo.apply_week_sets Attend.unattend_query w = zeroed_week (week w).
Proof. reflexivity. Qed.

Lemma weeks_ok_fresh : weeks_ok (Some fresh_weeks).
Proof. intros ws [= <-]. apply fresh_weeks_ok. Qed.

Lemma weeks_ok_attend (ws : list WeekRecord) (i : nat) (p : Attend.Payload) :
  weeks_ok (Some ws) ->
  weeks_ok (Some (alter (Mongo.apply_week_sets (Attend.attend_query p)) i ws)).
Proof.
  intros Hws ws' [= <-]. apply Forall_alter; [by apply Hws|].
  intros w _ _ Hw. rewrite attend_query_attended in Hw. discriminate.
Qed.

Lemma weeks_ok_unattend (ws : list WeekRecord) (i : nat) :
  weeks_ok (Some ws) ->
  weeks_ok (Some (alter (Mongo.apply_week_sets Attend.unattend_query) i ws)).
Proof.
  intros Hws ws' [= <-]. apply Forall_alter; [by apply Hws|].
  intros w _ _ _. rewrite unattend_query_zeroes. auto.
Qed.

Lemma weeks_shape_alter (q : list Mongo.week_set) (i : nat) (ws : list WeekRecord) :
  weeks_shape ws -> weeks_shape (alter (Mongo.apply_week_sets q) i ws).
Proof.
  intros [Hlen Hweek]. split; [by rewrite length_alter|].
  intros j w Hj. destruct (decide (i = j)) as [->|Hne].
  - rewrite list_lookup_alter_eq in Hj.
    apply fmap_Some in Hj as (w0 & Hw0 & ->).
    rewrite apply_week_sets_week. by apply Hweek.
  - rewrite list_lookup_alter_ne in Hj by done. by apply Hweek.
Qed.

Lemma weeks_shaped_fresh : weeks_shaped (Some fresh_weeks).
Proof. exists fresh_weeks. split; [reflexivity | apply fresh_weeks_shape]. Qed.

Lemma weeks_shaped_alter (q : list Mongo.week_set) (i : nat) (ws : list WeekRecord) :
  weeks_shaped (Some ws) -> weeks_shaped (Some (alter (Mongo.apply_week_sets q) i ws)).
Proof.
  intros (ws0 & [= <-] & Hs). eexists. split; [reflexivity|].
  by apply weeks_shape_alter.
Qed.

Lemma db_ok_students_inv (db : Db) : db_ok db <-> students_inv weeks_ok db.
Proof. reflexivity. Qed.

(** The homework, payment and quiz-grade updates keep the shape of the
    week sequences whatever they aim at. *)
Lemma week_field_update_shaped (jwt_verify : Verifier) (db : Db) (req : WeekField.Request) :
  students_inv weeks_shaped db ->
  students_inv weeks_shaped (WeekField.update jwt_verify db req).
Proof.
  intros Hdb. unfold WeekField.update.
  destruct (authMiddleware jwt_verify _); [|exact Hdb].
  destruct (_ <? 0)%Z; [exact Hdb|].
  unfold students_inv. simpl. apply updateOne_Forall; [exact Hdb|].
  intros [? ? ? ? ? ? ? ? ? [ws|]] _ Hs; simpl in *; [|exact Hs].
  by apply weeks_shaped_alter.
Qed.

(** They keep the invariant of the week records when the week they aim
    at is attended. *)
Lemma week_field_update_ok (jwt_verify : Verifier) (db : Db) (req : WeekField.Request) :
  WeekField.targets_attended db req = true ->
  db_ok db -> db_ok (WeekField.update jwt_verify db req).
Proof.
  intros Hguard Hdb. unfold WeekField.update.
  destruct (authMiddleware jwt_verify _); [|exact Hdb].
  destruct (_ <? 0)%Z eqn:Hneg; [exact Hdb|].
  unfold db_ok. simpl. apply updateOne_Forall; [exact Hdb|].
  intros s Hfind Hs ws' Hws'.
  unfold WeekField.targets_attended in Hguard. rewrite Hfind in Hguard.
  unfold History.weekData in Hguard. rewrite Hneg in Hguard.
  destruct s as [? ? ? ? ? ? ? ? ? [ws|]]; simpl in *; [|discriminate].
  injection Hws' as <-.
  apply Forall_alter; [by apply Hs|].
  intros w Hw _ Hatt.
  rewrite Hw in Hguard.
  destruct (WeekField.payload req); simpl in Hatt; congruence.
Qed.

Section RunFacts.
Variable jwt_verify : Verifier.

Lemma apply_op_shaped (db : Db) (op : Op) :
  students_inv weeks_shaped db -> students_inv weeks_shaped (apply_op jwt_verify db op).
Proof.
  intros Hdb. destruct op; simpl.
  - apply students_inv_handler; [apply weeks_shaped_fresh | exact Hdb].
  - by apply student_by_id_inv.
  - apply reset_inv; [apply weeks_shaped_fresh | exact Hdb].
  - apply attend_inv; [intros; by apply weeks_shaped_alter.. | exact Hdb].
  - by apply history_inv.
  - by apply week_field_update_shaped.
Qed.

(** Every student of a store reached from the empty store has the week
    sequence of the data model. *)
Lemma run_shaped (db : Db) (ops : list Op) :
  students_inv weeks_shaped db -> students_inv weeks_shaped (run jwt_verify db ops).
Proof.
  revert db. induction ops as [|op ops IH]; intros db Hdb; simpl; [exact Hdb|].
  apply IH, apply_op_shaped, Hdb.
Qed.

Lemma apply_op_ok (db : Db) (op : Op) :
  match op with
  | OpWeekField req => WeekField.targets_attended db req = true
  | _ => True
  end ->
  db_ok db -> db_ok (apply_op jwt_verify db op).
Proof.
  intros Hguard Hdb. destruct op; simpl.
  - exact (students_inv_handler jwt_verify weeks_ok weeks_ok_fresh db req Hdb).
  - exact (student_by_id_inv jwt_verify weeks_ok db req Hdb).
  - exact (reset_inv jwt_verify weeks_ok weeks_ok_fresh db req Hdb).
  - exact (attend_inv jwt_verify weeks_ok weeks_ok_attend weeks_ok_unattend db req Hdb).
  - exact (history_inv jwt_verify weeks_ok db req Hdb).
  - by apply week_field_update_ok.
Qed.
End RunFacts.

Lemma empty_db_ok : db_ok empty_db.
Proof. constructor. Qed.

(** C1, as stated, fails: after a create and a homework update on a week
    that is not attended, the week has [attended = false] and
    [hwDone = true]. *)
Lemma C1_homework_without_attendance :
  exists s ws w,
    s ∈ students (run sample_verify empty_db unguarded_ops) /\
    Student.weeks s = Some ws /\ ws !! 0%nat = Some w /\
    attended w = false /\ hwDone w = true.
Proof.
  eexists _, _, _. split_and!.
  - vm_compute. apply list_elem_of_here.
  - reflexivity.
  - reflexivity.
  - reflexivity.
  - reflexivity.
Qed.

(** C1 (amended): after any sequence of service operations in which the
    homework, payment and quiz-grade updates aim only at weeks that are
    attended at that moment, every week with [attended = false] has
    [hwDone = false], [paidSession = false] and [quizDegree = null]. *)
Theorem C1_attended_only_fields (jwt_verify : Verifier) (db : Db) (ops : list Op) :
  db_ok db ->
  guarded jwt_verify db ops ->
  forall s ws w,
    s ∈ students (run jwt_verify db ops) ->
    Student.weeks s = Some ws -> w ∈ ws ->
    attended w = false ->
    hwDone w = false /\ paidSession w = false /\ quizDegree w = None.
Proof.
  intros Hdb Hg.
  assert (db_ok (run jwt_verify db ops)) as Hrun.
  { revert db Hdb Hg. induction ops as [|op ops IH]; intros db Hdb Hg; simpl; [exact Hdb|].
    destruct Hg as [Hop Hrest]. apply IH; [|exact Hrest].
    apply apply_op_ok; assumption. }
  intros s ws w Hs Hws Hw.
  unfold db_ok in Hrun. rewrite Forall_forall in Hrun.
  specialize (Hrun s Hs ws Hws). rewrite Forall_forall in Hrun.
  exact (Hrun w Hw).
Qed.

Lemma C1_attended_only_fields_witness :
  db_ok empty_db /\
  guarded sample_verify empty_db guarded_ops /\
  forall s ws w,
    s ∈ students (run sample_verify empty_db guarded_ops) ->
    Student.weeks s = Some ws -> w ∈ ws ->
    attended w = false ->
    hwDone w = false /\ paidSession w = false /\ quizDegree w = None.
Proof.
  assert (guarded sample_verify empty_db guarded_ops) as Hg.
  { vm_compute. repeat split. }
  split; [exact empty_db_ok|]. split; [exact Hg|].
  exact (C1_attended_only_fields sample_verify empty_db guarded_ops empty_db_ok Hg).
Defined.

(** ** Creating a student *)

Lemma find_sort_id_desc_limit1_spec (l : list Student.t) :
  match Mongo.find_sort_id_desc_limit1 l with
  | [] => l = []
  | top :: _ => top ∈ l /\ forall s, s ∈ l -> (Student.id s <= Student.id top)%Z
  end.
Proof.
  induction l as [|s l IH]; simpl; [reflexivity|].
  destruct (Mongo.find_sort_id_desc_limit1 l) as [|t rest].
  - subst l. split; [apply list_elem_of_here|].
    intros s' Hs'. apply elem_of_cons in Hs' as [->|Hs']; [lia|].
    by apply not_elem_of_nil in Hs'.
  - destruct IH as [Ht Hmax].
    destruct (Student.id t <=? Student.id s)%Z eqn:Hle.
    + apply Z.leb_le in Hle. split; [apply list_elem_of_here|].
      intros s' Hs'. apply elem_of_cons in Hs' as [->|Hs']; [lia|].
      specialize (Hmax s' Hs'). lia.
    + apply Z.leb_gt in Hle. split; [by apply list_elem_of_further|].
      intros s' Hs'. apply elem_of_cons in Hs' as [->|Hs']; [lia|].
      by apply Hmax.
Qed.

(** C2: a create request with every required field present is answered
    with the new id; the id is the greatest existing id plus one (1 in an
    empty collection); the student is appended with exactly 20 week
    records, the one at index [k] being week [k + 1] with
    [attended = false], [lastAttendance = null],
    [lastAttendanceCenter = null], [hwDone = false],
    [paidSession = false], [quizDegree = null], [message_state = false]. *)
Theorem C2_create_student (jwt_verify : Verifier) (db : Db) (req : Students.Request)
    (user : Claims.t) :
  Students.method req = POST ->
  authMiddleware jwt_verify (Students.authorization req) = Return user ->
  Js.truthy_field (Students.name (Students.payload req)) = true ->
  Js.truthy_field (Students.grade (Students.payload req)) = true ->
  Js.truthy_field (Students.phone (Students.payload req)) = true ->
  Js.truthy_field (Students.parents_phone (Students.payload req)) = true ->
  Js.truthy_field (Students.main_center (Students.payload req)) = true ->
  Students.age (Students.payload req) <> Js.Undefined ->
  Js.truthy_field (Students.school (Students.payload req)) = true ->
  exists student ws,
    Students.handler jwt_verify db req =
      (mkResponse 200 (IdBody (Student.id student)),
       mkDb (students db ++ [student]) (history db) (assistants db)) /\
    (match students db with
     | [] => Student.id student = 1%Z
     | _ :: _ =>
         exists top, top ∈ students db /\
           (forall s, s ∈ students db -> (Student.id s <= Student.id top)%Z) /\
           Student.id student = (Student.id top + 1)%Z
     end) /\
    Student.weeks student = Some ws /\
    length ws = 20%nat /\
    forall (k : nat) (w : WeekRecord),
      ws !! k = Some w ->
      w = mkWeek (Z.of_nat k + 1) false None None false false None false.
Proof.
  intros Hm Hauth Hn Hg Hp Hpp Hmc Hage Hs.
  unfold Students.handler, Students.handler_try. rewrite Hauth, Hm.
  assert (Students.missing_field (Students.payload req) = false) as ->.
  { unfold Students.missing_field. rewrite Hn, Hg, Hp, Hpp, Hmc, Hs.
    by destruct (Students.age (Students.payload req)). }
  exists (Students.new_student (Students.newId (students db)) fresh_weeks
            (Students.payload req)), fresh_weeks.
  split_and!.
  - reflexivity.
  - simpl. unfold Students.newId.
    pose proof (find_sort_id_desc_limit1_spec (students db)) as Hspec.
    destruct (Mongo.find_sort_id_desc_limit1 (students db)) as [|top rest].
    + by rewrite Hspec.
    + destruct Hspec as [Htop Hmax]. destruct (students db) as [|s0 l0] eqn:Hl.
      * by apply not_elem_of_nil in Htop.
      * exists top. split_and!; auto.
  - reflexivity.
  - reflexivity.
  - intros k w Hk. by apply fresh_weeks_lookup in Hk as [_ ->].
Qed.

Lemma C2_create_student_witness :
  exists student ws,
    Students.handler sample_verify db_ali create_ali =
      (mkResponse 200 (IdBody (Student.id student)),
       mkDb (students db_ali ++ [student]) (history db_ali) (assistants db_ali)) /\
    (match students db_ali with
     | [] => Student.id student = 1%Z
     | _ :: _ =>
         exists top, top ∈ students db_ali /\
           (forall s, s ∈ students db_ali -> (Student.id s <= Student.id top)%Z) /\
           Student.id student = (Student.id top + 1)%Z
     end) /\
    Student.weeks student = Some ws /\
    length ws = 20%nat /\
    forall (k : nat) (w : WeekRecord),
      ws !! k = Some w ->
      w = mkWeek (Z.of_nat k + 1) false None None false false None false.
Proof.
  apply (C2_create_student sample_verify db_ali create_ali assistant_claims);
    solve [reflexivity | discriminate].
Defined.

(** ** Toggling attendance *)

Section AttendFacts.
Variable jwt_verify : Verifier.

Lemma attend_accepted_true (db : Db) (req : Attend.Request) (student : Student.t)
    (ws : list WeekRecord) :
  attend_accepted jwt_verify db req student ws ->
  Attend.attended (Attend.payload req) = true ->
  Attend.handler jwt_verify db req =
    (mkResponse 200 SuccessBody,
     mkDb (attend_students db req)
       (history db ++
          [HistoryRecord.mk (Attend.id req) (Attend.weekNumber (Attend.payload req))])
       (assistants db)).
Proof.
  intros (Hm & [user Hauth] & Hfind & Hws & Hlo & Hhi) Hatt.
  unfold Attend.handler, Attend.handler_try, attend_students.
  rewrite Hm, Hauth, Hfind, Hatt.
  destruct (decide (POST = POST)) as [_|Hne]; [|by destruct Hne].
  unfold Attend.out_of_bounds. rewrite Hws.
  destruct (Z.leb_spec (Z.of_nat (length ws)) (Attend.weekIndex (Attend.payload req)));
    [lia|].
  unfold Mongo.updateOne_week. rewrite Hfind.
  destruct (Z.ltb_spec (Attend.weekIndex (Attend.payload req)) 0); [lia|].
  rewrite updateOne_matched, Hfind. simpl.
  apply findOne_Some in Hfind as [_ ->]. reflexivity.
Qed.

Lemma attend_accepted_false (db : Db) (req : Attend.Request) (student : Student.t)
    (ws : list WeekRecord) :
  attend_accepted jwt_verify db req student ws ->
  Attend.attended (Attend.payload req) = false ->
  Attend.handler jwt_verify db req =
    (mkResponse 200 SuccessBody,
     mkDb (attend_students db req)
       (filter (fun h => ~ (HistoryRecord.studentId h = Attend.id req
                            /\ HistoryRecord.week h = Attend.weekNumber (Attend.payload req)))
          (history db))
       (assistants db)).
Proof.
  intros (Hm & [user Hauth] & Hfind & Hws & Hlo & Hhi) Hatt.
  unfold Attend.handler, Attend.handler_try, attend_students.
  rewrite Hm, Hauth, Hfind, Hatt.
  destruct (decide (POST = POST)) as [_|Hne]; [|by destruct Hne].
  unfold Attend.out_of_bounds. rewrite Hws.
  destruct (Z.leb_spec (Z.of_nat (length ws)) (Attend.weekIndex (Attend.payload req)));
    [lia|].
  unfold Mongo.updateOne_week. rewrite Hfind.
  destruct (Z.ltb_spec (Attend.weekIndex (Attend.payload req)) 0); [lia|].
  rewrite updateOne_matched, Hfind. reflexivity.
Qed.

(** An accepted request is still accepted after it was served: the
    student is found again, with a week sequence of the same length. *)
Lemma attend_accepted_again (db : Db) (req : Attend.Request) (student : Student.t)
    (ws : list WeekRecord) (h : list HistoryRecord.t) :
  attend_accepted jwt_verify db req student ws ->
  exists student' ws',
    attend_accepted jwt_verify (mkDb (attend_students db req) h (assistants db)) req student' ws' /\
    ws' = alter (Mongo.apply_week_sets
                   (if Attend.attended (Attend.payload req)
                    then Attend.attend_query (Attend.payload req)
                    else Attend.unattend_query))
            (Z.to_nat (Attend.weekIndex (Attend.payload req))) ws.
Proof.
  intros (Hm & Hauth & Hfind & Hws & Hlo & Hhi).
  eexists _, _. split; [|reflexivity].
  unfold attend_accepted, attend_students. simpl. split_and!; try done.
  - rewrite findOne_updateOne by done. rewrite Hfind. reflexivity.
  - simpl. rewrite Hws. reflexivity.
  - by rewrite length_alter.
Qed.
End AttendFacts.

Lemma history_filter_record (r : HistoryRecord.t) (l : list HistoryRecord.t) :
  filter (fun h => ~ (HistoryRecord.studentId h = HistoryRecord.studentId r
                      /\ HistoryRecord.week h = HistoryRecord.week r)) l
  = filter (fun h => h <> r) l.
Proof.
  apply list_filter_iff. intros [sid w]. destruct r as [sid' w']. simpl.
  split; intros Hne; [intros [= -> ->] | intros [-> ->]]; by apply Hne.
Qed.

Lemma filter_complement_length {A : Type} (P : A -> Prop) `{Pdec : !forall x, Decision (P x)}
    (l : list A) :
  length l = (length (filter P l) + length (filter (fun x => ~ P x) l))%nat.
Proof.
  rewrite <- length_app. symmetry. apply Permutation_length, filter_app_complement.
Qed.

(** C3, as stated, fails: with two history records for Ali and week 3
    (week 3 being attended), toggling the attendance of week 3 to false
    removes both records, not exactly one. *)
Lemma C3_unattend_removes_every_record :
  history db_attended_twice = [HistoryRecord.mk 1 3; HistoryRecord.mk 1 3] /\
  (exists s ws w,
      Mongo.findOne (fun s => Student.id s = 1%Z) (students db_attended_twice) = Some s /\
      Student.weeks s = Some ws /\ ws !! 2%nat = Some w /\ attended w = true) /\
  fst (Attend.handler sample_verify db_attended_twice unattend_week3)
    = mkResponse 200 SuccessBody /\
  history (snd (Attend.handler sample_verify db_attended_twice unattend_week3)) = [].
Proof.
  split_and!; [reflexivity | | reflexivity | reflexivity].
  eexists _, _, _. split_and!; reflexivity.
Qed.

(** C3 (amended): an accepted toggle to true for week [w] appends
    exactly one history record [{ studentId, week: w }]; an accepted
    toggle to false removes every history record [{ studentId, week: w }]
    and no other record, so exactly one when exactly one is present. *)
Theorem C3_history_follows_toggle (jwt_verify : Verifier) (db : Db) (req : Attend.Request)
    (student : Student.t) (ws : list WeekRecord) :
  attend_accepted jwt_verify db req student ws ->
  let r := history_record req in
  let db' := snd (Attend.handler jwt_verify db req) in
  if Attend.attended (Attend.payload req)
  then history db' = history db ++ [r]
  else history db' = filter (fun h => h <> r) (history db) /\
       length (history db) =
         (length (filter (fun h => h = r) (history db)) + length (history db'))%nat.
Proof.
  intros Hacc r db'. subst db'.
  destruct (Attend.attended (Attend.payload req)) eqn:Hatt.
  - rewrite (attend_accepted_true jwt_verify db req student ws Hacc Hatt). reflexivity.
  - rewrite (attend_accepted_false jwt_verify db req student ws Hacc Hatt). simpl.
    rewrite (history_filter_record r). split; [reflexivity|].
    apply filter_complement_length.
Qed.

Lemma C3_history_follows_toggle_witness :
  exists s ws,
    attend_accepted sample_verify db_attended_once unattend_week3 s ws /\
    history (snd (Attend.handler sample_verify db_attended_once unattend_week3))
      = filter (fun h => h <> history_record unattend_week3) (history db_attended_once) /\
    length (history db_attended_once) =
      (length (filter (fun h => h = history_record unattend_week3)
                 (history db_attended_once))
       + length (history (snd (Attend.handler sample_verify db_attended_once
                                 unattend_week3))))%nat.
Proof.
  assert (exists s ws, attend_accepted sample_verify db_attended_once unattend_week3 s ws)
    as (s & ws & Hacc).
  { eexists _, _. unfold attend_accepted.
    split_and!; [reflexivity | eexists; reflexivity | reflexivity | reflexivity
                | vm_compute; discriminate | vm_compute; reflexivity]. }
  exists s, ws. split; [exact Hacc|].
  exact (C3_history_follows_toggle sample_verify db_attended_once unattend_week3 s ws Hacc).
Defined.

(** C10: an accepted toggle to true appends a history record whether or
    not the week is already attended; served twice, the same request
    leaves two equal records, so the operation is not idempotent on the
    history collection. *)
Theorem C10_attend_true_accumulates (jwt_verify : Verifier) (db : Db)
    (req : Attend.Request) (student : Student.t) (ws : list WeekRecord) :
  attend_accepted jwt_verify db req student ws ->
  Attend.attended (Attend.payload req) = true ->
  let r := history_record req in
  let once := Attend.handler jwt_verify db req in
  let twice := Attend.handler jwt_verify (snd once) req in
  fst once = mkResponse 200 SuccessBody /\
  history (snd once) = history db ++ [r] /\
  (exists s1 ws1 w1,
      Mongo.findOne (fun s => Student.id s = Attend.id req) (students (snd once)) = Some s1 /\
      Student.weeks s1 = Some ws1 /\
      ws1 !! Z.to_nat (Attend.weekIndex (Attend.payload req)) = Some w1 /\
      attended w1 = true) /\
  fst twice = mkResponse 200 SuccessBody /\
  history (snd twice) = history db ++ [r; r] /\
  history (snd twice) <> history (snd once).
Proof.
  intros Hacc Hatt r once twice. subst r once twice. unfold history_record.
  rewrite (attend_accepted_true jwt_verify db req student ws Hacc Hatt). cbn [fst snd].
  destruct (attend_accepted_again jwt_verify db req student ws
              (history db ++ [HistoryRecord.mk (Attend.id req)
                                (Attend.weekNumber (Attend.payload req))]) Hacc)
    as (s1 & ws1 & Hacc1 & Hws1).
  rewrite (attend_accepted_true jwt_verify _ req s1 ws1 Hacc1 Hatt).
  cbn [fst snd history students assistants].
  split_and!; try reflexivity.
  - destruct Hacc as (_ & _ & _ & _ & Hlo & Hhi).
    destruct Hacc1 as (_ & _ & Hfind1 & Hw1 & _). simpl in Hfind1.
    destruct (lookup_lt_is_Some_2 ws (Z.to_nat (Attend.weekIndex (Attend.payload req))))
      as [w0 Hw0]; [lia|].
    exists s1, ws1, (Mongo.apply_week_sets (Attend.attend_query (Attend.payload req)) w0).
    split_and!; [exact Hfind1 | exact Hw1 | | reflexivity].
    rewrite Hws1, Hatt, list_lookup_alter_eq, Hw0. reflexivity.
  - by rewrite <- app_assoc.
  - intros Heq. apply (f_equal length) in Heq.
    rewrite <- app_assoc, !length_app in Heq. simpl in Heq. lia.
Qed.

Lemma C10_attend_true_accumulates_witness :
  exists s ws,
    attend_accepted sample_verify db_ali attend_week3 s ws /\
    history db_attended_once = [HistoryRecord.mk 1 3] /\
    history db_attended_twice = [HistoryRecord.mk 1 3; HistoryRecord.mk 1 3].
Proof.
  assert (exists s ws, attend_accepted sample_verify db_ali attend_week3 s ws)
    as (s & ws & Hacc).
  { eexists _, _. unfold attend_accepted.
    split_and!; [reflexivity | eexists; reflexivity | reflexivity | reflexivity
                | vm_compute; discriminate | vm_compute; reflexivity]. }
  exists s, ws. split; [exact Hacc|].
  destruct (C10_attend_true_accumulates sample_verify db_ali attend_week3 s ws Hacc
              eq_refl) as (_ & H1 & _ & _ & H2 & _).
  split; [exact H1 | exact H2].
Defined.

(** ** Resolving the week index *)

(** C5, as stated, fails twice.  With [attendanceWeek = 0] the index of
    the claim is -1, outside the sequence, yet the request is served on
    week 1.  With [attendanceWeek = -1] the index is -2, outside the
    sequence, and the answer is 500, not 400. *)
Lemma C5_zero_and_negative_week :
  (fst (Attend.handler sample_verify db_ali (attend_request true None None (Some 0%Z)))
     = mkResponse 200 SuccessBody /\
   history (snd (Attend.handler sample_verify db_ali
                   (attend_request true None None (Some 0%Z))))
     = [HistoryRecord.mk 1 1]) /\
  fst (Attend.handler sample_verify db_ali (attend_request true None None (Some (-1)%Z)))
    = mkResponse 500 (ErrorBody "Internal server error").
Proof. split_and!; reflexivity. Qed.

(** C5 (amended): the week number is [attendanceWeek], or 1 when
    [attendanceWeek] is absent or 0, and the week index is the week
    number minus one.  The request fails with 400 and leaves the store
    as it is whenever the student has no week sequence or the index is at
    or past its end; when the index lies within the sequence, the record
    at that index is the one written. *)
Theorem C5_week_index (jwt_verify : Verifier) (db : Db) (req : Attend.Request)
    (user : Claims.t) (student : Student.t) :
  Attend.method req = POST ->
  authMiddleware jwt_verify (Attend.authorization req) = Return user ->
  Mongo.findOne (fun s => Student.id s = Attend.id req) (students db) = Some student ->
  let n :=
    match Attend.attendanceWeek (Attend.payload req) with
    | Some k => if (k =? 0)%Z then 1%Z else k
    | None => 1%Z
    end in
  (Student.weeks student = None \/
   (exists ws, Student.weeks student = Some ws /\ (Z.of_nat (length ws) <= n - 1)%Z) ->
   Attend.handler jwt_verify db req = (mkResponse 400 (ErrorBody "Invalid week number"), db))
  /\
  (forall ws,
     Student.weeks student = Some ws -> (0 <= n - 1 < Z.of_nat (length ws))%Z ->
     fst (Attend.handler jwt_verify db req) = mkResponse 200 SuccessBody /\
     exists student' ws',
       Mongo.findOne (fun s => Student.id s = Attend.id req)
         (students (snd (Attend.handler jwt_verify db req))) = Some student' /\
       Student.weeks student' = Some ws' /\
       length ws' = length ws /\
       (forall j, j <> Z.to_nat (n - 1) -> ws' !! j = ws !! j) /\
       (forall w, ws !! Z.to_nat (n - 1) = Some w ->
          ws' !! Z.to_nat (n - 1) =
            Some (if Attend.attended (Attend.payload req)
                  then mkWeek (week w) true
                         (Js.or_null (Attend.lastAttendance (Attend.payload req)))
                         (Js.or_null (Attend.lastAttendanceCenter (Attend.payload req)))
                         (hwDone w) (paidSession w) (quizDegree w) (message_state w)
                  else mkWeek (week w) false None None false false None false))).
Proof.
  intros Hm Hauth Hfind n. split.
  - intros Hout. unfold Attend.handler, Attend.handler_try.
    rewrite Hm, Hauth, Hfind.
    destruct (decide (POST = POST)) as [_|Hne]; [|by destruct Hne].
    assert (Attend.out_of_bounds student (Attend.weekIndex (Attend.payload req)) = true)
      as ->; [|reflexivity].
    unfold Attend.out_of_bounds.
    destruct Hout as [->|(ws & -> & Hle)]; [reflexivity|].
    apply Z.leb_le. exact Hle.
  - intros ws Hws Hin.
    assert (attend_accepted jwt_verify db req student ws) as Hacc.
    { unfold attend_accepted. split_and!; eauto; apply Hin. }
    destruct (attend_accepted_again jwt_verify db req student ws
                (history (snd (Attend.handler jwt_verify db req))) Hacc)
      as (s1 & ws1 & (_ & _ & Hfind1 & Hws1 & _) & Hws1_eq).
    simpl in Hfind1.
    assert (fst (Attend.handler jwt_verify db req) = mkResponse 200 SuccessBody
            /\ students (snd (Attend.handler jwt_verify db req)) = attend_students db req)
      as [Hresp Hstud].
    { destruct (Attend.attended (Attend.payload req)) eqn:Hatt.
      - by rewrite (attend_accepted_true jwt_verify db req student ws Hacc Hatt).
      - by rewrite (attend_accepted_false jwt_verify db req student ws Hacc Hatt). }
    split; [exact Hresp|]. exists s1, ws1. rewrite Hstud.
    split_and!; [exact Hfind1 | exact Hws1 | | | ].
    + rewrite Hws1_eq. apply length_alter.
    + intros j Hj. rewrite Hws1_eq. by apply list_lookup_alter_ne.
    + intros w Hw. rewrite Hws1_eq.
      change (Z.to_nat (n - 1)) with (Z.to_nat (Attend.weekIndex (Attend.payload req))) in *.
      rewrite list_lookup_alter_eq, Hw.
      destruct (Attend.attended (Attend.payload req)); reflexivity.
Qed.

Lemma C5_week_index_witness :
  Attend.handler sample_verify db_ali (attend_request true None None (Some 21%Z))
    = (mkResponse 400 (ErrorBody "Invalid week number"), db_ali).
Proof.
  eapply (C5_week_index sample_verify db_ali
            (attend_request true None None (Some 21%Z)) assistant_claims);
    [reflexivity | reflexivity | reflexivity |].
  right. eexists. split; [reflexivity|]. vm_compute. discriminate.
Defined.

(** ** Updating a student *)

(** C6, as stated, fails for a field that is supplied empty: an update
    whose only field is the empty string is served, and overwrites the
    name. *)
Lemma C6_empty_string_is_applied :
  fst (StudentById.handler sample_verify db_ali blank_name_update)
    = mkResponse 200 SuccessBody /\
  Student.name <$> students db_ali = ["Ali"] /\
  Student.name <$> students (snd (StudentById.handler sample_verify db_ali blank_name_update))
    = [""].
Proof. split_and!; reflexivity. Qed.

(** C6 (amended): a student update in which every supplied field is
    [undefined] or [null] fails with 400 and leaves the store as it
    is. *)
Theorem C6_empty_changeset (jwt_verify : Verifier) (db : Db) (req : StudentById.Request)
    (user : Claims.t) :
  StudentById.method req = PUT ->
  authMiddleware jwt_verify (StudentById.authorization req) = Return user ->
  Js.absent (StudentById.name (StudentById.payload req)) ->
  Js.absent (StudentById.grade (StudentById.payload req)) ->
  Js.absent (StudentById.phone (StudentById.payload req)) ->
  Js.absent (StudentById.parents_phone (StudentById.payload req)) ->
  Js.absent (StudentById.main_center (StudentById.payload req)) ->
  Js.absent (StudentById.age (StudentById.payload req)) ->
  Js.absent (StudentById.school (StudentById.payload req)) ->
  StudentById.handler jwt_verify db req
    = (mkResponse 400 (ErrorBody "No valid fields to update"), db).
Proof.
  intros Hm Hauth Hn Hg Hp Hpp Hmc Ha Hs.
  unfold StudentById.handler, StudentById.handler_try. rewrite Hauth, Hm.
  unfold StudentById.build_update, StudentById.keys_length. simpl.
  destruct Hn as [-> | ->], Hg as [-> | ->], Hp as [-> | ->], Hpp as [-> | ->],
    Hmc as [-> | ->], Ha as [-> | ->], Hs as [-> | ->]; reflexivity.
Qed.

Lemma C6_empty_changeset_witness :
  StudentById.handler sample_verify db_ali null_update
    = (mkResponse 400 (ErrorBody "No valid fields to update"), db_ali).
Proof.
  apply (C6_empty_changeset sample_verify db_ali null_update assistant_claims);
    solve [reflexivity | left; reflexivity | right; reflexivity].
Defined.

(** ** The current-week view *)










(** ** The history listing *)

Section JsMapFacts.
Context {V : Type}.
Implicit Types (m : JsMap.t V) (k : Z).

Lemma set_Forall (Q : Z * V -> Prop) k (v : V) m :
  Forall Q m -> Q (k, v) -> Forall Q (JsMap.set k v m).
Proof.
  intros Hm Hv. induction Hm as [|[k' v'] m Hkv Hm IH]; simpl.
  - by constructor.
  - case_decide; constructor; auto.
Qed.

Lemma mutate_Forall (Q : Z * V -> Prop) k (f : V -> V) m :
  Forall Q m -> (forall v, Q (k, v) -> Q (k, f v)) -> Forall Q (JsMap.mutate k f m).
Proof.
  intros Hm Hf. induction Hm as [|[k' v'] m Hkv Hm IH]; simpl; [constructor|].
  case_decide; subst; constructor; auto.
Qed.

Lemma get_set k k' (v : V) m :
  JsMap.get k (JsMap.set k' v m) = if decide (k' = k) then Some v else JsMap.get k m.
Proof.
  induction m as [|[k0 v0] m IH]; simpl.
  - reflexivity.
  - destruct (decide (k0 = k')) as [->|Hne]; simpl.
    + destruct (decide (k' = k)); reflexivity.
    + destruct (decide (k0 = k)) as [->|Hne'].
      * destruct (decide (k' = k)); [congruence | reflexivity].
      * exact IH.
Qed.

Lemma get_Some_elem k (v : V) m : JsMap.get k m = Some v -> (k, v) ∈ m.
Proof.
  induction m as [|[k0 v0] m IH]; simpl; [discriminate|].
  case_decide.
  - intros [= ->]. subst. apply list_elem_of_here.
  - intros Hget. apply list_elem_of_further, IH, Hget.
Qed.
End JsMapFacts.

(** The students of the lookup map are students of the collection, filed
    under their id. *)
Lemma studentMap_get (l : list Student.t) (k : Z) (s : Student.t) :
  JsMap.get k (History.studentMap l) = Some s -> s ∈ l /\ Student.id s = k.
Proof.
  unfold History.studentMap.
  assert (forall m : JsMap.t Student.t,
             (forall k s, JsMap.get k m = Some s -> Student.id s = k) ->
             forall k s,
               JsMap.get k (fold_left (fun m student =>
                              JsMap.set (Student.id student) student m) l m) = Some s ->
               (s ∈ l \/ JsMap.get k m = Some s) /\ Student.id s = k) as Hgen.
  { induction l as [|s0 l IH]; intros m Hm k' s' Hget; simpl in Hget.
    - split; [by right | by apply Hm].
    - apply IH in Hget as [[Hin|Hget] Hid].
      + split; [left; by apply list_elem_of_further | exact Hid].
      + rewrite get_set in Hget. case_decide.
        * injection Hget as <-. split; [left; apply list_elem_of_here | exact Hid].
        * split; [by right | exact Hid].
      + intros k0 s1. rewrite get_set. case_decide; [by intros [= <-] | apply Hm]. }
  intros Hget. apply Hgen in Hget as [[Hin|Hget] Hid]; [done | discriminate | discriminate].
Qed.

(** A record that the join keeps has a student of the store and, in the
    student's weeks, an attended record at the index of its week. *)
Lemma join_Some_inv (db : Db) (record : HistoryRecord.t) (student : Student.t)
    (row : EnrichedRecord.t) :
  History.join (History.studentMap (students db)) record = Some (student, row) ->
  exists wd,
    student ∈ students db /\
    Student.id student = HistoryRecord.studentId record /\
    History.weekData student (HistoryRecord.week record - 1) = Some wd /\
    attended wd = true /\
    row = History.enrich record student wd.
Proof.
  unfold History.join.
  destruct (JsMap.get _ _) as [s|] eqn:Hget; [|discriminate].
  apply studentMap_get in Hget as [Hin Hid].
  destruct (History.weekData s _) as [wd|] eqn:Hwd; [|discriminate].
  destruct (attended wd) eqn:Hatt; [|discriminate].
  intros [= <- <-]. exists wd. split_and!; auto.
Qed.

(** A record that the join keeps gives a row of an attended week. *)
Lemma join_row_attended (db : Db) (record : HistoryRecord.t) (student : Student.t)
    (row : EnrichedRecord.t) :
  History.join (History.studentMap (students db)) record = Some (student, row) ->
  EnrichedRecord.studentId row = HistoryRecord.studentId record /\
  Student.id student = HistoryRecord.studentId record /\
  row_attended db row.
Proof.
  intros Hjoin. apply join_Some_inv in Hjoin as (wd & Hin & Hid & Hwd & Hatt & ->).
  split; [reflexivity|]. split; [exact Hid|].
  unfold History.weekData in Hwd.
  destruct (Student.weeks student) as [ws|] eqn:Hws; [|discriminate].
  destruct (Z.ltb_spec (HistoryRecord.week record - 1) 0); [discriminate|].
  exists student, ws, wd. simpl. split_and!; auto. lia.
Qed.

Lemma process_sound (db : Db) (shm : JsMap.t Group.t) (record : HistoryRecord.t) :
  Forall (group_sound db) shm ->
  Forall (group_sound db) (History.process (History.studentMap (students db)) shm record).
Proof.
  intros Hshm. unfold History.process.
  destruct (History.join _ record) as [[student row]|] eqn:Hjoin; [|exact Hshm].
  apply join_row_attended in Hjoin as (Hrow & Hid & Hatt).
  apply mutate_Forall.
  - destruct (JsMap.has _ shm); [exact Hshm|].
    apply set_Forall; [exact Hshm|]. split; simpl; [exact Hid | constructor].
  - intros g [Hg Hrows]. split; [exact Hg|]. simpl in *.
    apply Forall_app. split; [exact Hrows|]. constructor; [|constructor].
    split; [exact Hrow | exact Hatt].
Qed.

Lemma studentHistoryMap_sound (db : Db) :
  Forall (group_sound db) (History.studentHistoryMap db).
Proof.
  unfold History.studentHistoryMap.
  assert (forall l shm, Forall (group_sound db) shm ->
            Forall (group_sound db)
              (fold_left (History.process (History.studentMap (students db))) l shm))
    as Hgen.
  { induction l as [|record l IH]; intros shm Hshm; simpl; [exact Hshm|].
    apply IH, process_sound, Hshm. }
  apply Hgen. constructor.
Qed.

Lemma total_rows_app (l1 l2 : list Group.t) :
  total_rows (l1 ++ l2) = (total_rows l1 + total_rows l2)%nat.
Proof. induction l1 as [|g l1 IH]; simpl; [reflexivity | rewrite IH; lia]. Qed.

Lemma total_rows_Permutation (l1 l2 : list Group.t) :
  l1 ≡ₚ l2 -> total_rows l1 = total_rows l2.
Proof. induction 1; simpl; lia. Qed.

Lemma set_absent {V : Type} (k : Z) (v : V) (m : JsMap.t V) :
  JsMap.has k m = false -> JsMap.set k v m = m ++ [(k, v)].
Proof.
  unfold JsMap.has. induction m as [|[k0 v0] m IH]; simpl; [reflexivity|].
  case_decide; [discriminate|]. intros Hm. by rewrite IH.
Qed.

Lemma has_set {V : Type} (k : Z) (v : V) (m : JsMap.t V) :
  JsMap.has k (JsMap.set k v m) = true.
Proof. unfold JsMap.has. rewrite get_set. by case_decide. Qed.

Lemma mutate_push_rows (k : Z) (r : EnrichedRecord.t) (m : JsMap.t Group.t) :
  JsMap.has k m = true ->
  total_rows (JsMap.values (JsMap.mutate k (Group.push r) m))
  = S (total_rows (JsMap.values m)).
Proof.
  unfold JsMap.has. induction m as [|[k0 g0] m IH]; simpl; [discriminate|].
  case_decide; simpl.
  - intros _. rewrite length_app. simpl. lia.
  - intros Hm. rewrite IH by exact Hm. lia.
Qed.

Lemma process_rows (db : Db) (shm : JsMap.t Group.t) (record : HistoryRecord.t) :
  total_rows (JsMap.values (History.process (History.studentMap (students db)) shm record))
  = (total_rows (JsMap.values shm) + if decide (kept db record) then 1 else 0)%nat.
Proof.
  destruct (decide (kept db record)) as [Hk|Hk]; unfold kept in Hk; unfold History.process.
  - destruct Hk as [[student row] ->].
    destruct (JsMap.has (HistoryRecord.studentId record) shm) eqn:Hhas.
    + rewrite mutate_push_rows by exact Hhas. lia.
    + rewrite mutate_push_rows by apply has_set.
      rewrite set_absent by exact Hhas.
      unfold JsMap.values. rewrite map_app, total_rows_app. simpl. lia.
  - destruct (History.join _ record) as [[student row]|]; [|lia].
    destruct Hk. by eexists.
Qed.

Lemma studentHistoryMap_rows (db : Db) :
  total_rows (JsMap.values (History.studentHistoryMap db))
  = length (filter (kept db) (history db)).
Proof.
  unfold History.studentHistoryMap.
  assert (forall l shm,
            total_rows (JsMap.values
              (fold_left (History.process (History.studentMap (students db))) l shm))
            = (total_rows (JsMap.values shm) + length (filter (kept db) l))%nat) as Hgen.
  { induction l as [|record l IH]; intros shm.
    - simpl. lia.
    - cbn [fold_left]. rewrite IH, process_rows, filter_cons.
      destruct (decide (kept db record)); simpl; lia. }
  rewrite Hgen. reflexivity.
Qed.

Lemma insert_sorted_Permutation (g : Group.t) (l : list Group.t) :
  History.insert_sorted g l ≡ₚ g :: l.
Proof.
  induction l as [|h l IH]; simpl; [reflexivity|].
  destruct (Group.id g <=? Group.id h)%Z; [reflexivity|].
  rewrite IH. apply perm_swap.
Qed.

Lemma sort_by_id_Permutation (l : list Group.t) : History.sort_by_id l ≡ₚ l.
Proof.
  unfold History.sort_by_id. induction l as [|g l IH]; simpl; [reflexivity|].
  by rewrite insert_sorted_Permutation, IH.
Qed.


(** C4: the history read answers 200; every row of a group belongs to
    the group's student and comes from a week whose record in the store
    has [attended = true]; the rows are as many as the history records
    that the join keeps; and a record with no student, no week record or
    a week record that is not attended is not kept: it is dropped
    without an error. *)
Theorem C4_history_rows_attended (jwt_verify : Verifier) (db : Db)
    (req : History.Request) (user : Claims.t) :
  History.method req = GET ->
  authMiddleware jwt_verify (History.authorization req) = Return user ->
  exists result,
    History.handler jwt_verify db req = (mkResponse 200 (HistoryBody result), db) /\
    (forall g r,
       g ∈ result -> r ∈ Group.historyRecords g ->
       EnrichedRecord.studentId r = Group.id g /\ row_attended db r) /\
    total_rows result = length (filter (kept db) (history db)) /\
    (forall h,
       (forall student wd,
          student ∈ students db ->
          Student.id student = HistoryRecord.studentId h ->
          History.weekData student (HistoryRecord.week h - 1) = Some wd ->
          attended wd = false) ->
       ~ kept db h).
Proof.
  intros Hm Hauth.
  exists (History.sort_by_id (JsMap.values (History.studentHistoryMap db))).
  split_and!.
  - unfold History.handler, History.handler_try. rewrite Hm, Hauth.
    destruct (decide (GET = GET)) as [_|Hne]; [reflexivity | by destruct Hne].
  - intros g r Hg Hr. rewrite sort_by_id_Permutation in Hg.
    apply list_elem_of_fmap in Hg as ([k g'] & -> & Hentry).
    pose proof (studentHistoryMap_sound db) as Hsound.
    rewrite Forall_forall in Hsound. destruct (Hsound _ Hentry) as [Hid Hrows].
    simpl in *. rewrite Forall_forall in Hrows.
    destruct (Hrows r Hr) as [Hrk Hatt]. split; [congruence | exact Hatt].
  - rewrite (total_rows_Permutation _ _ (sort_by_id_Permutation _)).
    apply studentHistoryMap_rows.
  - intros h Hnone [[student row] Hjoin].
    apply join_Some_inv in Hjoin as (wd & Hin & Hid & Hwd & Hatt & _).
    rewrite (Hnone student wd Hin Hid Hwd) in Hatt. discriminate.
Qed.

Lemma C4_history_rows_attended_witness :
  exists result,
    History.handler sample_verify db_stale_history (read_history assistant_auth)
      = (mkResponse 200 (HistoryBody result), db_stale_history) /\
    length (history db_stale_history) = 3%nat /\
    total_rows result = 1%nat.
Proof.
  destruct (C4_history_rows_attended sample_verify db_stale_history
              (read_history assistant_auth) assistant_claims eq_refl eq_refl)
    as (result & Hresp & _ & Hcount & _).
  exists result. split; [exact Hresp|]. split; [reflexivity|].
  rewrite Hcount. vm_compute. reflexivity.
Defined.

(** ** The assistant record service *)

Section AssistantFacts.
Variable jwt_verify : Verifier.
Variable bcrypt_hash : string -> string.

(** The read of all assistants answers with the stored documents. *)
Lemma assistants_read_all (db : Db) (req : Assistants.Request) (admin : Claims.t) :
  Assistants.method req = GET ->
  requireAdmin jwt_verify (Assistants.authorization req) = Return admin ->
  Assistants.handler jwt_verify bcrypt_hash db req
    = (mkResponse 200 (AssistantsBody (assistants db)), db).
Proof.
  intros Hm Hauth. unfold Assistants.handler, Assistants.handler_try.
  by rewrite Hauth, Hm.
Qed.

(** The read of one assistant answers with the four fields of the
    projection; the password is not one of them. *)
Lemma assistant_read_one (db : Db) (req : AssistantById.Request) (admin : Claims.t)
    (a : Assistant.t) :
  AssistantById.method req = GET ->
  requireAdmin jwt_verify (AssistantById.authorization req) = Return admin ->
  Mongo.findOne (fun a => Assistant.id a = AssistantById.id req) (assistants db) = Some a ->
  AssistantById.handler jwt_verify bcrypt_hash db req
    = (mkResponse 200
         (AssistantBody (AssistantView.mk (Assistant.id a) (Assistant.name a)
                           (Assistant.phone a) (Assistant.role a))), db).
Proof.
  intros Hm Hauth Hfind. unfold AssistantById.handler, AssistantById.handler_try.
  by rewrite Hauth, Hm, Hfind.
Qed.

(** A created assistant is stored with the hash of the password. *)
Lemma assistants_create_hashes (db : Db) (req : Assistants.Request) (db' : Db) :
  Assistants.method req = POST ->
  Assistants.handler jwt_verify bcrypt_hash db req = (mkResponse 200 SuccessBody, db') ->
  exists doc,
    assistants db' = assistants db ++ [doc] /\
    Assistant.password doc
      = bcrypt_hash (Assistants.str (Assistants.password (Assistants.payload req))).
Proof.
  intros Hm. unfold Assistants.handler, Assistants.handler_try. rewrite Hm.
  destruct (requireAdmin jwt_verify _) as [admin|m].
  - destruct (_ || _); [discriminate|].
    destruct (Mongo.findOne _ _); [discriminate|].
    intros [= <-]. eexists. split; reflexivity.
  - unfold assistants_catch. repeat case_match; discriminate.
Qed.

(** An error of the token library is neither of the two messages that
    the catch clause of the assistant handlers knows: the answer is
    500. *)
Lemma assistants_verify_error (db : Db) (req : Assistants.Request) (m : string) :
  requireAdmin jwt_verify (Assistants.authorization req) = Throw m ->
  m <> "Unauthorized" -> m <> "Forbidden: Admins only" ->
  Assistants.handler jwt_verify bcrypt_hash db req
    = (mkResponse 500 (ErrorBody "Internal server error"), db).
Proof.
  intros Hauth H1 H2. unfold Assistants.handler, Assistants.handler_try.
  rewrite Hauth. unfold assistants_catch.
  destruct (String.eqb_spec m "Unauthorized"); [done|].
  destruct (String.eqb_spec m "Forbidden: Admins only"); [done|]. reflexivity.
Qed.
End AssistantFacts.

(** C8 at the failing input: an assistant is created with the password
    [secret]; the read of all assistants then answers with the stored
    document, whose [password] field holds the stored hash. *)
Lemma C8_read_all_returns_password_hash :
  assistants db_sara
    = [Assistant.mk "sara" "Sara" "01000000000" (sample_hash "secret") "assistant"] /\
  fst (Assistants.handler sample_verify sample_hash db_sara (read_assistants admin_auth))
    = mkResponse 200
        (AssistantsBody
           [Assistant.mk "sara" "Sara" "01000000000" "$2a$10$secret" "assistant"]) /\
  fst (AssistantById.handler sample_verify sample_hash db_sara
         (read_assistant admin_auth "sara"))
    = mkResponse 200
        (AssistantBody (AssistantView.mk "sara" "Sara" "01000000000" "assistant")).
Proof. split_and!; reflexivity. Qed.

(** ** Rejected tokens *)

Section AuthFacts.
Variable jwt_verify : Verifier.

(** The student, reset, attend and history handlers answer 401 to every
    error of the auth gate, a rejected token included. *)
Lemma student_handlers_unauthorized (db : Db) (auth : option string) (m : string) :
  authMiddleware jwt_verify auth = Throw m ->
  (forall method payload,
     Students.handler jwt_verify db (Students.mkRequest method auth payload)
       = (mkResponse 401 (ErrorBody m), db)) /\
  (forall method id payload,
     StudentById.handler jwt_verify db (StudentById.mkRequest method auth id payload)
       = (mkResponse 401 (ErrorBody m), db)) /\
  (forall id,
     Reset.handler jwt_verify db (Reset.mkRequest POST auth id)
       = (mkResponse 401 (ErrorBody m), db)) /\
  (forall id payload,
     Attend.handler jwt_verify db (Attend.mkRequest POST auth id payload)
       = (mkResponse 401 (ErrorBody m), db)) /\
  History.handler jwt_verify db (History.mkRequest GET auth)
    = (mkResponse 401 (ErrorBody m), db).
Proof.
  intros Hauth.
  pose proof (authMiddleware_throws_auth_error jwt_verify auth m Hauth) as Hm.
  split_and!; intros;
    unfold Students.handler, Students.handler_try,
      StudentById.handler, StudentById.handler_try,
      Reset.handler, Reset.handler_try, Attend.handler, Attend.handler_try,
      History.handler, History.handler_try;
    simpl; rewrite Hauth, Hm; reflexivity.
Qed.

Lemma authMiddleware_rejected_token (token m : string) :
  jwt_verify (bearer_token (String.append "Bearer " token)) = JwtError m ->
  authMiddleware jwt_verify (Some (String.append "Bearer " token))
    = Throw (String.append "Invalid token - " m).
Proof.
  intros Hv. unfold authMiddleware.
  replace (negb (Js.truthy (String.append "Bearer " token))
           || negb (String.prefix "Bearer " (String.append "Bearer " token)))
    with false by (by destruct token).
  by rewrite Hv.
Qed.
End AuthFacts.

(** C9 at the failing inputs: on the two assistant endpoints a token
    with a bad signature and an expired token are answered with 500; the
    student endpoint answers the same tokens with 401. *)
Lemma C9_assistants_rejected_token_500 :
  fst (Assistants.handler sample_verify sample_hash db_sara (read_assistants forged_auth))
    = mkResponse 500 (ErrorBody "Internal server error") /\
  fst (Assistants.handler sample_verify sample_hash db_sara (read_assistants expired_auth))
    = mkResponse 500 (ErrorBody "Internal server error") /\
  fst (AssistantById.handler sample_verify sample_hash db_sara
         (read_assistant forged_auth "sara"))
    = mkResponse 500 (ErrorBody "Internal server error") /\
  fst (AssistantById.handler sample_verify sample_hash db_sara
         (read_assistant expired_auth "sara"))
    = mkResponse 500 (ErrorBody "Internal server error") /\
  fst (Students.handler sample_verify db_sara (read_students forged_auth))
    = mkResponse 401 (ErrorBody "Invalid token - invalid signature") /\
  fst (Students.handler sample_verify db_sara (read_students expired_auth))
    = mkResponse 401 (ErrorBody "Invalid token - jwt expired").
Proof. split_and!; reflexivity. Qed.

(** * Further properties of the handlers *)

(** ** Writes on one document *)

Section OneDocument.
Context {A : Type} (P : A -> Prop) `{Pdec : !forall x, Decision (P x)}.

(** The document that [findOne] returns is the first match of the
    collection. *)
Lemma findOne_first (l : list A) (x : A) :
  Mongo.findOne P l = Some x ->
  exists i : nat,
    list_find P l = Some (i, x) /\ l !! i = Some x /\ P x /\
    forall (j : nat) (y : A), (j < i)%nat -> l !! j = Some y -> ~ P y.
Proof.
  unfold Mongo.findOne. intros Hf.
  apply fmap_Some in Hf as [[i y] [Hfind ->]]. exists i.
  split; [exact Hfind|]. apply list_find_Some in Hfind as (Hi & HP & Hlt).
  split_and!; [exact Hi | exact HP |]. intros j z Hj Hz. by apply (Hlt j z).
Qed.

Lemma alter_as_insert (f : A -> A) (l : list A) (i : nat) (x : A) :
  l !! i = Some x -> alter f i l = <[i := f x]> l.
Proof.
  revert i. induction l as [|y l IH]; intros [|i] Hi; simpl in *; try discriminate.
  - by injection Hi as ->.
  - f_equal. by apply IH.
Qed.

Lemma updateOne_at (f : A -> A) (l : list A) (i : nat) (x : A) :
  list_find P l = Some (i, x) -> Mongo.updateOne P f l = (1%nat, <[i := f x]> l).
Proof.
  intros Hfind. unfold Mongo.updateOne. rewrite Hfind.
  apply list_find_Some in Hfind as (Hi & _ & _). by rewrite (alter_as_insert f l i x Hi).
Qed.

Lemma deleteOne_at (l : list A) (i : nat) (x : A) :
  list_find P l = Some (i, x) -> Mongo.deleteOne P l = (1%nat, delete i l).
Proof. intros Hfind. unfold Mongo.deleteOne. by rewrite Hfind. Qed.

Lemma deleteOne_None (l : list A) :
  Mongo.findOne P l = None -> Mongo.deleteOne P l = (0%nat, l).
Proof.
  unfold Mongo.deleteOne, Mongo.findOne.
  destruct (list_find P l) as [[i x]|]; [discriminate | reflexivity].
Qed.

(** Two updates in a row, the first keeping the verdict of the filter,
    are one update by the composed function. *)
Lemma updateOne_twice (f g : A -> A) (l : list A) :
  (forall x, P (f x) <-> P x) ->
  Mongo.updateOne P g (snd (Mongo.updateOne P f l)) = Mongo.updateOne P (g ∘ f) l.
Proof.
  intros Hf. unfold Mongo.updateOne.
  destruct (list_find P l) as [[i x]|] eqn:Hfind; simpl.
  - assert (list_find P (alter f i l) = Some (i, f x)) as ->.
    { apply list_find_Some in Hfind as (Hi & HP & Hlt).
      apply list_find_Some. split_and!.
      - by rewrite list_lookup_alter_eq, Hi.
      - by apply Hf.
      - intros j y Hj Hji. rewrite list_lookup_alter_ne in Hj by lia. eauto. }
    by rewrite list_alter_alter_eq.
  - by rewrite Hfind.
Qed.
End OneDocument.

(** ** Reset, delete and update of a student *)

(** X1: a reset by an authenticated caller answers 404 and changes
    nothing when no student has the id; otherwise it gives the first
    student with the id the 20 zeroed weeks of a new student, and keeps
    that student's profile, every other student, the history records and
    the assistants. *)
Theorem reset_rewrites_first_match (jwt_verify : Verifier) (db : Db) (req : Reset.Request)
    (user : Claims.t) :
  Reset.method req = POST ->
  authMiddleware jwt_verify (Reset.authorization req) = Return user ->
  match Mongo.findOne (fun s => Student.id s = Reset.id req) (students db) with
  | None =>
      Reset.handler jwt_verify db req = (mkResponse 404 (ErrorBody "Student not found"), db)
  | Some student =>
      exists i : nat,
        students db !! i = Some student /\
        (forall (j : nat) s, (j < i)%nat -> students db !! j = Some s ->
                             Student.id s <> Reset.id req) /\
        Reset.handler jwt_verify db req
          = (mkResponse 200 (SuccessMessageBody "Student data reset successfully"),
             mkDb (<[i := Student.mk (Student.id student) (Student.name student)
                            (Student.age student) (Student.grade student)
                            (Student.school student) (Student.phone student)
                            (Student.parentsPhone student) (Student.main_center student)
                            (Student.center student) (Some fresh_weeks)]> (students db))
               (history db) (assistants db))
  end.
Proof.
  intros Hm Hauth. unfold Reset.handler, Reset.handler_try. rewrite Hm, Hauth.
  destruct (decide (POST = POST)) as [_|Hne]; [|by destruct Hne].
  destruct (Mongo.findOne _ (students db)) as [student|] eqn:Hfind; [|reflexivity].
  destruct (findOne_first _ _ _ Hfind) as (i & Hlf & Hi & _ & Hfirst).
  exists i. split; [exact Hi|]. split; [exact Hfirst|].
  by rewrite (updateOne_at _ _ _ i student Hlf).
Qed.

Lemma reset_rewrites_first_match_witness :
  Reset.handler sample_verify db_attended_once reset_ali
    = (mkResponse 200 (SuccessMessageBody "Student data reset successfully"),
       mkDb (students db_ali) (history db_attended_once) (assistants db_attended_once)).
Proof.
  pose proof (reset_rewrites_first_match sample_verify db_attended_once reset_ali
                assistant_claims eq_refl eq_refl) as H.
  simpl in H. destruct H as (i & Hi & _ & Hresp).
  destruct i as [|i]; [|destruct i; discriminate Hi].
  exact Hresp.
Defined.

(** X2: a delete by an authenticated caller answers 404 and changes
    nothing when no student has the id; otherwise it removes the first
    student with the id and only that one, and keeps the history records:
    the records of the deleted student stay in the store. *)
Theorem delete_removes_first_match (jwt_verify : Verifier) (db : Db)
    (req : StudentById.Request) (user : Claims.t) :
  StudentById.method req = DELETE ->
  authMiddleware jwt_verify (StudentById.authorization req) = Return user ->
  match Mongo.findOne (fun s => Student.id s = StudentById.id req) (students db) with
  | None =>
      StudentById.handler jwt_verify db req
        = (mkResponse 404 (ErrorBody "Student not found"), db)
  | Some student =>
      exists i : nat,
        students db !! i = Some student /\
        (forall (j : nat) s, (j < i)%nat -> students db !! j = Some s ->
                             Student.id s <> StudentById.id req) /\
        StudentById.handler jwt_verify db req
          = (mkResponse 200 SuccessBody,
             mkDb (delete i (students db)) (history db) (assistants db))
  end.
Proof.
  intros Hm Hauth. unfold StudentById.handler, StudentById.handler_try.
  rewrite Hauth, Hm.
  destruct (Mongo.findOne _ (students db)) as [student|] eqn:Hfind.
  - destruct (findOne_first _ _ _ Hfind) as (i & Hlf & Hi & _ & Hfirst).
    exists i. split; [exact Hi|]. split; [exact Hfirst|].
    by rewrite (deleteOne_at _ _ i student Hlf).
  - rewrite (deleteOne_None _ _ Hfind). simpl. by destruct db.
Qed.

Lemma delete_removes_first_match_witness :
  StudentById.handler sample_verify db_attended_once (delete_student assistant_auth 1%Z)
    = (mkResponse 200 SuccessBody, mkDb [] [HistoryRecord.mk 1 3] []).
Proof.
  pose proof (delete_removes_first_match sample_verify db_attended_once
                (delete_student assistant_auth 1%Z) assistant_claims eq_refl eq_refl) as H.
  simpl in H. destruct H as (i & Hi & _ & Hresp).
  destruct i as [|i]; [|destruct i; discriminate Hi].
  exact Hresp.
Defined.

Lemma key_defined_zero {A : Type} (f : Js.field A) :
  StudentById.key (StudentById.defined f) = 0%nat -> Js.absent f.
Proof. destruct f; simpl; intros H; [by left | by right | discriminate]. Qed.

(** The changeset of an update is empty exactly when every property of
    the body is [undefined] or [null]. *)
Lemma keys_length_zero (p : StudentById.Payload) :
  StudentById.keys_length (StudentById.build_update p) = 0%nat <->
  Js.absent (StudentById.name p) /\ Js.absent (StudentById.grade p) /\
  Js.absent (StudentById.phone p) /\ Js.absent (StudentById.parents_phone p) /\
  Js.absent (StudentById.main_center p) /\ Js.absent (StudentById.age p) /\
  Js.absent (StudentById.school p).
Proof.
  unfold StudentById.keys_length, StudentById.build_update. simpl. split.
  - intros H. split_and!; apply key_defined_zero; lia.
  - intros (Hn & Hg & Hp & Hpp & Hmc & Ha & Hs).
    destruct Hn as [-> | ->], Hg as [-> | ->], Hp as [-> | ->], Hpp as [-> | ->],
      Hmc as [-> | ->], Ha as [-> | ->], Hs as [-> | ->]; reflexivity.
Qed.

(** X3: an update that supplies at least one field answers 404 and
    changes nothing when no student has the id; otherwise it rewrites the
    first student with the id only: every supplied field takes the value
    of the body (the empty string included), every other field keeps its
    value, and the id, the center and the weeks are never touched, nor
    are the history records. *)
Theorem update_applies_supplied_fields (jwt_verify : Verifier) (db : Db)
    (req : StudentById.Request) (user : Claims.t) :
  let p := StudentById.payload req in
  StudentById.method req = PUT ->
  authMiddleware jwt_verify (StudentById.authorization req) = Return user ->
  ~ (Js.absent (StudentById.name p) /\ Js.absent (StudentById.grade p) /\
     Js.absent (StudentById.phone p) /\ Js.absent (StudentById.parents_phone p) /\
     Js.absent (StudentById.main_center p) /\ Js.absent (StudentById.age p) /\
     Js.absent (StudentById.school p)) ->
  match Mongo.findOne (fun s => Student.id s = StudentById.id req) (students db) with
  | None =>
      StudentById.handler jwt_verify db req
        = (mkResponse 404 (ErrorBody "Student not found"), db)
  | Some student =>
      exists (i : nat) (student' : Student.t),
        students db !! i = Some student /\
        StudentById.handler jwt_verify db req
          = (mkResponse 200 SuccessBody,
             mkDb (<[i := student']> (students db)) (history db) (assistants db)) /\
        Student.id student' = Student.id student /\
        Student.weeks student' = Student.weeks student /\
        Student.center student' = Student.center student /\
        field_applied (StudentById.name p) (Student.name student) (Student.name student') /\
        field_applied (StudentById.grade p) (Student.grade student) (Student.grade student') /\
        field_applied (StudentById.phone p) (Student.phone student) (Student.phone student') /\
        field_applied (StudentById.parents_phone p) (Student.parentsPhone student)
          (Student.parentsPhone student') /\
        field_applied (StudentById.main_center p) (Student.main_center student)
          (Student.main_center student') /\
        field_applied (StudentById.school p) (Student.school student)
          (Student.school student') /\
        match StudentById.age p with
        | Js.Val a => Student.age student' = Some a
        | _ => Student.age student' = Student.age student
        end
  end.
Proof.
  intros p Hm Hauth Hsome. unfold StudentById.handler, StudentById.handler_try.
  rewrite Hauth, Hm.
  destruct (Nat.eqb_spec (StudentById.keys_length (StudentById.build_update p)) 0)
    as [Hzero|_]; [by apply keys_length_zero in Hzero|].
  fold p. destruct (Nat.eqb_spec (StudentById.keys_length (StudentById.build_update p)) 0)
    as [Hzero|_]; [by apply keys_length_zero in Hzero|].
  destruct (Mongo.findOne _ (students db)) as [student|] eqn:Hfind.
  - destruct (findOne_first _ _ _ Hfind) as (i & Hlf & Hi & _ & _).
    exists i, (StudentById.apply_update (StudentById.build_update p) student).
    split; [exact Hi|]. split; [by rewrite (updateOne_at _ _ _ i student Hlf)|].
    unfold StudentById.apply_update, StudentById.build_update, field_applied. simpl.
    split_and!; try reflexivity.
    + by destruct (StudentById.name p).
    + by destruct (StudentById.grade p).
    + by destruct (StudentById.phone p).
    + by destruct (StudentById.parents_phone p).
    + by destruct (StudentById.main_center p).
    + by destruct (StudentById.school p).
    + by destruct (StudentById.age p).
  - rewrite (updateOne_None _ _ _ Hfind). simpl. by destruct db.
Qed.

Lemma update_applies_supplied_fields_witness :
  exists student',
    StudentById.handler sample_verify db_attended_once school_update
      = (mkResponse 200 SuccessBody,
         mkDb [student'] (history db_attended_once) (assistants db_attended_once)) /\
    Student.school student' = "Y" /\ Student.age student' = Some 17%Z /\
    Student.name student' = "Ali".
Proof.
  assert (~ (Js.absent (StudentById.name (StudentById.payload school_update)) /\
             Js.absent (StudentById.grade (StudentById.payload school_update)) /\
             Js.absent (StudentById.phone (StudentById.payload school_update)) /\
             Js.absent (StudentById.parents_phone (StudentById.payload school_update)) /\
             Js.absent (StudentById.main_center (StudentById.payload school_update)) /\
             Js.absent (StudentById.age (StudentById.payload school_update)) /\
             Js.absent (StudentById.school (StudentById.payload school_update)))) as Hsome.
  { intros (_ & _ & _ & _ & _ & [Ha|Ha] & _); discriminate Ha. }
  pose proof (update_applies_supplied_fields sample_verify db_attended_once school_update
                assistant_claims eq_refl eq_refl Hsome) as H.
  simpl in H.
  destruct H as (i & student' & Hi & Hresp & _ & _ & _ & Hname & _ & _ & _ & _ & Hschool & Hage).
  destruct i as [|i]; [|destruct i; discriminate Hi].
  exists student'. split; [exact Hresp|]. split; [exact Hschool|]. split; [exact Hage|].
  exact Hname.
Defined.

(** ** The ids of the students *)

Lemma updateOne_ids (P : Student.t -> Prop) `{Pdec : !forall x, Decision (P x)}
    (f : Student.t -> Student.t) (l : list Student.t) :
  (forall s, Student.id (f s) = Student.id s) ->
  Student.id <$> snd (Mongo.updateOne P f l) = Student.id <$> l.
Proof.
  intros Hf. unfold Mongo.updateOne.
  destruct (list_find P l) as [[i x]|]; simpl; [|reflexivity].
  apply list_eq. intros j. rewrite !list_lookup_fmap.
  destruct (decide (i = j)) as [->|Hne].
  - rewrite list_lookup_alter_eq. destruct (l !! j); simpl; [by rewrite Hf | reflexivity].
  - by rewrite list_lookup_alter_ne.
Qed.

Lemma updateOne_week_ids (sid i : Z) (q : list Mongo.week_set) (l l' : list Student.t)
    (n : nat) :
  Mongo.updateOne_week sid i q l = Return (n, l') ->
  Student.id <$> l' = Student.id <$> l.
Proof.
  unfold Mongo.updateOne_week.
  destruct (Mongo.findOne _ l); [|by intros [= _ <-]].
  destruct (i <? 0)%Z; [discriminate|]. intros [= Hu].
  replace l' with (snd (Mongo.updateOne (fun s => Student.id s = sid) (Mongo.set_week i q) l))
    by (rewrite Hu; reflexivity).
  by apply updateOne_ids.
Qed.

(** The id of a new student is greater than every id of the collection. *)
Lemma newId_greater (l : list Student.t) (s : Student.t) :
  s ∈ l -> (Student.id s < Students.newId l)%Z.
Proof.
  intros Hs. unfold Students.newId.
  pose proof (find_sort_id_desc_limit1_spec l) as Hspec.
  destruct (Mongo.find_sort_id_desc_limit1 l) as [|top rest].
  - subst l. by apply not_elem_of_nil in Hs.
  - destruct Hspec as [_ Hmax]. specialize (Hmax s Hs). lia.
Qed.

Lemma newId_fresh (l : list Student.t) : Students.newId l ∉ Student.id <$> l.
Proof.
  intros Hin. apply list_elem_of_fmap in Hin as (s & Hid & Hs).
  apply newId_greater in Hs. lia.
Qed.

Section IdsFacts.
Variable jwt_verify : Verifier.

(** What an operation of the student record service does to the list of
    ids: nothing, the removal of one position, or the new id at the
    end. *)
Lemma apply_op_ids (db : Db) (op : Op) :
  student_ids (apply_op jwt_verify db op) = student_ids db
  \/ (exists i : nat, student_ids (apply_op jwt_verify db op) = delete i (student_ids db))
  \/ student_ids (apply_op jwt_verify db op)
     = student_ids db ++ [Students.newId (students db)].
Proof.
  unfold student_ids. destruct op as [req|req|req|req|req|req]; simpl.
  - unfold Students.handler, Students.handler_try.
    destruct (authMiddleware jwt_verify _); [|destruct (is_auth_error _); by left].
    destruct (Students.method req); try by left.
    + destruct (Students.mapStudents _); [by left|]. destruct (is_auth_error _); by left.
    + destruct (Students.missing_field _); [by left|].
      right. right. simpl. unfold Mongo.insertOne. by rewrite fmap_app.
  - unfold StudentById.handler, StudentById.handler_try.
    destruct (authMiddleware jwt_verify _); [|destruct (is_auth_error _); by left].
    destruct (StudentById.method req); try by left.
    + destruct (Mongo.findOne _ _); [|by left].
      destruct (currentWeek _); [by left|]. destruct (is_auth_error _); by left.
    + destruct (StudentById.keys_length _ =? 0)%nat; [by left|].
      left. destruct (fst _ =? 0)%nat; simpl; by apply updateOne_ids.
    + unfold Mongo.deleteOne.
      destruct (list_find _ (students db)) as [[i x]|]; simpl; [|by left].
      right. left. exists i. by rewrite list_fmap_delete.
  - unfold Reset.handler, Reset.handler_try.
    case_decide; [|by left].
    destruct (authMiddleware jwt_verify _); [|destruct (is_auth_error _); by left].
    destruct (Mongo.findOne _ _); [|by left].
    left. destruct (fst _ =? 0)%nat; simpl; by apply updateOne_ids.
  - unfold Attend.handler, Attend.handler_try.
    case_decide; [|by left].
    destruct (authMiddleware jwt_verify _); [|destruct (is_auth_error _); by left].
    destruct (Mongo.findOne _ _); [|by left].
    destruct (Attend.out_of_bounds _ _); [by left|].
    destruct (Attend.attended _);
      (destruct (Mongo.updateOne_week _ _ _ _) as [[n l']|m] eqn:Hu;
        [|destruct (is_auth_error _); by left];
       apply updateOne_week_ids in Hu; left; simpl; destruct (n =? 0)%nat; exact Hu).
  - unfold History.handler, History.handler_try.
    case_decide; [|by left].
    destruct (authMiddleware jwt_verify _); [by left|].
    destruct (is_auth_error _); by left.
  - unfold WeekField.update.
    destruct (authMiddleware jwt_verify _); [|by left].
    destruct (_ <? 0)%Z; [by left|]. left. simpl. by apply updateOne_ids.
Qed.

Lemma apply_op_ids_NoDup (db : Db) (op : Op) :
  NoDup (student_ids db) -> NoDup (student_ids (apply_op jwt_verify db op)).
Proof.
  intros Hdb. destruct (apply_op_ids db op) as [->|[[i ->]| ->]].
  - exact Hdb.
  - exact (sublist_NoDup _ _ Hdb (sublist_delete _ i)).
  - apply NoDup_app. split; [exact Hdb|]. split.
    + intros x Hx Hnew. apply list_elem_of_singleton in Hnew as ->.
      by apply (newId_fresh (students db)).
    + apply NoDup_singleton.
Qed.
End IdsFacts.

(** X4: the ids of the students stay pairwise distinct under every
    sequence of operations of the student record service: a create takes
    an id greater than all ids of the store, and no other operation
    writes an id. *)
Theorem student_ids_stay_distinct (jwt_verify : Verifier) (db : Db) (ops : list Op) :
  NoDup (student_ids db) -> NoDup (student_ids (run jwt_verify db ops)).
Proof.
  revert db. induction ops as [|op ops IH]; intros db Hdb; simpl; [exact Hdb|].
  apply IH, apply_op_ids_NoDup, Hdb.
Qed.

Lemma student_ids_stay_distinct_witness :
  NoDup (student_ids (run sample_verify db_ali guarded_ops)).
Proof.
  apply (student_ids_stay_distinct sample_verify db_ali guarded_ops).
  vm_compute. apply NoDup_singleton.
Defined.

(** X5: a create followed by the delete of the id it returned gives the
    store back as it was, so the next create returns the same id again:
    ids of deleted students are reused. *)
Theorem create_then_delete_restores (jwt_verify : Verifier) (db : Db)
    (req : Students.Request) (auth : option string) (user user' : Claims.t) :
  Students.method req = POST ->
  authMiddleware jwt_verify (Students.authorization req) = Return user ->
  Students.missing_field (Students.payload req) = false ->
  authMiddleware jwt_verify auth = Return user' ->
  exists newId,
    let created := Students.handler jwt_verify db req in
    let deleted := StudentById.handler jwt_verify (snd created) (delete_student auth newId) in
    fst created = mkResponse 200 (IdBody newId) /\
    deleted = (mkResponse 200 SuccessBody, db) /\
    fst (Students.handler jwt_verify (snd deleted) req) = mkResponse 200 (IdBody newId).
Proof.
  intros Hm Hauth Hfields Hauth'. exists (Students.newId (students db)).
  assert (Students.handler jwt_verify db req
          = (mkResponse 200 (IdBody (Students.newId (students db))),
             with_students (students db ++
               [Students.new_student (Students.newId (students db)) fresh_weeks
                  (Students.payload req)]) db)) as Hcreate.
  { unfold Students.handler, Students.handler_try. by rewrite Hauth, Hm, Hfields. }
  cbn zeta. rewrite Hcreate. cbn [fst snd].
  assert (StudentById.handler jwt_verify
            (with_students (students db ++
               [Students.new_student (Students.newId (students db)) fresh_weeks
                  (Students.payload req)]) db)
            (delete_student auth (Students.newId (students db)))
          = (mkResponse 200 SuccessBody, db)) as Hdelete.
  { unfold StudentById.handler, StudentById.handler_try. simpl. rewrite Hauth'.
    assert (list_find (fun s => Student.id s = Students.newId (students db))
              (students db ++
                 [Students.new_student (Students.newId (students db)) fresh_weeks
                    (Students.payload req)])
            = Some (length (students db),
                    Students.new_student (Students.newId (students db)) fresh_weeks
                      (Students.payload req))) as Hfind.
    { apply list_find_Some. split_and!.
      - by rewrite lookup_app_r, Nat.sub_diag by lia.
      - reflexivity.
      - intros j y Hj Hlt. rewrite lookup_app_l in Hj by exact Hlt.
        intros Hid. apply (newId_fresh (students db)).
        rewrite <- Hid. apply list_elem_of_fmap. exists y.
        split; [reflexivity | by eapply list_elem_of_lookup_2]. }
    rewrite (deleteOne_at _ _ _ _ Hfind). simpl.
    rewrite delete_take_drop, take_app_length, drop_ge, app_nil_r
      by (rewrite length_app; simpl; lia).
    by destruct db. }
  rewrite Hdelete. cbn [fst snd]. rewrite Hcreate. auto.
Qed.

Lemma create_then_delete_restores_witness :
  exists newId,
    fst (Students.handler sample_verify db_attended_once create_ali)
      = mkResponse 200 (IdBody newId) /\
    StudentById.handler sample_verify
      (snd (Students.handler sample_verify db_attended_once create_ali))
      (delete_student assistant_auth newId)
      = (mkResponse 200 SuccessBody, db_attended_once).
Proof.
  destruct (create_then_delete_restores sample_verify db_attended_once create_ali
              assistant_auth assistant_claims assistant_claims
              eq_refl eq_refl eq_refl eq_refl) as (newId & H1 & H2 & _).
  exists newId. split; [exact H1 | exact H2].
Defined.

(** ** Marking and revoking attendance *)

Lemma updateOne_ext {A : Type} (P : A -> Prop) `{Pdec : !forall x, Decision (P x)}
    (f g : A -> A) (l : list A) :
  (forall x, f x = g x) -> Mongo.updateOne P f l = Mongo.updateOne P g l.
Proof.
  intros Hfg. unfold Mongo.updateOne.
  destruct (list_find P l) as [[i x]|]; [|reflexivity].
  f_equal. apply list_alter_ext; auto.
Qed.

(** The un-attend assignments overwrite what the attend assignments
    wrote. *)
Lemma set_week_unattend_absorbs (i : Z) (q : list Mongo.week_set) (s : Student.t) :
  Mongo.set_week i Attend.unattend_query (Mongo.set_week i q s)
  = Mongo.set_week i Attend.unattend_query s.
Proof.
  destruct s as [? ? ? ? ? ? ? ? ? [ws|]]; unfold Mongo.set_week, Student.with_weeks;
    simpl; [|reflexivity].
  do 2 f_equal. rewrite list_alter_alter_eq. apply list_alter_ext; [|reflexivity].
  intros w _. unfold compose.
  by rewrite !unattend_query_zeroes, apply_week_sets_week.
Qed.

Lemma filter_all {A : Type} (P : A -> Prop) `{Pdec : !forall x, Decision (P x)}
    (l : list A) :
  Forall P l -> filter P l = l.
Proof.
  induction 1 as [|x l Hx _ IH]; [reflexivity|].
  by rewrite filter_cons_True, IH.
Qed.

Section AttendRoundTrip.
Variable jwt_verify : Verifier.

Lemma unattend_request_accepted (db : Db) (req : Attend.Request) (student : Student.t)
    (ws : list WeekRecord) :
  attend_accepted jwt_verify db req student ws ->
  attend_accepted jwt_verify db (unattend_request req) student ws.
Proof. intros Hacc. exact Hacc. Qed.

(** The store after an accepted un-attend request. *)
Lemma unattend_store (db : Db) (req : Attend.Request) (student : Student.t)
    (ws : list WeekRecord) :
  attend_accepted jwt_verify db req student ws ->
  snd (Attend.handler jwt_verify db (unattend_request req))
  = mkDb (snd (Mongo.updateOne (fun s => Student.id s = Attend.id req)
                 (Mongo.set_week (Attend.weekIndex (Attend.payload req))
                    Attend.unattend_query) (students db)))
      (filter (fun h => h <> history_record req) (history db))
      (assistants db).
Proof.
  intros Hacc.
  rewrite (attend_accepted_false jwt_verify db (unattend_request req) student ws
             (unattend_request_accepted db req student ws Hacc) eq_refl).
  cbn [snd]. f_equal. apply (history_filter_record (history_record req)).
Qed.

Lemma attend_then_unattend_store (db : Db) (req : Attend.Request) (student : Student.t)
    (ws : list WeekRecord) :
  attend_accepted jwt_verify db req student ws ->
  Attend.attended (Attend.payload req) = true ->
  snd (Attend.handler jwt_verify (snd (Attend.handler jwt_verify db req))
         (unattend_request req))
  = snd (Attend.handler jwt_verify db (unattend_request req)).
Proof.
  intros Hacc Hatt.
  rewrite (unattend_store db req student ws Hacc).
  rewrite (attend_accepted_true jwt_verify db req student ws Hacc Hatt). cbn [snd].
  destruct (attend_accepted_again jwt_verify db req student ws
              (history db ++ [HistoryRecord.mk (Attend.id req)
                                (Attend.weekNumber (Attend.payload req))]) Hacc)
    as (s1 & ws1 & Hacc1 & _).
  rewrite (unattend_store _ req s1 ws1 Hacc1). cbn [students history assistants].
  f_equal.
  - unfold attend_students. rewrite Hatt.
    rewrite updateOne_twice by done.
    f_equal. apply updateOne_ext. intros s. apply set_week_unattend_absorbs.
  - rewrite filter_app. rewrite filter_cons_False, filter_nil, app_nil_r; [reflexivity|].
    intros Hne. by apply Hne.
Qed.

(** An accepted un-attend request on a week that is zeroed already, with
    no history record for the student and the week, changes nothing. *)
Lemma unattend_zeroed_noop (db : Db) (req : Attend.Request) (student : Student.t)
    (ws : list WeekRecord) (n : Z) :
  attend_accepted jwt_verify db req student ws ->
  ws !! Z.to_nat (Attend.weekIndex (Attend.payload req)) = Some (zeroed_week n) ->
  history_record req ∉ history db ->
  snd (Attend.handler jwt_verify db (unattend_request req)) = db.
Proof.
  intros Hacc Hzero Hnone. rewrite (unattend_store db req student ws Hacc).
  destruct Hacc as (_ & _ & Hfind & Hws & _).
  destruct (findOne_first _ _ _ Hfind) as (i & Hlf & Hi & _ & _).
  rewrite (updateOne_at _ _ _ i student Hlf). cbn [snd].
  assert (Mongo.set_week (Attend.weekIndex (Attend.payload req)) Attend.unattend_query
            student = student) as ->.
  { destruct student as [? ? ? ? ? ? ? ? ? ws0]. simpl in Hws. subst ws0.
    unfold Mongo.set_week, Student.with_weeks. simpl. do 2 f_equal.
    rewrite (alter_as_insert _ _ _ _ Hzero). by apply list_insert_id. }
  rewrite list_insert_id by exact Hi.
  rewrite filter_all; [by destruct db|].
  apply Forall_forall. intros h Hh ->. by apply Hnone.
Qed.
End AttendRoundTrip.

(** X6: marking a week attended and then revoking it leaves the store
    exactly as revoking alone does: the un-attend request overwrites all
    that the attend request wrote, and removes the history record it
    added together with the older ones. *)
Theorem attend_then_unattend_absorbed (jwt_verify : Verifier) (db : Db)
    (req : Attend.Request) (student : Student.t) (ws : list WeekRecord) :
  attend_accepted jwt_verify db req student ws ->
  Attend.attended (Attend.payload req) = true ->
  Attend.handler jwt_verify (snd (Attend.handler jwt_verify db req)) (unattend_request req)
  = (mkResponse 200 SuccessBody,
     snd (Attend.handler jwt_verify db (unattend_request req))).
Proof.
  intros Hacc Hatt.
  rewrite <- (attend_then_unattend_store jwt_verify db req student ws Hacc Hatt).
  rewrite (attend_accepted_true jwt_verify db req student ws Hacc Hatt). cbn [snd].
  destruct (attend_accepted_again jwt_verify db req student ws
              (history db ++ [HistoryRecord.mk (Attend.id req)
                                (Attend.weekNumber (Attend.payload req))]) Hacc)
    as (s1 & ws1 & Hacc1 & _).
  by rewrite (attend_accepted_false jwt_verify _ (unattend_request req) s1 ws1
                (unattend_request_accepted jwt_verify _ req s1 ws1 Hacc1) eq_refl).
Qed.

Lemma attend_then_unattend_absorbed_witness :
  exists s ws,
    attend_accepted sample_verify db_attended_once attend_week3 s ws /\
    snd (Attend.handler sample_verify db_attended_twice (unattend_request attend_week3))
    = snd (Attend.handler sample_verify db_attended_once (unattend_request attend_week3)).
Proof.
  assert (exists s ws, attend_accepted sample_verify db_attended_once attend_week3 s ws)
    as (s & ws & Hacc).
  { eexists _, _. unfold attend_accepted.
    split_and!; [reflexivity | eexists; reflexivity | reflexivity | reflexivity
                | vm_compute; discriminate | vm_compute; reflexivity]. }
  exists s, ws. split; [exact Hacc|].
  exact (f_equal snd (attend_then_unattend_absorbed sample_verify db_attended_once
                        attend_week3 s ws Hacc eq_refl)).
Defined.

(** X7: on a week that is zeroed and has no history record, marking the
    week attended and revoking it gives the store back exactly as it
    was. *)
Theorem attend_then_unattend_restores (jwt_verify : Verifier) (db : Db)
    (req : Attend.Request) (student : Student.t) (ws : list WeekRecord) (n : Z) :
  attend_accepted jwt_verify db req student ws ->
  Attend.attended (Attend.payload req) = true ->
  ws !! Z.to_nat (Attend.weekIndex (Attend.payload req)) = Some (zeroed_week n) ->
  history_record req ∉ history db ->
  snd (Attend.handler jwt_verify (snd (Attend.handler jwt_verify db req))
         (unattend_request req))
  = db.
Proof.
  intros Hacc Hatt Hzero Hnone.
  rewrite (attend_then_unattend_store jwt_verify db req student ws Hacc Hatt).
  exact (unattend_zeroed_noop jwt_verify db req student ws n Hacc Hzero Hnone).
Qed.

Lemma attend_then_unattend_restores_witness :
  snd (Attend.handler sample_verify db_attended_once (unattend_request attend_week3))
  = db_ali.
Proof.
  assert (exists s ws,
             attend_accepted sample_verify db_ali attend_week3 s ws /\
             ws !! Z.to_nat (Attend.weekIndex (Attend.payload attend_week3))
               = Some (zeroed_week 3)) as (s & ws & Hacc & Hzero).
  { eexists _, _. unfold attend_accepted.
    split_and!; [reflexivity | eexists; reflexivity | reflexivity | reflexivity
                | vm_compute; discriminate | vm_compute; reflexivity | reflexivity]. }
  apply (attend_then_unattend_restores sample_verify db_ali attend_week3 s ws 3 Hacc
           eq_refl Hzero).
  vm_compute. apply not_elem_of_nil.
Defined.

(** ** The order of the checks *)

(** X8: the reset, attend and history handlers look at the method
    first: any other method is answered 405 whatever the Authorization
    header, and nothing is written.  The two student handlers run the
    auth gate first: a request that fails it is answered 401 whatever
    the method. *)
Theorem method_and_token_order (jwt_verify : Verifier) (db : Db) (auth : option string) :
  (forall m id, m <> POST ->
     Reset.handler jwt_verify db (Reset.mkRequest m auth id)
       = (mkResponse 405 (ErrorBody "Method not allowed"), db)) /\
  (forall m id payload, m <> POST ->
     Attend.handler jwt_verify db (Attend.mkRequest m auth id payload)
       = (mkResponse 405 (ErrorBody "Method not allowed"), db)) /\
  (forall m, m <> GET ->
     History.handler jwt_verify db (History.mkRequest m auth)
       = (mkResponse 405 (ErrorBody "Method not allowed"), db)) /\
  (forall message, authMiddleware jwt_verify auth = Throw message ->
     (forall m payload,
        Students.handler jwt_verify db (Students.mkRequest m auth payload)
          = (mkResponse 401 (ErrorBody message), db)) /\
     (forall m id payload,
        StudentById.handler jwt_verify db (StudentById.mkRequest m auth id payload)
          = (mkResponse 401 (ErrorBody message), db))).
Proof.
  split_and!.
  - intros m id Hm. unfold Reset.handler. simpl. by case_decide.
  - intros m id payload Hm. unfold Attend.handler. simpl. by case_decide.
  - intros m Hm. unfold History.handler. simpl. by case_decide.
  - intros message Hauth.
    pose proof (authMiddleware_throws_auth_error jwt_verify auth message Hauth) as Herr.
    split; intros;
      unfold Students.handler, Students.handler_try,
        StudentById.handler, StudentById.handler_try; simpl;
      by rewrite Hauth, Herr.
Qed.

Lemma method_and_token_order_witness :
  Reset.handler sample_verify db_ali (Reset.mkRequest GET None 1%Z)
    = (mkResponse 405 (ErrorBody "Method not allowed"), db_ali) /\
  StudentById.handler sample_verify db_ali (StudentById.mkRequest OTHER None 1%Z no_payload)
    = (mkResponse 401 (ErrorBody "Unauthorized - No Bearer token"), db_ali).
Proof.
  destruct (method_and_token_order sample_verify db_ali None) as (Hreset & _ & _ & Hgate).
  split.
  - apply Hreset. discriminate.
  - apply (Hgate "Unauthorized - No Bearer token" eq_refl).
Defined.

(** ** The gate of the assistant endpoints *)

(** X9: on both assistant endpoints and for every method, a request
    without a Bearer header is answered 401, and a request whose token
    is verified with a role other than [admin] is answered 403; in both
    cases nothing is read or written. *)
Theorem assistants_gate (jwt_verify : Verifier) (bcrypt_hash : string -> string)
    (db : Db) (auth : option string) :
  (auth = None \/ (exists a, auth = Some a /\ String.prefix "Bearer " a = false) ->
   (forall m payload,
      Assistants.handler jwt_verify bcrypt_hash db (Assistants.mkRequest m auth payload)
        = (mkResponse 401 (ErrorBody "Unauthorized"), db)) /\
   (forall m id payload,
      AssistantById.handler jwt_verify bcrypt_hash db
        (AssistantById.mkRequest m auth id payload)
        = (mkResponse 401 (ErrorBody "Unauthorized"), db))) /\
  (forall a c,
     auth = Some a -> String.prefix "Bearer " a = true ->
     jwt_verify (bearer_token a) = Decoded c -> Claims.role c <> "admin" ->
     (forall m payload,
        Assistants.handler jwt_verify bcrypt_hash db (Assistants.mkRequest m auth payload)
          = (mkResponse 403 (ErrorBody "Forbidden: Admins only"), db)) /\
     (forall m id payload,
        AssistantById.handler jwt_verify bcrypt_hash db
          (AssistantById.mkRequest m auth id payload)
          = (mkResponse 403 (ErrorBody "Forbidden: Admins only"), db))).
Proof.
  split.
  - intros Hno.
    assert (requireAdmin jwt_verify auth = Throw "Unauthorized") as Hgate.
    { unfold requireAdmin. destruct Hno as [->|(a & -> & Hp)]; [reflexivity|].
      rewrite Hp. by rewrite orb_true_r. }
    split; intros;
      unfold Assistants.handler, Assistants.handler_try,
        AssistantById.handler, AssistantById.handler_try; simpl;
      by rewrite Hgate.
  - intros a c Ha Hp Hv Hrole.
    assert (requireAdmin jwt_verify auth = Throw "Forbidden: Admins only") as Hgate.
    { subst auth. unfold requireAdmin. rewrite Hp, Hv.
      assert (Js.truthy a = true) as ->.
      { destruct a; [discriminate Hp | reflexivity]. }
      simpl. by destruct (String.eqb_spec (Claims.role c) "admin"). }
    split; intros;
      unfold Assistants.handler, Assistants.handler_try,
        AssistantById.handler, AssistantById.handler_try; simpl;
      by rewrite Hgate.
Qed.

Lemma assistants_gate_witness :
  Assistants.handler sample_verify sample_hash db_sara (read_assistants None)
    = (mkResponse 401 (ErrorBody "Unauthorized"), db_sara) /\
  AssistantById.handler sample_verify sample_hash db_sara
    (AssistantById.mkRequest DELETE assistant_auth "sara"
       (AssistantById.mkPayload Js.Undefined Js.Undefined Js.Undefined Js.Undefined
          Js.Undefined))
    = (mkResponse 403 (ErrorBody "Forbidden: Admins only"), db_sara).
Proof.
  split.
  - destruct (assistants_gate sample_verify sample_hash db_sara None) as [Hno _].
    destruct (Hno (or_introl eq_refl)) as [Hall _]. apply Hall.
  - destruct (assistants_gate sample_verify sample_hash db_sara assistant_auth) as [_ Hrole].
    destruct (Hrole "Bearer assistant-token" assistant_claims eq_refl eq_refl eq_refl)
      as [_ Hone]; [discriminate|].
    apply Hone.
Defined.

(** ** Reads of students outside the data model *)

Lemma mapStudents_outcome (l : list Student.t) :
  (Forall (fun s => is_Some (currentWeek s)) l /\
   exists vs, Students.mapStudents l = Return vs /\ length vs = length l)
  \/ (Exists (fun s => currentWeek s = None) l /\
      Students.mapStudents l = Throw (type_error "attended")).
Proof.
  induction l as [|s l IH]; simpl.
  - left. split; [constructor|]. by exists [].
  - unfold Students.mapStudent. destruct (currentWeek s) as [cw|] eqn:Hcw.
    + destruct IH as [(Hall & vs & -> & Hlen)|(Hex & ->)].
      * left. split; [constructor; [by eexists | exact Hall]|].
        eexists. split; [reflexivity|]. simpl. by rewrite Hlen.
      * right. split; [by apply Exists_cons_tl | reflexivity].
    + right. split; [by apply Exists_cons_hd | reflexivity].
Qed.

Lemma currentWeek_None (s : Student.t) :
  currentWeek s = None <-> Student.weeks s = Some [].
Proof.
  unfold currentWeek. destruct (Student.weeks s) as [[|w ws]|]; simpl.
  - split; auto.
  - split; [|discriminate]. destruct (attended w); [discriminate|].
    destruct (List.find attended ws); discriminate.
  - split; discriminate.
Qed.

(** X10: a student document whose weeks array is empty breaks the
    reads: the read of all students answers 500 for the whole list as
    soon as one such document is in the store, and the read of that
    student answers 500.  A document without the weeks property is read
    as a student who attended nothing: week 01, not attended, an empty
    weeks array. *)
Theorem reads_of_students_without_weeks (jwt_verify : Verifier) (db : Db)
    (auth : option string) (user : Claims.t) :
  authMiddleware jwt_verify auth = Return user ->
  ((exists s, s ∈ students db /\ Student.weeks s = Some []) ->
   Students.handler jwt_verify db (read_students auth)
     = (mkResponse 500 (ErrorBody "Internal server error"), db)) /\
  (forall sid s,
     Mongo.findOne (fun s => Student.id s = sid) (students db) = Some s ->
     (Student.weeks s = Some [] ->
      StudentById.handler jwt_verify db (read_student auth sid)
        = (mkResponse 500 (ErrorBody "Internal server error"), db)) /\
     (Student.weeks s = None ->
      exists v,
        StudentById.handler jwt_verify db (read_student auth sid)
          = (mkResponse 200 (StudentBody v), db) /\
        View.attended_the_session v = false /\ View.attendanceWeek v = "week 01" /\
        View.lastAttendance v = None /\ View.hwDone v = false /\
        View.paidSession v = false /\ View.quizDegree v = None /\ View.weeks v = [])).
Proof.
  intros Hauth. split.
  - intros (s & Hs & Hweeks).
    unfold Students.handler, Students.handler_try. simpl. rewrite Hauth.
    destruct (mapStudents_outcome (students db)) as [(Hall & _)|(_ & ->)]; [|reflexivity].
    rewrite Forall_forall in Hall. destruct (Hall s Hs) as [cw Hcw].
    apply currentWeek_None in Hweeks. congruence.
  - intros sid s Hfind. split.
    + intros Hweeks. apply currentWeek_None in Hweeks.
      unfold StudentById.handler, StudentById.handler_try. simpl.
      by rewrite Hauth, Hfind, Hweeks.
    + intros Hweeks.
      unfold StudentById.handler, StudentById.handler_try. simpl.
      rewrite Hauth, Hfind. unfold currentWeek. rewrite Hweeks.
      eexists. split; [reflexivity|]. unfold flatten, weeks_or_empty. rewrite Hweeks.
      split_and!; reflexivity.
Qed.

Lemma reads_of_students_without_weeks_witness :
  Students.handler sample_verify db_legacy (read_students assistant_auth)
    = (mkResponse 500 (ErrorBody "Internal server error"), db_legacy) /\
  exists v,
    StudentById.handler sample_verify db_legacy (read_student assistant_auth 8%Z)
      = (mkResponse 200 (StudentBody v), db_legacy) /\
    View.attendanceWeek v = "week 01".
Proof.
  destruct (reads_of_students_without_weeks sample_verify db_legacy assistant_auth
              assistant_claims eq_refl) as [Hall Hone].
  split.
  - apply Hall. exists student_empty_weeks. split; [|reflexivity].
    apply list_elem_of_further, list_elem_of_here.
  - destruct (Hone 8%Z student_no_weeks eq_refl) as [_ Hnone].
    destruct (Hnone eq_refl) as (v & Hresp & _ & Hweek & _).
    exists v. split; [exact Hresp | exact Hweek].
Defined.

(** ** Creating and reading back *)

Lemma find_new_student (l : list Student.t) (s : Student.t) :
  Student.id s = Students.newId l ->
  Mongo.findOne (fun x => Student.id x = Students.newId l) (l ++ [s]) = Some s.
Proof.
  intros Hid. unfold Mongo.findOne.
  assert (list_find (fun x => Student.id x = Students.newId l) (l ++ [s])
          = Some (length l, s)) as ->; [|reflexivity].
  apply list_find_Some. split_and!.
  - by rewrite lookup_app_r, Nat.sub_diag by lia.
  - exact Hid.
  - intros j y Hj Hlt. rewrite lookup_app_l in Hj by exact Hlt.
    intros Hy. apply (newId_fresh l). rewrite <- Hy.
    apply list_elem_of_fmap. exists y. split; [reflexivity|].
    by eapply list_elem_of_lookup_2.
Qed.

(** X11: a student created from non-empty fields is read back under the
    returned id with the fields of the body, no attendance
    ([attended_the_session = false], week 01, nothing recorded) and the
    20 zeroed weeks; an age of 0 is read back as [null]. *)
Theorem create_then_read (jwt_verify : Verifier) (db : Db) (auth : option string)
    (user : Claims.t) (name grade phone parents_phone main_center school : string)
    (age : Js.field Z) :
  authMiddleware jwt_verify auth = Return user ->
  name <> "" -> grade <> "" -> phone <> "" -> parents_phone <> "" ->
  main_center <> "" -> school <> "" -> age <> Js.Undefined ->
  let create :=
    Students.mkRequest POST auth
      (Students.mkPayload (Js.Val name) (Js.Val grade) (Js.Val phone)
         (Js.Val parents_phone) (Js.Val main_center) age (Js.Val school)) in
  exists newId,
    fst (Students.handler jwt_verify db create) = mkResponse 200 (IdBody newId) /\
    fst (StudentById.handler jwt_verify (snd (Students.handler jwt_verify db create))
           (read_student auth newId))
    = mkResponse 200
        (StudentBody
           (View.mk newId name grade phone parents_phone None main_center
              false None None "week 01" false false None (Some school)
              (match age with
               | Js.Val a => if (a =? 0)%Z then None else Some a
               | _ => None
               end)
              false fresh_weeks)).
Proof.
  intros Hauth Hn Hg Hp Hpp Hmc Hs Hage create.
  assert (forall s, s <> "" -> Js.truthy s = true) as Htruthy.
  { intros s Hne. unfold Js.truthy. by destruct (String.eqb_spec s ""). }
  exists (Students.newId (students db)). subst create.
  unfold Students.handler, Students.handler_try. simpl.
  rewrite Hauth. unfold Students.missing_field. simpl.
  rewrite !Htruthy by assumption. simpl.
  assert (match age with Js.Undefined => true | _ => false end = false) as ->
    by (by destruct age).
  simpl. split; [reflexivity|].
  unfold StudentById.handler, StudentById.handler_try. simpl.
  rewrite Hauth. unfold Mongo.insertOne.
  rewrite find_new_student by reflexivity.
  unfold Students.new_student, flatten, school_or_null. simpl.
  rewrite (Htruthy school Hs). by destruct age.
Qed.

Lemma create_then_read_witness :
  exists newId v,
    fst (Students.handler sample_verify db_attended_once create_ali)
      = mkResponse 200 (IdBody newId) /\
    fst (StudentById.handler sample_verify
           (snd (Students.handler sample_verify db_attended_once create_ali))
           (read_student assistant_auth newId))
      = mkResponse 200 (StudentBody v) /\
    View.name v = "Ali" /\ View.age v = Some 16%Z /\ View.attendanceWeek v = "week 01".
Proof.
  destruct (create_then_read sample_verify db_attended_once assistant_auth assistant_claims
              "Ali" "1st Secondary" "01234567891" "01234567892" "Giza" "X" (Js.Val 16%Z)
              eq_refl) as (newId & Hid & Hread); try discriminate.
  exists newId. eexists. split; [exact Hid|]. split; [exact Hread|].
  split_and!; reflexivity.
Defined.

(** ** The groups of the history listing *)

Section GroupMapFacts.
Context {V : Type}.
Implicit Types (m : JsMap.t V) (k : Z).

Lemma has_false_keys k m : JsMap.has k m = false <-> k ∉ fst <$> m.
Proof.
  unfold JsMap.has. induction m as [|[k0 v0] m IH]; simpl.
  - split; [intros _; apply not_elem_of_nil | reflexivity].
  - rewrite not_elem_of_cons. case_decide.
    + split; [discriminate | intros [Hne _]; congruence].
    + rewrite IH. split; [intros Hk; split; [congruence | exact Hk] | by intros [_ Hk]].
Qed.

Lemma mutate_keys k (f : V -> V) m : fst <$> JsMap.mutate k f m = fst <$> m.
Proof.
  induction m as [|[k0 v0] m IH]; csimpl; [reflexivity|].
  case_decide; csimpl; [reflexivity | by rewrite IH].
Qed.

(** With distinct keys, a mutation under [k] changes the entry of [k]
    and no other. *)
Lemma elem_of_mutate k (f : V -> V) m k' (v' : V) :
  NoDup (fst <$> m) ->
  (k', v') ∈ JsMap.mutate k f m <->
  (k' <> k /\ (k', v') ∈ m) \/ (k' = k /\ exists v, (k, v) ∈ m /\ v' = f v).
Proof.
  induction m as [|[k0 v0] m IH]; simpl; intros Hnd.
  - split; [by intros H%elem_of_nil|].
    intros [[_ H%elem_of_nil]|(_ & v & H%elem_of_nil & _)]; done.
  - apply NoDup_cons in Hnd as [Hk0 Hnd]. specialize (IH Hnd).
    assert (forall v, (k0, v) ∈ m -> False) as Hfresh.
    { intros v Hv. apply Hk0. apply list_elem_of_fmap. by exists (k0, v). }
    case_decide as Hk; [subst k0|]; repeat setoid_rewrite elem_of_cons;
      [|rewrite IH; clear IH]; clear Hk0 Hnd.
    + split.
      * intros [Heq|Hin].
        -- injection Heq as -> ->. right. split; [reflexivity|]. exists v0. auto.
        -- left. split; [|auto]. intros ->. eauto.
      * intros [[Hne [Heq|Hin]]|(-> & v & [Heq|Hin] & ->)].
        -- injection Heq as -> ->. done.
        -- auto.
        -- injection Heq as ->. auto.
        -- destruct (Hfresh v Hin).
    + split.
      * intros [Heq|[[Hne Hin]|(-> & v & Hin & ->)]].
        -- injection Heq as -> ->. left. split; [congruence | auto].
        -- left. auto.
        -- right. split; [reflexivity|]. exists v. auto.
      * intros [[Hne [Heq|Hin]]|(-> & v & [Heq|Hin] & ->)].
        -- auto.
        -- right. left. auto.
        -- injection Heq as -> ->. done.
        -- right. right. split; [reflexivity|]. exists v. auto.
Qed.

Lemma mutate_set_absent k (v : V) (f : V -> V) m :
  JsMap.has k m = false -> JsMap.mutate k f (JsMap.set k v m) = m ++ [(k, f v)].
Proof.
  unfold JsMap.has. induction m as [|[k0 v0] m IH]; simpl.
  - intros _. by case_decide.
  - case_decide; [discriminate|]. intros Hm. simpl.
    case_decide; [done|]. by rewrite IH.
Qed.
End GroupMapFacts.

Lemma student_rows_snoc (sm : JsMap.t Student.t) (k : Z) (l : list HistoryRecord.t)
    (h : HistoryRecord.t) :
  student_rows sm k (l ++ [h])
  = student_rows sm k l ++
    (if decide (HistoryRecord.studentId h = k)
     then match History.join sm h with Some (_, row) => [row] | None => [] end
     else []).
Proof.
  unfold student_rows. rewrite omap_app. f_equal. simpl.
  case_decide; [|reflexivity].
  by destruct (History.join sm h) as [[s row]|].
Qed.

Lemma process_groups_inv (db : Db) (m : JsMap.t Group.t) (l : list HistoryRecord.t)
    (h : HistoryRecord.t) :
  groups_inv (History.studentMap (students db)) m l ->
  groups_inv (History.studentMap (students db))
    (History.process (History.studentMap (students db)) m h) (l ++ [h]).
Proof.
  intros (Hnd & Hgroups & Habsent). unfold History.process.
  destruct (History.join _ h) as [[student row]|] eqn:Hjoin.
  - pose proof (join_row_attended db h student row Hjoin) as (_ & Hid & _).
    destruct (JsMap.has (HistoryRecord.studentId h) m) eqn:Hhas.
    + split_and!.
      * by rewrite mutate_keys.
      * intros k g Hin. apply elem_of_mutate in Hin; [|exact Hnd].
        rewrite student_rows_snoc, Hjoin.
        destruct Hin as [[Hne Hin]|(-> & g0 & Hin & ->)].
        -- destruct (Hgroups k g Hin) as (Hg & Hrows & Hnonempty).
           case_decide; [congruence|]. rewrite app_nil_r. auto.
        -- destruct (Hgroups _ g0 Hin) as (Hg & Hrows & _).
           case_decide; [|done]. simpl. rewrite Hrows.
           split_and!; [exact Hg | reflexivity | by destruct (student_rows _ _ l)].
      * intros k Hk. rewrite mutate_keys in Hk. rewrite student_rows_snoc, Hjoin.
        case_decide as Hkh; [|by rewrite app_nil_r, Habsent].
        subst k. apply has_false_keys in Hk. congruence.
    + rewrite mutate_set_absent by exact Hhas.
      pose proof (proj1 (has_false_keys _ _) Hhas) as Hfresh.
      split_and!.
      * rewrite fmap_app. simpl. apply NoDup_app. split; [exact Hnd|]. split.
        -- intros x Hx Hx'. apply list_elem_of_singleton in Hx' as ->. by apply Hfresh.
        -- apply NoDup_singleton.
      * intros k g Hin. rewrite student_rows_snoc, Hjoin.
        apply elem_of_app in Hin as [Hin|Hin].
        -- destruct (Hgroups k g Hin) as (Hg & Hrows & Hnonempty).
           case_decide as Hkh; [|rewrite app_nil_r; auto].
           destruct Hfresh. apply list_elem_of_fmap.
           exists (k, g). split; [by rewrite Hkh | exact Hin].
        -- apply list_elem_of_singleton in Hin. injection Hin as -> ->.
           case_decide; [|done]. simpl. rewrite (Habsent _ Hfresh). simpl.
           split_and!; [exact Hid | reflexivity | discriminate].
      * intros k Hk. rewrite fmap_app, not_elem_of_app in Hk. simpl in Hk.
        destruct Hk as [Hk Hne]. rewrite student_rows_snoc.
        case_decide as Hkh.
        -- subst k. destruct Hne. by apply list_elem_of_singleton.
        -- by rewrite app_nil_r, Habsent.
  - split_and!; [exact Hnd | |].
    + intros k g Hin. rewrite student_rows_snoc, Hjoin.
      destruct (Hgroups k g Hin) as (Hg & Hrows & Hnonempty).
      case_decide; rewrite app_nil_r; auto.
    + intros k Hk. rewrite student_rows_snoc, Hjoin.
      case_decide; by rewrite app_nil_r, Habsent.
Qed.

Lemma studentHistoryMap_groups_inv (db : Db) :
  groups_inv (History.studentMap (students db)) (History.studentHistoryMap db)
    (history db).
Proof.
  unfold History.studentHistoryMap.
  assert (forall l m pre,
            groups_inv (History.studentMap (students db)) m pre ->
            groups_inv (History.studentMap (students db))
              (fold_left (History.process (History.studentMap (students db))) l m)
              (pre ++ l)) as Hgen.
  { induction l as [|h l IH]; intros m pre Hinv; simpl.
    - by rewrite app_nil_r.
    - replace (pre ++ h :: l) with ((pre ++ [h]) ++ l) by (by rewrite <- app_assoc).
      apply IH, process_groups_inv, Hinv. }
  apply (Hgen (history db) [] []). split_and!.
  - constructor.
  - intros k g Hin. by apply not_elem_of_nil in Hin.
  - reflexivity.
Qed.

(** The groups of the listing are the entries of the map of groups. *)
Lemma history_listing_entry (db : Db) (g : Group.t) :
  g ∈ history_listing db <-> (Group.id g, g) ∈ History.studentHistoryMap db.
Proof.
  unfold history_listing. rewrite sort_by_id_Permutation.
  destruct (studentHistoryMap_groups_inv db) as (_ & Hgroups & _).
  unfold JsMap.values. split.
  - intros Hg. apply list_elem_of_fmap in Hg as ([k g'] & -> & Hin). simpl.
    destruct (Hgroups k g' Hin) as (-> & _). exact Hin.
  - intros Hin. apply list_elem_of_fmap. by exists (Group.id g, g).
Qed.


Lemma history_read_listing (jwt_verify : Verifier) (db : Db) (req : History.Request)
    (user : Claims.t) :
  History.method req = GET ->
  authMiddleware jwt_verify (History.authorization req) = Return user ->
  History.handler jwt_verify db req = (mkResponse 200 (HistoryBody (history_listing db)), db).
Proof.
  intros Hm Hauth. unfold History.handler, History.handler_try. rewrite Hm, Hauth.
  by destruct (decide (GET = GET)).
Qed.



(** X13: a group of the history read holds, in the order of the history
    collection, one row for every record of its student that the join
    keeps, and at least one; every student with a kept record has its
    group.  No kept record is lost and none is listed twice. *)
Theorem history_groups_complete (jwt_verify : Verifier) (db : Db)
    (req : History.Request) (user : Claims.t) :
  History.method req = GET ->
  authMiddleware jwt_verify (History.authorization req) = Return user ->
  exists result,
    History.handler jwt_verify db req = (mkResponse 200 (HistoryBody result), db) /\
    (forall g, g ∈ result ->
       Group.historyRecords g
         = student_rows (History.studentMap (students db)) (Group.id g) (history db)
       /\ Group.historyRecords g <> []) /\
    (forall h, h ∈ history db -> kept db h ->
       exists g, g ∈ result /\ Group.id g = HistoryRecord.studentId h).
Proof.
  intros Hm Hauth. exists (history_listing db).
  split; [by apply (history_read_listing jwt_verify db req user)|].
  destruct (studentHistoryMap_groups_inv db) as (Hnd & Hgroups & Habsent).
  split.
  - intros g Hg. apply history_listing_entry in Hg.
    by destruct (Hgroups _ g Hg) as (_ & Hrows & Hnonempty).
  - intros h Hh [[student row] Hjoin].
    destruct (decide (HistoryRecord.studentId h ∈ fst <$> History.studentHistoryMap db))
      as [Hkey|Hkey].
    + apply list_elem_of_fmap in Hkey as ([k g] & Hk & Hin). simpl in Hk. subst k.
      destruct (Hgroups _ g Hin) as (Hid & _).
      exists g. split; [|exact Hid]. apply history_listing_entry. by rewrite Hid.
    + specialize (Habsent _ Hkey).
      assert (row ∈ student_rows (History.studentMap (students db))
                      (HistoryRecord.studentId h) (history db)) as Hrow.
      { apply list_elem_of_omap. exists h. split; [exact Hh|].
        case_decide; [|done]. by rewrite Hjoin. }
      rewrite Habsent in Hrow. by apply not_elem_of_nil in Hrow.
Qed.

Lemma history_groups_complete_witness :
  exists result,
    History.handler sample_verify db_stale_history (read_history assistant_auth)
      = (mkResponse 200 (HistoryBody result), db_stale_history) /\
    (forall g, g ∈ result ->
       Group.historyRecords g
         = student_rows (History.studentMap (students db_stale_history)) (Group.id g)
             (history db_stale_history)
       /\ Group.historyRecords g <> []) /\
    (forall h, h ∈ history db_stale_history -> kept db_stale_history h ->
       exists g, g ∈ result /\ Group.id g = HistoryRecord.studentId h).
Proof.
  exact (history_groups_complete sample_verify db_stale_history
           (read_history assistant_auth) assistant_claims eq_refl eq_refl).
Defined.

(** ** History records that outlive the attendance *)

(** A student id under which no student of the store has an attended
    week has no group in the listing. *)
Lemma no_attended_week_no_group (db : Db) (sid : Z) :
  (forall s ws, s ∈ students db -> Student.id s = sid -> Student.weeks s = Some ws ->
                Forall (fun w => attended w = false) ws) ->
  forall g, g ∈ history_listing db -> Group.id g <> sid.
Proof.
  intros Hnone g Hg Hid. apply history_listing_entry in Hg.
  destruct (studentHistoryMap_groups_inv db) as (_ & Hgroups & _).
  destruct (Hgroups _ g Hg) as (_ & _ & Hnonempty).
  pose proof (studentHistoryMap_sound db) as Hsound.
  rewrite Forall_forall in Hsound. destruct (Hsound _ Hg) as [_ Hrows]. simpl in Hrows.
  destruct (Group.historyRecords g) as [|r rows]; [done|].
  apply Forall_cons in Hrows as [[Hr Hatt] _].
  destruct Hatt as (s & ws & wd & Hs & Hsid & Hws & _ & Hwd & Hattended).
  assert (Forall (fun w => attended w = false) ws) as Hall.
  { apply (Hnone s ws Hs); [congruence | exact Hws]. }
  rewrite Forall_lookup in Hall. specialize (Hall _ _ Hwd). congruence.
Qed.

Lemma distinct_ids_same_index (l : list Student.t) (i j : nat) (a b : Student.t) :
  NoDup (Student.id <$> l) -> l !! i = Some a -> l !! j = Some b ->
  Student.id a = Student.id b -> i = j.
Proof.
  intros Hnd Hi Hj Hid. apply (NoDup_lookup _ i j (Student.id a) Hnd).
  - by rewrite list_lookup_fmap, Hi.
  - by rewrite list_lookup_fmap, Hj, Hid.
Qed.

Lemma fresh_weeks_unattended : Forall (fun w => attended w = false) fresh_weeks.
Proof.
  apply Forall_lookup. intros k w Hk. by apply fresh_weeks_lookup in Hk as [_ ->].
Qed.

(** X14: with distinct student ids, a reset leaves the history records
    in the store but takes the student out of the history listing: the
    read that follows has no group for the id. *)
Theorem reset_hides_history (jwt_verify : Verifier) (db : Db) (req : Reset.Request)
    (hreq : History.Request) (user user' : Claims.t) (student : Student.t) :
  Reset.method req = POST ->
  authMiddleware jwt_verify (Reset.authorization req) = Return user ->
  Mongo.findOne (fun s => Student.id s = Reset.id req) (students db) = Some student ->
  NoDup (student_ids db) ->
  History.method hreq = GET ->
  authMiddleware jwt_verify (History.authorization hreq) = Return user' ->
  let db' := snd (Reset.handler jwt_verify db req) in
  history db' = history db /\
  exists result,
    History.handler jwt_verify db' hreq = (mkResponse 200 (HistoryBody result), db') /\
    forall g, g ∈ result -> Group.id g <> Reset.id req.
Proof.
  intros Hm Hauth Hfind Hnd Hhm Hhauth db'.
  destruct (findOne_first _ _ _ Hfind) as (i & Hlf & Hi & Hid & _).
  assert (db' = mkDb (<[i := Student.with_weeks (Some fresh_weeks) student]> (students db))
                  (history db) (assistants db)) as Hdb'.
  { subst db'. unfold Reset.handler, Reset.handler_try. rewrite Hm, Hauth, Hfind.
    destruct (decide (POST = POST)) as [_|Hne]; [|by destruct Hne].
    by rewrite (updateOne_at _ _ _ i student Hlf). }
  split; [by rewrite Hdb'|].
  exists (history_listing db').
  split; [by apply (history_read_listing jwt_verify db' hreq user')|].
  apply no_attended_week_no_group. intros s ws Hs Hsid Hws.
  rewrite Hdb' in Hs. simpl in Hs.
  apply list_elem_of_lookup_1 in Hs as [j Hj].
  destruct (decide (i = j)) as [<-|Hne].
  - rewrite list_lookup_insert_eq in Hj by (by eapply lookup_lt_Some).
    injection Hj as <-. simpl in Hws. injection Hws as <-.
    apply fresh_weeks_unattended.
  - rewrite list_lookup_insert_ne in Hj by exact Hne.
    destruct Hne. apply (distinct_ids_same_index (students db) i j student s Hnd Hi Hj).
    congruence.
Qed.

Lemma reset_hides_history_witness :
  history (snd (Reset.handler sample_verify db_attended_once reset_ali))
    = [HistoryRecord.mk 1 3] /\
  exists result,
    History.handler sample_verify (snd (Reset.handler sample_verify db_attended_once reset_ali))
      (read_history assistant_auth)
    = (mkResponse 200 (HistoryBody result),
       snd (Reset.handler sample_verify db_attended_once reset_ali)) /\
    forall g, g ∈ result -> Group.id g <> 1%Z.
Proof.
  assert (NoDup (student_ids db_attended_once)) as Hnd.
  { vm_compute. apply NoDup_singleton. }
  exact (reset_hides_history sample_verify db_attended_once reset_ali
           (read_history assistant_auth) assistant_claims assistant_claims _
           eq_refl eq_refl eq_refl Hnd eq_refl eq_refl).
Defined.

(** X15: with distinct student ids, the delete of a student leaves the
    history records of that student in the store, and the history read
    that follows has no group for the id. *)
Theorem delete_hides_history (jwt_verify : Verifier) (db : Db) (req : StudentById.Request)
    (hreq : History.Request) (user user' : Claims.t) (student : Student.t) :
  StudentById.method req = DELETE ->
  authMiddleware jwt_verify (StudentById.authorization req) = Return user ->
  Mongo.findOne (fun s => Student.id s = StudentById.id req) (students db) = Some student ->
  NoDup (student_ids db) ->
  History.method hreq = GET ->
  authMiddleware jwt_verify (History.authorization hreq) = Return user' ->
  let db' := snd (StudentById.handler jwt_verify db req) in
  history db' = history db /\
  Forall (fun s => Student.id s <> StudentById.id req) (students db') /\
  exists result,
    History.handler jwt_verify db' hreq = (mkResponse 200 (HistoryBody result), db') /\
    forall g, g ∈ result -> Group.id g <> StudentById.id req.
Proof.
  intros Hm Hauth Hfind Hnd Hhm Hhauth db'.
  destruct (findOne_first _ _ _ Hfind) as (i & Hlf & Hi & Hid & _).
  assert (db' = mkDb (delete i (students db)) (history db) (assistants db)) as Hdb'.
  { subst db'. unfold StudentById.handler, StudentById.handler_try. rewrite Hauth, Hm.
    by rewrite (deleteOne_at _ _ i student Hlf). }
  assert (Forall (fun s => Student.id s <> StudentById.id req) (students db')) as Hgone.
  { rewrite Hdb'. simpl. apply Forall_lookup. intros j s Hj Hsid.
    rewrite list_lookup_delete in Hj. case_decide as Hji.
    - assert (i = j) by (apply (distinct_ids_same_index (students db) i j student s Hnd Hi Hj);
                         congruence). lia.
    - assert (i = S j) by (apply (distinct_ids_same_index (students db) i (S j) student s
                                    Hnd Hi Hj); congruence). lia. }
  split; [by rewrite Hdb'|]. split; [exact Hgone|].
  exists (history_listing db').
  split; [by apply (history_read_listing jwt_verify db' hreq user')|].
  apply no_attended_week_no_group. intros s ws Hs Hsid _.
  rewrite Forall_forall in Hgone. by destruct (Hgone s Hs).
Qed.

Lemma delete_hides_history_witness :
  history (snd (StudentById.handler sample_verify db_attended_once
                  (delete_student assistant_auth 1%Z)))
    = [HistoryRecord.mk 1 3] /\
  fst (History.handler sample_verify
         (snd (StudentById.handler sample_verify db_attended_once
                 (delete_student assistant_auth 1%Z)))
         (read_history assistant_auth))
    = mkResponse 200 (HistoryBody []).
Proof.
  assert (NoDup (student_ids db_attended_once)) as Hnd.
  { vm_compute. apply NoDup_singleton. }
  destruct (delete_hides_history sample_verify db_attended_once
              (delete_student assistant_auth 1%Z) (read_history assistant_auth)
              assistant_claims assistant_claims _ eq_refl eq_refl eq_refl Hnd
              eq_refl eq_refl) as (Hhist & _ & _).
  split; [exact Hhist | reflexivity].
Defined.

(** ** The assistants *)

Lemma NoDup_insert_fresh {A : Type} (l : list A) (i : nat) (x : A) :
  NoDup l -> x ∉ l -> NoDup (<[i := x]> l).
Proof.
  intros Hnd. revert i. induction Hnd as [|y l Hy Hnd IH]; intros i Hx; [constructor|].
  apply not_elem_of_cons in Hx as [Hxy Hx].
  destruct i as [|i]; simpl.
  - by constructor.
  - constructor; [|by apply IH].
    intros Hin. apply list_elem_of_lookup_1 in Hin as [j Hj].
    destruct (decide (i = j)) as [->|Hne].
    + destruct (decide (j < length l)%nat) as [Hlt|Hge].
      * rewrite list_lookup_insert_eq in Hj by exact Hlt. congruence.
      * rewrite list_insert_ge in Hj by lia. apply Hy. by eapply list_elem_of_lookup_2.
    + rewrite list_lookup_insert_ne in Hj by exact Hne.
      apply Hy. by eapply list_elem_of_lookup_2.
Qed.

Lemma findOne_None_fresh (l : list Assistant.t) (n : string) :
  Mongo.findOne (fun a => Assistant.id a = n) l = None -> n ∉ Assistant.id <$> l.
Proof.
  intros Hnone Hin. apply findOne_None in Hnone. rewrite Forall_forall in Hnone.
  apply list_elem_of_fmap in Hin as (a & -> & Ha). by apply (Hnone a Ha).
Qed.

Section AssistantIds.
Variable jwt_verify : Verifier.
Variable bcrypt_hash : string -> string.

Lemma assistants_handler_ids (db : Db) (req : Assistants.Request) :
  NoDup (assistant_ids db) ->
  NoDup (assistant_ids (snd (Assistants.handler jwt_verify bcrypt_hash db req))).
Proof.
  intros Hnd. unfold Assistants.handler, Assistants.handler_try.
  destruct (requireAdmin jwt_verify _) as [admin|m].
  - destruct (Assistants.method req); try exact Hnd.
    destruct (_ || _); [exact Hnd|].
    destruct (Mongo.findOne _ _) eqn:Hfind; [exact Hnd|].
    unfold assistant_ids. simpl. unfold Mongo.insertOne. rewrite fmap_app.
    apply NoDup_app. split; [exact Hnd|]. split; [|apply NoDup_singleton].
    intros x Hx Hx'. apply list_elem_of_singleton in Hx' as ->.
    by apply (findOne_None_fresh _ _ Hfind).
  - unfold assistants_catch. repeat case_match; exact Hnd.
Qed.

Lemma assistant_put_ids (db : Db) (req : AssistantById.Request) :
  NoDup (assistant_ids db) ->
  NoDup (assistant_ids (snd (AssistantById.put bcrypt_hash db req))).
Proof.
  intros Hnd. unfold AssistantById.put.
  destruct (AssistantById.id_change _ _) as [n|].
  - destruct (Mongo.findOne (fun a => Assistant.id a = n) _) eqn:Hfresh; [exact Hnd|].
    apply findOne_None_fresh in Hfresh.
    destruct (AssistantById.keys_length _ =? 0)%nat; [exact Hnd|].
    assert (NoDup (Assistant.id <$>
              snd (Mongo.updateOne (fun a => Assistant.id a = AssistantById.id req)
                     (AssistantById.apply_update
                        (AssistantById.mkUpdate
                           (AssistantById.filled (AssistantById.name (AssistantById.payload req)))
                           (AssistantById.filled (AssistantById.phone (AssistantById.payload req)))
                           (AssistantById.filled (AssistantById.role (AssistantById.payload req)))
                           (bcrypt_hash <$>
                              AssistantById.filled
                                (AssistantById.password (AssistantById.payload req)))
                           (Some n)))
                     (assistants db)))) as Hnew.
    { unfold Mongo.updateOne.
      destruct (list_find _ (assistants db)) as [[i a]|] eqn:Hfind; simpl; [|exact Hnd].
      apply list_find_Some in Hfind as (Hi & _ & _).
      rewrite (alter_as_insert _ _ _ _ Hi), list_fmap_insert. simpl.
      by apply NoDup_insert_fresh. }
    destruct (fst _ =? 0)%nat; exact Hnew.
  - destruct (AssistantById.keys_length _ =? 0)%nat; [exact Hnd|].
    assert (Assistant.id <$>
              snd (Mongo.updateOne (fun a => Assistant.id a = AssistantById.id req)
                     (AssistantById.apply_update
                        (AssistantById.mkUpdate
                           (AssistantById.filled (AssistantById.name (AssistantById.payload req)))
                           (AssistantById.filled (AssistantById.phone (AssistantById.payload req)))
                           (AssistantById.filled (AssistantById.role (AssistantById.payload req)))
                           (bcrypt_hash <$>
                              AssistantById.filled
                                (AssistantById.password (AssistantById.payload req)))
                           None))
                     (assistants db))
            = Assistant.id <$> assistants db) as Hsame.
    { unfold Mongo.updateOne.
      destruct (list_find _ (assistants db)) as [[i a]|] eqn:Hfind; simpl; [|reflexivity].
      apply list_find_Some in Hfind as (Hi & _ & _).
      rewrite (alter_as_insert _ _ _ _ Hi), list_fmap_insert. simpl.
      apply list_insert_id. by rewrite list_lookup_fmap, Hi. }
    unfold assistant_ids. destruct (fst _ =? 0)%nat; simpl; by rewrite Hsame.
Qed.

Lemma assistant_by_id_handler_ids (db : Db) (req : AssistantById.Request) :
  NoDup (assistant_ids db) ->
  NoDup (assistant_ids (snd (AssistantById.handler jwt_verify bcrypt_hash db req))).
Proof.
  intros Hnd. unfold AssistantById.handler, AssistantById.handler_try.
  destruct (requireAdmin jwt_verify _) as [admin|m].
  - destruct (AssistantById.method req); try exact Hnd.
    + destruct (Mongo.findOne _ _); exact Hnd.
    + by apply assistant_put_ids.
    + assert (NoDup (Assistant.id <$>
                snd (Mongo.deleteOne (fun a => Assistant.id a = AssistantById.id req)
                       (assistants db)))) as Hdel.
      { unfold Mongo.deleteOne.
        destruct (list_find _ (assistants db)) as [[i a]|]; simpl; [|exact Hnd].
        rewrite list_fmap_delete.
        exact (sublist_NoDup _ _ Hnd (sublist_delete _ i)). }
      destruct (fst _ =? 0)%nat; exact Hdel.
  - unfold assistants_catch. repeat case_match; exact Hnd.
Qed.
End AssistantIds.

(** X16: the ids of the assistants stay pairwise distinct under every
    request to the two assistant endpoints: a create with an id of the
    store and an update to an id of the store are refused, and nothing
    else writes an id. *)
Theorem assistant_ids_stay_distinct (jwt_verify : Verifier) (bcrypt_hash : string -> string)
    (db : Db) :
  NoDup (assistant_ids db) ->
  (forall req,
     NoDup (assistant_ids (snd (Assistants.handler jwt_verify bcrypt_hash db req)))) /\
  (forall req,
     NoDup (assistant_ids (snd (AssistantById.handler jwt_verify bcrypt_hash db req)))).
Proof.
  intros Hnd. split; intros req.
  - by apply assistants_handler_ids.
  - by apply assistant_by_id_handler_ids.
Qed.

Lemma assistant_ids_stay_distinct_witness :
  NoDup (assistant_ids (snd (Assistants.handler sample_verify sample_hash db_sara create_sara)))
  /\ assistant_ids (snd (Assistants.handler sample_verify sample_hash db_sara create_sara))
     = ["sara"].
Proof.
  assert (NoDup (assistant_ids db_sara)) as Hnd.
  { vm_compute. apply NoDup_singleton. }
  split; [|reflexivity].
  apply (assistant_ids_stay_distinct sample_verify sample_hash db_sara Hnd).
Defined.

Lemma findOne_fresh (l : list Assistant.t) (n : string) :
  n ∉ Assistant.id <$> l -> Mongo.findOne (fun a => Assistant.id a = n) l = None.
Proof.
  intros Hn. unfold Mongo.findOne.
  destruct (list_find _ l) as [[i a]|] eqn:Hfind; [|reflexivity].
  apply list_find_Some in Hfind as (Hi & Hid & _). exfalso. apply Hn.
  apply list_elem_of_fmap. exists a. split; [by rewrite Hid|].
  by eapply list_elem_of_lookup_2.
Qed.

Lemma findOne_appended (l : list Assistant.t) (a : Assistant.t) :
  Assistant.id a ∉ Assistant.id <$> l ->
  Mongo.findOne (fun x => Assistant.id x = Assistant.id a) (l ++ [a]) = Some a.
Proof.
  intros Hn. unfold Mongo.findOne.
  assert (list_find (fun x => Assistant.id x = Assistant.id a) (l ++ [a])
          = Some (length l, a)) as ->; [|reflexivity].
  apply list_find_Some. split_and!.
  - by rewrite lookup_app_r, Nat.sub_diag by lia.
  - reflexivity.
  - intros j y Hj Hlt Hid. rewrite lookup_app_l in Hj by exact Hlt.
    apply Hn. rewrite <- Hid. apply list_elem_of_fmap. exists y.
    split; [reflexivity|]. by eapply list_elem_of_lookup_2.
Qed.

Lemma truthy_nonempty (s : string) : s <> EmptyString -> Js.truthy s = true.
Proof. intros Hne. unfold Js.truthy. by destruct (String.eqb_spec s EmptyString). Qed.

(** X17: an administrator's create with five non-empty fields and an id
    new to the store appends the assistant with the hash of the password;
    the assistant can then be read back by id, without the password, and a
    second create with the same id is refused with status 409 and changes
    nothing. *)
Theorem assistant_create_then_read (jwt_verify : Verifier) (bcrypt_hash : string -> string)
    (db : Db) (auth : option string) (admin : Claims.t)
    (id name phone password role : string) :
  requireAdmin jwt_verify auth = Return admin ->
  id <> EmptyString -> name <> EmptyString -> phone <> EmptyString ->
  password <> EmptyString -> role <> EmptyString ->
  id ∉ assistant_ids db ->
  let create :=
    Assistants.mkRequest POST auth
      (Assistants.mkPayload (Js.Val id) (Js.Val name) (Js.Val phone) (Js.Val password)
         (Js.Val role)) in
  let db' :=
    with_assistants
      (assistants db ++ [Assistant.mk id name phone (bcrypt_hash password) role]) db in
  Assistants.handler jwt_verify bcrypt_hash db create = (json SuccessBody, db') /\
  AssistantById.handler jwt_verify bcrypt_hash db' (read_assistant auth id)
    = (json (AssistantBody (AssistantView.mk id name phone role)), db') /\
  Assistants.handler jwt_verify bcrypt_hash db' create
    = (error 409 "Assistant ID already exists", db').
Proof.
  intros Hadmin Hid Hname Hphone Hpassword Hrole Hfresh create db'.
  pose (doc := Assistant.mk id name phone (bcrypt_hash password) role).
  assert (Mongo.findOne (fun a => Assistant.id a = id) (assistants db ++ [doc]) = Some doc)
    as Hfound.
  { exact (findOne_appended _ doc Hfresh). }
  subst doc.
  split_and!.
  - unfold Assistants.handler, Assistants.handler_try, create. simpl.
    rewrite Hadmin. unfold Js.truthy_field.
    rewrite !truthy_nonempty by assumption. simpl.
    by rewrite (findOne_fresh _ _ Hfresh).
  - unfold AssistantById.handler, AssistantById.handler_try, read_assistant. simpl.
    rewrite Hadmin. simpl. by rewrite Hfound.
  - unfold Assistants.handler, Assistants.handler_try, create. simpl.
    rewrite Hadmin. unfold Js.truthy_field.
    rewrite !truthy_nonempty by assumption. simpl.
    by rewrite Hfound.
Qed.

Lemma assistant_create_then_read_witness :
  AssistantById.handler sample_verify sample_hash db_sara (read_assistant admin_auth "sara")
    = (json (AssistantBody (AssistantView.mk "sara" "Sara" "01000000000" "assistant")),
       db_sara) /\
  Assistants.handler sample_verify sample_hash db_sara create_sara
    = (error 409 "Assistant ID already exists", db_sara).
Proof.
  destruct (assistant_create_then_read sample_verify sample_hash empty_db admin_auth
              admin_claims "sara" "Sara" "01000000000" "secret" "assistant")
    as (_ & Hread & Hagain); try (reflexivity || discriminate).
  - vm_compute. apply not_elem_of_nil.
  - split; [exact Hread | exact Hagain].
Defined.




(** X19: on a store of distinct ids, an administrator's update that gives
    an existing assistant a new id, an ASCII string that is not blank and
    not in the store, succeeds; afterwards the old id is not found and the new id reads the
    same name, phone and role. *)
Theorem assistant_rename_moves (jwt_verify : Verifier) (bcrypt_hash : string -> string)
    (db : Db) (auth : option string) (admin : Claims.t) (id n : string) (a : Assistant.t) :
  requireAdmin jwt_verify auth = Return admin ->
  NoDup (assistant_ids db) ->
  Mongo.findOne (fun x => Assistant.id x = id) (assistants db) = Some a ->
  is_ascii n = true -> Js.blank n = false -> n <> id -> n ∉ assistant_ids db ->
  let result :=
    AssistantById.handler jwt_verify bcrypt_hash db (rename_assistant auth id n) in
  fst result = json SuccessBody /\
  fst (AssistantById.handler jwt_verify bcrypt_hash (snd result) (read_assistant auth id))
    = error 404 "Assistant not found" /\
  fst (AssistantById.handler jwt_verify bcrypt_hash (snd result) (read_assistant auth n))
    = json (AssistantBody
              (AssistantView.mk n (Assistant.name a) (Assistant.phone a)
                 (Assistant.role a))).
Proof.
  intros Hadmin Hnd Hfind _ Hblank Hne Hfresh result.
  apply findOne_first in Hfind as (i & Hlist & Hi & Hid & Hbefore).
  pose (a' := Assistant.mk n (Assistant.name a) (Assistant.phone a)
                (Assistant.password a) (Assistant.role a)).
  assert (result = (json SuccessBody,
                    with_assistants (<[i := a']> (assistants db)) db)) as ->.
  { subst result. unfold AssistantById.handler, AssistantById.handler_try, rename_assistant.
    simpl. rewrite Hadmin. unfold AssistantById.put, AssistantById.id_change. simpl.
    rewrite Hblank. apply String.eqb_neq in Hne. rewrite Hne.
    rewrite (findOne_fresh _ _ Hfresh). simpl.
    by rewrite (updateOne_at _ _ _ _ _ Hlist). }
  split; [reflexivity|].
  assert (Assistant.id <$> <[i := a']> (assistants db) = <[i := n]> (assistant_ids db))
    as Hids by (by rewrite list_fmap_insert).
  assert (assistant_ids db !! i = Some id) as Hidi.
  { unfold assistant_ids. by rewrite list_lookup_fmap, Hi, <- Hid. }
  split.
  - unfold AssistantById.handler, AssistantById.handler_try, read_assistant. simpl.
    rewrite Hadmin. destruct db as [ss hs asts]; simpl in *.
    rewrite findOne_fresh; [reflexivity|].
    rewrite Hids. intros Hin. apply list_elem_of_lookup_1 in Hin as [j Hj].
    destruct (decide (i = j)) as [<-|Hij].
    + rewrite list_lookup_insert_eq in Hj by (by eapply lookup_lt_Some).
      congruence.
    + rewrite list_lookup_insert_ne in Hj by exact Hij.
      apply Hij. by eapply NoDup_lookup.
  - unfold AssistantById.handler, AssistantById.handler_try, read_assistant. simpl.
    rewrite Hadmin. destruct db as [ss hs asts]; simpl in *.
    unfold Mongo.findOne.
    assert (list_find (fun x => Assistant.id x = n) (<[i := a']> asts) = Some (i, a'))
      as ->; [|reflexivity].
    apply list_find_Some. split_and!.
    + apply list_lookup_insert_eq. by eapply lookup_lt_Some.
    + reflexivity.
    + intros j y Hj Hlt Hy. rewrite list_lookup_insert_ne in Hj by lia.
      apply Hfresh. unfold assistant_ids. simpl. rewrite <- Hy.
      apply list_elem_of_fmap. exists y. split; [reflexivity|].
      by eapply list_elem_of_lookup_2.
Qed.

Lemma assistant_rename_moves_witness :
  fst (AssistantById.handler sample_verify sample_hash
         (snd (AssistantById.handler sample_verify sample_hash db_sara
                 (rename_assistant admin_auth "sara" "sarah")))
         (read_assistant admin_auth "sara"))
    = error 404 "Assistant not found" /\
  fst (AssistantById.handler sample_verify sample_hash
         (snd (AssistantById.handler sample_verify sample_hash db_sara
                 (rename_assistant admin_auth "sara" "sarah")))
         (read_assistant admin_auth "sarah"))
    = json (AssistantBody (AssistantView.mk "sarah" "Sara" "01000000000" "assistant")).
Proof.
  destruct (assistant_rename_moves sample_verify sample_hash db_sara admin_auth
              admin_claims "sara" "sarah"
              (Assistant.mk "sara" "Sara" "01000000000" (sample_hash "secret") "assistant"))
    as (_ & Hold & Hnew).
  - reflexivity.
  - vm_compute. apply NoDup_singleton.
  - reflexivity.
  - reflexivity.
  - reflexivity.
  - discriminate.
  - vm_compute. intros Hin. apply list_elem_of_singleton in Hin. discriminate.
  - split; [exact Hold | exact Hnew].
Defined.

(** ** Login *)

Lemma split_no_sep (sep : ascii) (s : string) :
  has_char sep s = false -> Js.split sep s = [s].
Proof.
  induction s as [|c s IH]; [reflexivity|]. simpl. intros Hs.
  apply orb_false_iff in Hs as [Hc Hs]. by rewrite Hc, (IH Hs).
Qed.

Lemma bearer_token_bearer (token : string) :
  has_char " " token = false -> bearer_token (String.append "Bearer " token) = token.
Proof.
  intros Hs. unfold bearer_token. cbv [String.append]. simpl.
  by rewrite (split_no_sep _ _ Hs).
Qed.

Lemma bearer_prefix (token : string) :
  negb (Js.truthy (String.append "Bearer " token))
  || negb (String.prefix "Bearer " (String.append "Bearer " token)) = false.
Proof. simpl. by destruct token. Qed.

Section LoginFacts.
Variable bcrypt_compare : string -> string -> bool.
Variable jwt_sign : Claims.t -> string.


Lemma login_accepts (db : Db) (id password : string) (a : Assistant.t) :
  id <> EmptyString -> password <> EmptyString ->
  Mongo.findOne (fun x => Assistant.id x = id) (assistants db) = Some a ->
  Login.handler bcrypt_compare jwt_sign db (login_request id password)
  = if bcrypt_compare password (Assistant.password a)
    then Login.mkResponse 200 (Login.Token (jwt_sign (Login.claims a)))
    else Login.mkResponse 401 (Login.Failure "wrong_password").
Proof.
  intros Hid Hpw Hfind. unfold Login.handler, login_request. simpl.
  unfold Js.truthy_field. rewrite !truthy_nonempty by assumption. simpl.
  rewrite Hfind. by destruct (bcrypt_compare _ _).
Qed.
End LoginFacts.

(** X20: after an administrator has created an assistant, a login with
    the id and a password that [bcrypt.compare] matches against the stored
    hash answers 200 with the token signed for the id, name and role given
    at creation; a login with a password that does not match answers 401
    [wrong_password]. *)
Theorem login_after_create (jwt_verify : Verifier) (bcrypt_hash : string -> string)
    (bcrypt_compare : string -> string -> bool) (jwt_sign : Claims.t -> string)
    (db : Db) (auth : option string) (admin : Claims.t)
    (id name phone password role attempt : string) :
  requireAdmin jwt_verify auth = Return admin ->
  id <> EmptyString -> name <> EmptyString -> phone <> EmptyString ->
  password <> EmptyString -> role <> EmptyString -> attempt <> EmptyString ->
  id ∉ assistant_ids db ->
  let db' :=
    snd (Assistants.handler jwt_verify bcrypt_hash db
           (Assistants.mkRequest POST auth
              (Assistants.mkPayload (Js.Val id) (Js.Val name) (Js.Val phone)
                 (Js.Val password) (Js.Val role)))) in
  Login.handler bcrypt_compare jwt_sign db' (login_request id attempt)
  = if bcrypt_compare attempt (bcrypt_hash password)
    then Login.mkResponse 200 (Login.Token (jwt_sign (Claims.mk id name role)))
    else Login.mkResponse 401 (Login.Failure "wrong_password").
Proof.
  intros Hadmin Hid Hname Hphone Hpassword Hrole Hattempt Hfresh db'.
  pose (doc := Assistant.mk id name phone (bcrypt_hash password) role).
  assert (assistants db' = assistants db ++ [doc]) as Hdb'.
  { subst db'. unfold Assistants.handler, Assistants.handler_try. simpl.
    rewrite Hadmin. unfold Js.truthy_field.
    rewrite !truthy_nonempty by assumption. simpl.
    rewrite (findOne_fresh _ _ Hfresh). by destruct db. }
  rewrite (login_accepts bcrypt_compare jwt_sign db' id attempt doc Hid Hattempt).
  - reflexivity.
  - rewrite Hdb'. exact (findOne_appended _ doc Hfresh).
Qed.

Lemma login_after_create_witness :
  Login.handler sample_compare sample_sign db_sara (login_request "sara" "secret")
    = Login.mkResponse 200 (Login.Token "assistant-token") /\
  Login.handler sample_compare sample_sign db_sara (login_request "sara" "guess")
    = Login.mkResponse 401 (Login.Failure "wrong_password").
Proof.
  split.
  - apply (login_after_create sample_verify sample_hash sample_compare sample_sign
             empty_db admin_auth admin_claims "sara" "Sara" "01000000000" "secret"
             "assistant" "secret"); try (reflexivity || discriminate).
    vm_compute. apply not_elem_of_nil.
  - apply (login_after_create sample_verify sample_hash sample_compare sample_sign
             empty_db admin_auth admin_claims "sara" "Sara" "01000000000" "secret"
             "assistant" "guess"); try (reflexivity || discriminate).
    vm_compute. apply not_elem_of_nil.
Defined.



(** X22: when [jwt.verify] decodes the token that [jwt.sign] issues for an
    assistant, and the token holds no space, the token of a successful
    login, sent as a Bearer header, passes the gate of the student
    endpoints with the assistant's id, name and role, and the list of
    assistants answers it with the assistants if the role is [admin] and
    with status 403 otherwise. *)
Theorem login_token_gates (jwt_verify : Verifier) (bcrypt_hash : string -> string)
    (bcrypt_compare : string -> string -> bool) (jwt_sign : Claims.t -> string)
    (db : Db) (id password : string) (a : Assistant.t) :
  id <> EmptyString -> password <> EmptyString ->
  Mongo.findOne (fun x => Assistant.id x = id) (assistants db) = Some a ->
  bcrypt_compare password (Assistant.password a) = true ->
  jwt_verify (jwt_sign (Login.claims a)) = Decoded (Login.claims a) ->
  has_char " " (jwt_sign (Login.claims a)) = false ->
  exists t : string,
    Login.handler bcrypt_compare jwt_sign db (login_request id password)
      = Login.mkResponse 200 (Login.Token t) /\
    authMiddleware jwt_verify (bearer t) = Return (Login.claims a) /\
    Assistants.handler jwt_verify bcrypt_hash db (read_assistants (bearer t))
      = if String.eqb (Assistant.role a) "admin"
        then (json (AssistantsBody (assistants db)), db)
        else (error 403 "Forbidden: Admins only", db).
Proof.
  intros Hid Hpw Hfind Hvalid Hverify Hspace.
  exists (jwt_sign (Login.claims a)). split_and!.
  - by rewrite (login_accepts _ _ _ _ _ _ Hid Hpw Hfind), Hvalid.
  - unfold authMiddleware, bearer. rewrite bearer_prefix.
    by rewrite (bearer_token_bearer _ Hspace), Hverify.
  - unfold Assistants.handler, Assistants.handler_try, read_assistants, requireAdmin, bearer.
    cbn [Assistants.authorization Assistants.method].
    rewrite bearer_prefix, (bearer_token_bearer _ Hspace), Hverify.
    cbn [Login.claims Claims.role].
    by destruct (String.eqb (Assistant.role a) "admin").
Qed.

Lemma login_token_gates_witness :
  exists t : string,
    Login.handler sample_compare sample_sign db_staff (login_request "assist1" "pass1")
      = Login.mkResponse 200 (Login.Token t) /\
    authMiddleware sample_verify (bearer t) = Return assistant_claims /\
    Assistants.handler sample_verify sample_hash db_staff (read_assistants (bearer t))
      = (error 403 "Forbidden: Admins only", db_staff).
Proof.
  exact (login_token_gates sample_verify sample_hash sample_compare sample_sign db_staff
           "assist1" "pass1"
           (Assistant.mk "assist1" "Assistant" "01000000001" (sample_hash "pass1")
              "assistant")
           ltac:(discriminate) ltac:(discriminate) eq_refl eq_refl eq_refl eq_refl).
Defined.

(** ** The pages *)

Lemma at_index_cons {A : Type} (x : A) (l : list A) (i : Z) :
  i <> 0%Z -> at_index (x :: l) i = at_index l (i - 1).
Proof.
  intros Hi. unfold at_index.
  destruct (Z.ltb_spec i 0), (Z.ltb_spec (i - 1) 0); try lia; [reflexivity|].
  replace (Z.to_nat i) with (S (Z.to_nat (i - 1))) by lia. reflexivity.
Qed.

(** On weeks numbered in sequence from [k] on, the search by week number
    is the lookup by index. *)
Lemma find_week_offset (ws : list WeekRecord) (k m : Z) :
  (forall (i : nat) (w : WeekRecord), ws !! i = Some w -> week w = (Z.of_nat i + k)%Z) ->
  List.find (fun w => (week w =? m)%Z) ws = at_index ws (m - k).
Proof.
  revert k. induction ws as [|w ws IH]; intros k Hweek; simpl.
  - unfold at_index. by destruct (m - k <? 0)%Z.
  - pose proof (Hweek 0%nat w eq_refl) as Hw. simpl in Hw.
    destruct (Z.eqb_spec (week w) m) as [Heq|Hne].
    + replace (m - k)%Z with 0%Z by lia. reflexivity.
    + rewrite at_index_cons by lia.
      replace (m - k - 1)%Z with (m - (k + 1))%Z by lia.
      apply IH. intros i w' Hi. rewrite (Hweek (S i) w' Hi). lia.
Qed.

Lemma find_week_shaped (ws : list WeekRecord) (m : Z) :
  weeks_shape ws -> List.find (fun w => (week w =? m)%Z) ws = at_index ws (m - 1).
Proof. intros [_ Hweek]. by apply find_week_offset. Qed.

Lemma getWeekNumber_truthy (weekString : string) (n : Z) :
  ScanPage.getWeekNumber weekString = Some n -> Js.truthy weekString = true.
Proof.
  unfold ScanPage.getWeekNumber. by destruct (Js.truthy weekString).
Qed.

(** X23: on a student whose weeks are the 20 records numbered in
    sequence, the scan page, which looks the selected week up by index,
    and the student page, which searches the week by its number, pick the
    same record: the row of the student page for the number read from the
    week string holds the fields of the scan page's week, and is the row
    of no attendance when the scan page finds no week. *)
Theorem pages_pick_same_week (student : View.t) (weekString : string) (n : Z) :
  weeks_shape (View.weeks student) ->
  ScanPage.getWeekNumber weekString = Some n ->
  StudentInfo.getWeekAttendance (Some student) n
  = match ScanPage.getCurrentWeekData student weekString with
    | Some w =>
        StudentInfo.mkWeekAttendance (attended w) (hwDone w) (paidSession w)
          (Js.or_null (quizDegree w)) (message_state w) (Js.or_null (lastAttendance w))
    | None => StudentInfo.no_attendance
    end.
Proof.
  intros Hshape Hn. unfold StudentInfo.getWeekAttendance, ScanPage.getCurrentWeekData.
  rewrite (getWeekNumber_truthy _ _ Hn), Hn. simpl.
  rewrite (find_week_shaped _ n Hshape).
  destruct (Z.eqb_spec n 0) as [->|Hne]; [reflexivity|].
  by destruct (at_index (View.weeks student) (n - 1)).
Qed.

Lemma pages_pick_same_week_witness :
  StudentInfo.getWeekAttendance
    (Some (week_view (Student.mk 1 "Ali" None "1st Secondary" "School" "0100" "0101"
                        "Giza" None (Some fresh_weeks))
             fresh_weeks (zeroed_week 1) None)) 3
  = StudentInfo.mkWeekAttendance false false false None false None.
Proof.
  exact (pages_pick_same_week
           (week_view (Student.mk 1 "Ali" None "1st Secondary" "School" "0100" "0101"
                         "Giza" None (Some fresh_weeks))
              fresh_weeks (zeroed_week 1) None)
           "week 03" 3 fresh_weeks_shape eq_refl).
Defined.

(** X24: the week label that the read of one student builds for a week
    number from 1 to 20 is read back as that number by [getWeekNumber] of
    the scan page and of the dashboard. *)
Theorem week_label_read_back (n : Z) :
  (1 <= n <= 20)%Z ->
  ScanPage.getWeekNumber (week_label n) = Some n /\
  Dashboard.getWeekNumber (week_label n) = Some n.
Proof.
  intros Hn.
  assert (exists k : nat, (k < 20)%nat /\ n = (Z.of_nat k + 1)%Z) as (k & Hk & ->).
  { exists (Z.to_nat (n - 1)). lia. }
  do 20 (destruct k as [|k]; [split; reflexivity|]). lia.
Qed.

Lemma week_label_read_back_witness :
  ScanPage.getWeekNumber (week_label 12) = Some 12%Z /\
  Dashboard.getWeekNumber (week_label 12) = Some 12%Z.
Proof. apply (week_label_read_back 12). lia. Defined.

Lemma filter_partition_length {A : Type} (f : A -> bool) (l : list A) :
  (length (List.filter f l) + length (List.filter (fun x => negb (f x)) l))%nat = length l.
Proof.
  induction l as [|x l IH]; [reflexivity|]. simpl.
  destruct (f x); simpl; lia.
Qed.

Lemma filter_length_le {A : Type} (f : A -> bool) (l : list A) :
  (length (List.filter f l) <= length l)%nat.
Proof.
  induction l as [|x l IH]; [reflexivity|]. simpl. destruct (f x); simpl; lia.
Qed.

Lemma filter_none_length {A : Type} (f : A -> bool) (l : list A) :
  (forall x, x ∈ l -> f x = false) -> length (List.filter f l) = 0%nat.
Proof.
  induction l as [|x l IH]; intros Hf; [reflexivity|]. simpl.
  rewrite (Hf x) by apply list_elem_of_here.
  apply IH. intros y Hy. apply Hf. by apply list_elem_of_further.
Qed.

Lemma filter_two_length {A : Type} (f g h : A -> bool) (l : list A) :
  (forall x, x ∈ l -> h x = true -> xorb (f x) (g x) = true) ->
  (forall x, x ∈ l -> h x = false -> f x = false /\ g x = false) ->
  (length (List.filter f l) + length (List.filter g l))%nat = length (List.filter h l).
Proof.
  induction l as [|x l IH]; intros Hone Hnone; [reflexivity|]. simpl.
  assert ((length (List.filter f l) + length (List.filter g l))%nat
          = length (List.filter h l)) as IHl.
  { apply IH; intros y Hy; [apply Hone | apply Hnone]; by apply list_elem_of_further. }
  destruct (h x) eqn:Hh.
  - pose proof (Hone x (list_elem_of_here _ _) Hh) as Hx.
    destruct (f x), (g x); simpl in *; try discriminate; lia.
  - destruct (Hnone x (list_elem_of_here _ _) Hh) as [-> ->]. exact IHl.
Qed.

(** X25: in the counters of the dashboard every student is counted either
    as attended or as not attended.  With a week selected, the students
    counted under homework done or not done are as many as those with a
    record at the index of the week, and the counts of paid and not paid
    add up to the same number, at most the number of students; with
    weeks of 20 records and a week number above 20 nobody
    is counted under homework or payment and everybody as not attended.
    With no week selected every pair adds up to the number of students. *)
Theorem dashboard_counts (dataToCount : list View.t) (weekNumber : option Z) :
  (Dashboard.attendedCount dataToCount weekNumber
   + Dashboard.notAttendedCount dataToCount weekNumber = length dataToCount)%nat /\
  (Dashboard.hwDoneCount dataToCount weekNumber
   + Dashboard.hwNotDoneCount dataToCount weekNumber
   = Dashboard.paidCount dataToCount weekNumber
     + Dashboard.notPaidCount dataToCount weekNumber)%nat /\
  (Dashboard.hwDoneCount dataToCount weekNumber
   + Dashboard.hwNotDoneCount dataToCount weekNumber <= length dataToCount)%nat /\
  (Dashboard.selected weekNumber = true ->
   (Dashboard.hwDoneCount dataToCount weekNumber
    + Dashboard.hwNotDoneCount dataToCount weekNumber)%nat
   = length (List.filter
               (fun s => match Dashboard.weekData s weekNumber with
                         | Some _ => true
                         | None => false
                         end) dataToCount)) /\
  (Dashboard.selected weekNumber = false ->
   (Dashboard.hwDoneCount dataToCount weekNumber
    + Dashboard.hwNotDoneCount dataToCount weekNumber = length dataToCount)%nat) /\
  (forall n : Z,
     weekNumber = Some n -> (20 < n)%Z ->
     Forall (fun s => length (View.weeks s) = 20%nat) dataToCount ->
     Dashboard.notAttendedCount dataToCount weekNumber = length dataToCount /\
     Dashboard.hwDoneCount dataToCount weekNumber = 0%nat /\
     Dashboard.hwNotDoneCount dataToCount weekNumber = 0%nat /\
     Dashboard.paidCount dataToCount weekNumber = 0%nat /\
     Dashboard.notPaidCount dataToCount weekNumber = 0%nat).
Proof.
  assert (forall field : WeekRecord -> bool,
            (length (List.filter
                       (fun s => match Dashboard.weekData s weekNumber with
                                 | Some w => field w
                                 | None => false
                                 end) dataToCount)
             + length (List.filter
                         (fun s => match Dashboard.weekData s weekNumber with
                                   | Some w => negb (field w)
                                   | None => false
                                   end) dataToCount))%nat
            = length (List.filter
                        (fun s => match Dashboard.weekData s weekNumber with
                                  | Some _ => true
                                  | None => false
                                  end) dataToCount)) as Hpair.
  { intros field. apply filter_two_length; intros s _;
      destruct (Dashboard.weekData s weekNumber) as [w|]; try discriminate.
    - intros _. by destruct (field w).
    - by intros _. }
  split_and!.
  - unfold Dashboard.attendedCount, Dashboard.notAttendedCount.
    destruct (Dashboard.selected weekNumber); apply filter_partition_length.
  - unfold Dashboard.hwDoneCount, Dashboard.hwNotDoneCount, Dashboard.paidCount,
      Dashboard.notPaidCount.
    destruct (Dashboard.selected weekNumber).
    + by rewrite (Hpair hwDone), (Hpair paidSession).
    + rewrite (filter_partition_length (fun s => existsb hwDone (View.weeks s))).
      by rewrite (filter_partition_length (fun s => existsb paidSession (View.weeks s))).
  - unfold Dashboard.hwDoneCount, Dashboard.hwNotDoneCount.
    destruct (Dashboard.selected weekNumber).
    + rewrite (Hpair hwDone). apply filter_length_le.
    + by rewrite (filter_partition_length (fun s => existsb hwDone (View.weeks s))).
  - intros Hsel. unfold Dashboard.hwDoneCount, Dashboard.hwNotDoneCount. rewrite Hsel.
    apply (Hpair hwDone).
  - intros Hsel. unfold Dashboard.hwDoneCount, Dashboard.hwNotDoneCount. rewrite Hsel.
    apply (filter_partition_length (fun s => existsb hwDone (View.weeks s))).
  - intros n -> Hn Hlen.
    assert (forall s, s ∈ dataToCount -> Dashboard.weekData s (Some n) = None) as Hnone.
    { intros s Hs. rewrite Forall_forall in Hlen. specialize (Hlen s Hs).
      unfold Dashboard.weekData, at_index.
      destruct (Z.eqb_spec n 0); [lia|]. destruct (Z.ltb_spec (n - 1) 0); [lia|].
      apply lookup_ge_None. lia. }
    assert (Dashboard.selected (Some n) = true) as Hsel.
    { simpl. by destruct (Z.eqb_spec n 0); [lia|]. }
    unfold Dashboard.notAttendedCount, Dashboard.hwDoneCount, Dashboard.hwNotDoneCount,
      Dashboard.paidCount, Dashboard.notPaidCount.
    rewrite Hsel. split_and!;
      try (apply filter_none_length; intros s Hs; by rewrite (Hnone s Hs)).
    pose proof (filter_partition_length
                  (fun s => Dashboard.didStudentAttendInWeek s (Some n)) dataToCount) as Hp.
    rewrite filter_none_length in Hp; [exact Hp|].
    intros s Hs. unfold Dashboard.didStudentAttendInWeek. by rewrite (Hnone s Hs).
Qed.

Lemma dashboard_counts_witness :
  Dashboard.notAttendedCount sample_views (Some 21%Z) = 2%nat /\
  Dashboard.hwDoneCount sample_views (Some 21%Z) = 0%nat /\
  Dashboard.hwNotDoneCount sample_views (Some 21%Z) = 0%nat /\
  Dashboard.paidCount sample_views (Some 21%Z) = 0%nat /\
  Dashboard.notPaidCount sample_views (Some 21%Z) = 0%nat.
Proof.
  destruct (dashboard_counts sample_views (Some 21%Z)) as (_ & _ & _ & _ & _ & Hbeyond).
  apply (Hbeyond 21%Z eq_refl); [lia|].
  repeat constructor.
Defined.

Section PagesAfterAttend.
Variable jwt_verify : Verifier.

(** The read of one student answers with the stored weeks. *)
Lemma read_one_weeks (db : Db) (auth : option string) (user : Claims.t) (sid : Z)
    (student : Student.t) (ws : list WeekRecord) :
  authMiddleware jwt_verify auth = Return user ->
  Mongo.findOne (fun s => Student.id s = sid) (students db) = Some student ->
  Student.weeks student = Some ws -> ws <> [] ->
  exists v,
    StudentById.handler jwt_verify db (read_student auth sid) = (json (StudentBody v), db) /\
    View.weeks v = ws.
Proof.
  intros Hauth Hfind Hws Hne.
  unfold StudentById.handler, StudentById.handler_try, read_student. simpl.
  rewrite Hauth, Hfind. unfold currentWeek. rewrite Hws.
  assert (forall cw la, View.weeks (flatten student cw la) = ws) as Hweeks.
  { intros cw la. unfold flatten, weeks_or_empty. simpl. by rewrite Hws. }
  destruct (List.find attended ws) as [cw|].
  - eexists. split; [reflexivity | apply Hweeks].
  - destruct ws as [|w ws']; [by destruct Hne|]. simpl.
    eexists. split; [reflexivity | apply Hweeks].
Qed.

Lemma at_index_alter {A : Type} (f : A -> A) (l : list A) (i : nat) (j : Z) :
  at_index (alter f i l) j
  = if decide (j = Z.of_nat i) then f <$> at_index l j else at_index l j.
Proof.
  unfold at_index. destruct (Z.ltb_spec j 0).
  - case_decide; [lia | reflexivity].
  - case_decide as Hj.
    + subst j. rewrite Nat2Z.id. apply list_lookup_alter_eq.
    + apply list_lookup_alter_ne. lia.
Qed.
End PagesAfterAttend.

(** X26: the scan page sends the number read from the selected week
    string as [attendanceWeek].  When that number is not zero and the
    attendance is accepted for a student with the 20 weeks numbered in
    sequence, the read of the student that follows answers with weeks on
    which the scan page shows the student as attended, with the
    attendance string and center of the request and the homework, payment
    and quiz of the week as they were, and on which the student page
    shows the same in the row of that week and leaves every other row as
    it was. *)
Theorem attend_shows_on_pages (jwt_verify : Verifier) (db : Db) (req : Attend.Request)
    (student : Student.t) (ws : list WeekRecord) (auth : option string) (user : Claims.t)
    (weekString : string) (n : Z) :
  attend_accepted jwt_verify db req student ws ->
  Attend.attended (Attend.payload req) = true ->
  weeks_shape ws ->
  ScanPage.getWeekNumber weekString = Some n -> n <> 0%Z ->
  Attend.attendanceWeek (Attend.payload req) = ScanPage.getWeekNumber weekString ->
  authMiddleware jwt_verify auth = Return user ->
  let db' := snd (Attend.handler jwt_verify db req) in
  let la := Js.or_null (Attend.lastAttendance (Attend.payload req)) in
  exists (v : View.t) (w : WeekRecord),
    StudentById.handler jwt_verify db' (read_student auth (Attend.id req))
      = (json (StudentBody v), db') /\
    at_index ws (n - 1) = Some w /\
    (let shown := ScanPage.updateStudentWithWeekData v weekString in
     View.attended_the_session shown = true /\
     View.lastAttendance shown = la /\
     View.lastAttendanceCenter shown
       = Js.or_null (Attend.lastAttendanceCenter (Attend.payload req)) /\
     View.hwDone shown = hwDone w /\ View.paidSession shown = paidSession w /\
     View.quizDegree shown = quizDegree w) /\
    StudentInfo.getWeekAttendance (Some v) n
      = StudentInfo.mkWeekAttendance true (hwDone w) (paidSession w)
          (Js.or_null (quizDegree w)) (message_state w) (Js.or_null la) /\
    forall (before : View.t) (m : Z),
      View.weeks before = ws -> m <> n ->
      StudentInfo.getWeekAttendance (Some v) m
      = StudentInfo.getWeekAttendance (Some before) m.
Proof.
  intros Hacc Hatt Hshape Hn Hn0 Hweek Hauth db' la.
  pose proof Hacc as (_ & _ & Hfind & Hws & Hlo & Hhi).
  assert (Attend.weekIndex (Attend.payload req) = (n - 1)%Z) as Hidx.
  { unfold Attend.weekIndex, Attend.weekNumber. rewrite Hweek, Hn.
    by destruct (Z.eqb_spec n 0). }
  rewrite Hidx in Hlo, Hhi.
  set (i := Z.to_nat (n - 1)).
  set (q := Attend.attend_query (Attend.payload req)).
  set (ws' := alter (Mongo.apply_week_sets q) i ws).
  assert (weeks_shape ws') as Hshape' by (by apply weeks_shape_alter).
  assert (exists w, at_index ws (n - 1) = Some w) as [w Hw].
  { unfold at_index. destruct (Z.ltb_spec (n - 1) 0); [lia|].
    apply lookup_lt_is_Some_2. lia. }
  assert (at_index ws' (n - 1) = Some (Mongo.apply_week_sets q w)) as Hw'.
  { subst ws'. rewrite at_index_alter.
    destruct (decide ((n - 1)%Z = Z.of_nat i)) as [_|Hne]; [by rewrite Hw | subst i; lia]. }
  assert (exists v,
            StudentById.handler jwt_verify db' (read_student auth (Attend.id req))
              = (json (StudentBody v), db') /\ View.weeks v = ws') as (v & Hread & Hv).
  { apply (read_one_weeks jwt_verify db' auth user (Attend.id req)
             (Mongo.set_week (n - 1) q student) ws' Hauth).
    - subst db'. rewrite (attend_accepted_true jwt_verify db req student ws Hacc Hatt).
      cbn [snd students]. unfold attend_students. rewrite Hatt, Hidx.
      rewrite findOne_updateOne by done. by rewrite Hfind.
    - unfold Mongo.set_week. simpl. by rewrite Hws.
    - intros Hnil. destruct Hshape' as [Hlen _]. by rewrite Hnil in Hlen. }
  exists v, w. split; [exact Hread|]. split; [exact Hw|]. split_and!.
  - unfold ScanPage.updateStudentWithWeekData, ScanPage.getCurrentWeekData.
    rewrite (getWeekNumber_truthy _ _ Hn), Hn. simpl.
    destruct (Z.eqb_spec n 0) as [|_]; [contradiction|].
    rewrite Hv, Hw'. by destruct w.
  - unfold StudentInfo.getWeekAttendance.
    rewrite Hv, (find_week_shaped _ n Hshape'), Hw'. by destruct w.
  - intros before m Hbefore Hm. unfold StudentInfo.getWeekAttendance.
    rewrite Hv, Hbefore, (find_week_shaped _ m Hshape'), (find_week_shaped _ m Hshape).
    subst ws'. rewrite at_index_alter.
    destruct (decide ((m - 1)%Z = Z.of_nat i)) as [Heq|_]; [subst i; lia | reflexivity].
Qed.

Lemma attend_shows_on_pages_witness :
  exists (v : View.t) (w : WeekRecord),
    StudentById.handler sample_verify db_attended_once (read_student assistant_auth 1%Z)
      = (json (StudentBody v), db_attended_once) /\
    at_index fresh_weeks (3 - 1) = Some w /\
    View.attended_the_session (ScanPage.updateStudentWithWeekData v "week 03") = true /\
    StudentInfo.getWeekAttendance (Some v) 3
      = StudentInfo.mkWeekAttendance true (hwDone w) (paidSession w)
          (Js.or_null (quizDegree w)) (message_state w)
          (Js.or_null (Js.or_null (Some "01/01/2025 in Giza"))).
Proof.
  assert (exists s, attend_accepted sample_verify db_ali attend_week3 s fresh_weeks)
    as (s & Hacc).
  { eexists. unfold attend_accepted.
    split_and!; [reflexivity | eexists; reflexivity | reflexivity | reflexivity
                | vm_compute; discriminate | vm_compute; reflexivity]. }
  destruct (attend_shows_on_pages sample_verify db_ali attend_week3 s fresh_weeks
              assistant_auth assistant_claims "week 03" 3 Hacc eq_refl fresh_weeks_shape
              eq_refl ltac:(discriminate) eq_refl eq_refl)
    as (v & w & Hread & Hw & (Hshown & _) & Hrow & _).
  exists v, w. split_and!; [exact Hread | exact Hw | exact Hshown | exact Hrow].
Defined.

(** ** The attendance text of the scan page *)

Lemma forallb_range (f : Z -> bool) (lo len n : Z) :
  forallb f (map Z.of_nat (seq (Z.to_nat lo) (Z.to_nat len))) = true ->
  (0 <= lo)%Z -> (lo <= n < lo + len)%Z -> f n = true.
Proof.
  intros Hall Hlo Hn. rewrite forallb_forall in Hall. apply Hall.
  replace n with (Z.of_nat (Z.to_nat n)) by lia.
  apply in_map, in_seq. lia.
Qed.

Lemma day_two_digits (n : Z) :
  (1 <= n <= 31)%Z -> two_digits (Js.padStart 2 "0"%char (Js.String_ n)) = true.
Proof.
  intros Hn.
  apply (forallb_range (fun n => two_digits (Js.padStart 2 "0"%char (Js.String_ n)))
           1 31 n); [vm_compute; reflexivity | lia | lia].
Qed.

Lemma year_four_digits (n : Z) :
  (1000 <= n <= 9999)%Z -> four_digits (Js.String_ n) = true.
Proof.
  intros Hn.
  apply (forallb_range (fun n => four_digits (Js.String_ n)) 1000 9000 n);
    [vm_compute; reflexivity | lia | lia].
Qed.

Lemma two_digits_inv (s : string) :
  two_digits s = true ->
  exists a b, s = String a (String b EmptyString)
              /\ Js.is_digit a = true /\ Js.is_digit b = true.
Proof.
  unfold two_digits.
  destruct s as [|a [|b [|c s]]]; cbn [String.list_ascii_of_string]; try discriminate.
  intros Hd. apply andb_true_iff in Hd as [Ha Hb]. exists a, b. by split_and!.
Qed.

Lemma four_digits_inv (s : string) :
  four_digits s = true ->
  exists a b c d,
    s = String a (String b (String c (String d EmptyString)))
    /\ Js.is_digit a = true /\ Js.is_digit b = true /\ Js.is_digit c = true
    /\ Js.is_digit d = true.
Proof.
  unfold four_digits.
  destruct s as [|a [|b [|c [|d [|e s]]]]]; cbn [String.list_ascii_of_string];
    try discriminate.
  intros Hd. apply andb_true_iff in Hd as [Hd Hd4]. apply andb_true_iff in Hd as [Hd Hd3].
  apply andb_true_iff in Hd as [Hd1 Hd2]. exists a, b, c, d. by split_and!.
Qed.

(** The read of one student leaves the attendance text of the scan page
    as it is. *)
Lemma format_scan_text (now : ScanPage.Now) (attendanceCenter : string) (cw : WeekRecord) :
  plain_date now -> attendanceCenter <> EmptyString ->
  lastAttendance cw = Some (ScanPage.lastAttendance_text now attendanceCenter) ->
  lastAttendanceCenter cw = Some attendanceCenter ->
  format_lastAttendance cw = lastAttendance cw.
Proof.
  intros (Hday & Hmonth & Hyear) Hcenter Hla Hc.
  unfold format_lastAttendance. rewrite Hla, Hc.
  unfold ScanPage.lastAttendance_text.
  destruct (two_digits_inv _ (day_two_digits (ScanPage.getDate now) Hday))
    as (d1 & d2 & -> & Hd1 & Hd2).
  destruct (two_digits_inv _ (day_two_digits (ScanPage.getMonth now + 1) ltac:(lia)))
    as (m1 & m2 & -> & Hm1 & Hm2).
  destruct (four_digits_inv _ (year_four_digits (ScanPage.getFullYear now) Hyear))
    as (y1 & y2 & y3 & y4 & -> & Hy1 & Hy2 & Hy3 & Hy4).
  rewrite (truthy_nonempty attendanceCenter Hcenter).
  cbv [String.append]. fold String.append.
  cbn [Js.truthy String.eqb negb andb String.list_ascii_of_string date_match date_at
       forallb].
  rewrite Hd1, Hd2, Hm1, Hm2, Hy1, Hy2, Hy3, Hy4.
  reflexivity.
Qed.

Lemma scan_text_truthy (now : ScanPage.Now) (attendanceCenter : string) :
  plain_date now -> Js.truthy (ScanPage.lastAttendance_text now attendanceCenter) = true.
Proof.
  intros (Hday & _ & _). unfold ScanPage.lastAttendance_text.
  destruct (two_digits_inv _ (day_two_digits (ScanPage.getDate now) Hday))
    as (d1 & d2 & -> & _ & _).
  reflexivity.
Qed.

Lemma find_first {A : Type} (f : A -> bool) (l : list A) (i : nat) (x : A) :
  l !! i = Some x -> f x = true ->
  (forall (j : nat) (y : A), (j < i)%nat -> l !! j = Some y -> f y = false) ->
  List.find f l = Some x.
Proof.
  revert i. induction l as [|z l IH]; intros [|i] Hi Hx Hbefore; try discriminate.
  - injection Hi as ->. simpl. by rewrite Hx.
  - simpl. rewrite (Hbefore 0%nat z) by (lia || reflexivity).
    apply (IH i Hi Hx). intros j y Hj Hy. apply (Hbefore (S j) y); [lia | exact Hy].
Qed.

(** The student found after an accepted attendance. *)
Lemma attend_student_after (jwt_verify : Verifier) (db : Db) (req : Attend.Request)
    (student : Student.t) (ws : list WeekRecord) :
  attend_accepted jwt_verify db req student ws ->
  Attend.attended (Attend.payload req) = true ->
  Mongo.findOne (fun s => Student.id s = Attend.id req)
    (students (snd (Attend.handler jwt_verify db req)))
  = Some (Mongo.set_week (Attend.weekIndex (Attend.payload req))
            (Attend.attend_query (Attend.payload req)) student).
Proof.
  intros Hacc Hatt. pose proof Hacc as (_ & _ & Hfind & _).
  rewrite (attend_accepted_true jwt_verify db req student ws Hacc Hatt).
  cbn [snd students]. unfold attend_students. rewrite Hatt.
  rewrite findOne_updateOne by done. by rewrite Hfind.
Qed.

(** X27: when the scan page toggles a student to attended on a date of
    two-digit day and month and four-digit year, it sends the text
    [dd/mm/yyyy in center], the center and the number read from the
    selected week.  If that number is not zero, the request is accepted
    for a student with the 20 weeks numbered in sequence and no earlier
    week is attended, the read of the student that follows answers with
    [attended_the_session = true], the text and the center as sent -- the
    date formatting of the read leaves this text as it is -- and the label
    of that week. *)
Theorem scan_toggle_read_back (jwt_verify : Verifier) (db : Db) (st : View.t)
    (optimisticAttended : option bool) (selectedWeek attendanceCenter : string)
    (now : ScanPage.Now) (sid : Z) (p : Attend.Payload) (auth : option string)
    (student : Student.t) (ws : list WeekRecord) (n : Z) :
  plain_date now ->
  ScanPage.toggleAttendance (Some st) optimisticAttended selectedWeek attendanceCenter now
    = Some (sid, p) ->
  Attend.attended p = true ->
  ScanPage.getWeekNumber selectedWeek = Some n -> n <> 0%Z ->
  attend_accepted jwt_verify db (Attend.mkRequest POST auth sid p) student ws ->
  weeks_shape ws ->
  (forall (j : nat) (w : WeekRecord),
     (j < Z.to_nat (n - 1))%nat -> ws !! j = Some w -> attended w = false) ->
  let db' := snd (Attend.handler jwt_verify db (Attend.mkRequest POST auth sid p)) in
  sid = View.id st /\
  p = Attend.mkPayload true (Some (ScanPage.lastAttendance_text now attendanceCenter))
        (Some attendanceCenter) (Some n) /\
  exists v : View.t,
    StudentById.handler jwt_verify db' (read_student auth sid) = (json (StudentBody v), db') /\
    View.attended_the_session v = true /\
    View.lastAttendance v = Some (ScanPage.lastAttendance_text now attendanceCenter) /\
    View.lastAttendanceCenter v = Some attendanceCenter /\
    View.attendanceWeek v = week_label n.
Proof.
  intros Hdate Htoggle Hatt Hn Hn0 Hacc Hshape Hbefore db'.
  unfold ScanPage.toggleAttendance in Htoggle.
  destruct (Js.truthy selectedWeek) eqn:Hweek; [|discriminate].
  destruct (Js.truthy attendanceCenter) eqn:Hcenter; [|discriminate].
  simpl in Htoggle. injection Htoggle as <- Hp.
  assert (p = Attend.mkPayload true
                (Some (ScanPage.lastAttendance_text now attendanceCenter))
                (Some attendanceCenter) (Some n)) as ->.
  { rewrite <- Hp, Hn in *. unfold ScanPage.attendanceData in *.
    by destruct (negb _). }
  clear Hp Hatt. split; [reflexivity|]. split; [reflexivity|].
  set (p := Attend.mkPayload true _ _ _) in *.
  set (req := Attend.mkRequest POST auth (View.id st) p) in *.
  assert (attendanceCenter <> EmptyString) as Hcenter'.
  { intros ->. discriminate. }
  pose proof Hacc as (_ & [user Hauth] & Hfind & Hws & Hlo & Hhi).
  unfold req in Hauth, Hfind. cbn [Attend.authorization Attend.id] in Hauth, Hfind.
  assert (Attend.weekIndex p = (n - 1)%Z) as Hidx.
  { unfold Attend.weekIndex, Attend.weekNumber. simpl. by destruct (Z.eqb_spec n 0). }
  cbn [Attend.payload req] in Hlo, Hhi. rewrite Hidx in Hlo, Hhi.
  set (i := Z.to_nat (n - 1)) in *.
  destruct (lookup_lt_is_Some_2 ws i ltac:(lia)) as [w Hw].
  set (w' := Mongo.apply_week_sets (Attend.attend_query p) w).
  set (student' := Mongo.set_week (n - 1) (Attend.attend_query p) student).
  assert (Mongo.findOne (fun s => Student.id s = View.id st) (students db')
          = Some student') as Hfind'.
  { pose proof (attend_student_after jwt_verify db req student ws Hacc eq_refl) as Hafter.
    cbn [Attend.payload Attend.id req] in Hafter. by rewrite Hidx in Hafter. }
  assert (currentWeek student' = Some w') as Hcw.
  { unfold currentWeek, student', Mongo.set_week. simpl. rewrite Hws. simpl.
    fold i. rewrite (find_first attended _ i w'); [reflexivity | | reflexivity |].
    - by rewrite list_lookup_alter_eq, Hw.
    - intros j y Hj Hy. rewrite list_lookup_alter_ne in Hy by lia.
      by apply (Hbefore j y). }
  assert (lastAttendance w' = Some (ScanPage.lastAttendance_text now attendanceCenter))
    as Hla.
  { subst w'. destruct w. cbn. unfold Js.or_null. simpl.
    by rewrite (scan_text_truthy now attendanceCenter Hdate). }
  assert (lastAttendanceCenter w' = Some attendanceCenter) as Hlc.
  { subst w'. destruct w. cbn. unfold Js.or_null. simpl. by rewrite Hcenter. }
  eexists. split.
  - unfold StudentById.handler, StudentById.handler_try, read_student. simpl.
    rewrite Hauth, Hfind', Hcw. reflexivity.
  - unfold flatten. cbn [View.attended_the_session View.lastAttendance
                          View.lastAttendanceCenter View.attendanceWeek].
    rewrite (format_scan_text now attendanceCenter w' Hdate Hcenter' Hla Hlc).
    split_and!; [reflexivity | exact Hla | exact Hlc |].
    f_equal. subst w'. rewrite apply_week_sets_week.
    destruct Hshape as [_ Hweekno]. rewrite (Hweekno i w Hw). subst i. lia.
Qed.

Lemma scan_toggle_read_back_witness :
  exists v : View.t,
    StudentById.handler sample_verify db_attended_once (read_student assistant_auth 1%Z)
      = (json (StudentBody v), db_attended_once) /\
    View.attended_the_session v = true /\
    View.lastAttendance v = Some "01/01/2025 in Giza" /\
    View.attendanceWeek v = "week 03".
Proof.
  assert (exists s, attend_accepted sample_verify db_ali attend_week3 s fresh_weeks)
    as (s & Hacc).
  { eexists. unfold attend_accepted.
    split_and!; [reflexivity | eexists; reflexivity | reflexivity | reflexivity
                | vm_compute; discriminate | vm_compute; reflexivity]. }
  destruct (scan_toggle_read_back sample_verify db_ali
              (week_view (Student.mk 1 "Ali" None "1st Secondary" "School" "0100" "0101"
                            "Giza" None (Some fresh_weeks)) fresh_weeks (zeroed_week 1) None)
              None "week 03" "Giza" (ScanPage.mkNow 1 0 2025) 1%Z
              (Attend.mkPayload true (Some "01/01/2025 in Giza") (Some "Giza") (Some 3%Z))
              assistant_auth s fresh_weeks 3)
    as (_ & _ & v & Hread & Hattended & Hla & _ & Hlabel).
  - unfold plain_date. simpl. lia.
  - reflexivity.
  - reflexivity.
  - reflexivity.
  - discriminate.
  - exact Hacc.
  - exact fresh_weeks_shape.
  - intros j w Hj Hw. apply list_elem_of_lookup_2 in Hw.
    revert w Hw. apply Forall_forall. vm_compute. repeat constructor.
  - exists v. split_and!; [exact Hread | exact Hattended | exact Hla | exact Hlabel].
Defined.
